(** * aind-exaspim-dataset-utils: a shallow embedding and its properties

  The Python modules [io_util], [s3_util], [data_util] and
  [smartsheet_util] are embedded as Rocq functions.  Exceptions are values
  of an error monad, the remote services (S3, zarr, Smartsheet) and the
  local file system are explicit arguments, and Python loops whose
  termination depends on a remote service take fuel.

  Part I holds the definitions, Part II the lemmas and theorems. *)

From Stdlib Require Import ZArith Ascii String DecimalString List Lia Bool.
From Stdlib Require QArith.
From Stdlib Require Import Sorted.
From stdpp Require Import base option list strings gmap.

Local Open Scope Z_scope.

(** * Part I: definitions *)

(** ** The fragment of Python the modules rely on *)
Module Py.

(** Exceptions.  [Exception msg] is the bare [raise Exception(msg)] of the
    sources; the other constructors are the built-in subclasses of
    [Exception] that the modelled operations raise, and the two classes of
    [botocore] that its client and its paginator raise. *)
Inductive exn : Type :=
| Exception (msg : string)
| IndexError
| KeyError
| AttributeError
| ValueError
| TypeError
| ZeroDivisionError
| OSError
| ClientError
| PaginationError.

(** Outcome of running a piece of Python: a value, or a raised exception.
    The other two outcomes say that the model gives no answer: the fuel of
    a service-driven loop ran out, or the run met a value that the model
    has no counterpart for (a JSON document that is not a flat object of
    strings, a string with a code point the string type in use lacks). *)
Inductive result (A : Type) : Type :=
| Ok (a : A)
| Raise (e : exn)
| OutOfFuel
| Unmodelled.
Global Arguments Ok {A} a.
Global Arguments Raise {A} e.
Global Arguments OutOfFuel {A}.
Global Arguments Unmodelled {A}.

Definition bind {A B} (m : result A) (k : A → result B) : result B :=
  match m with
  | Ok a => k a
  | Raise e => Raise e
  | OutOfFuel => OutOfFuel
  | Unmodelled => Unmodelled
  end.

Global Instance result_ret : MRet result := @Ok.
Global Instance result_bind : MBind result := λ A B k m, bind m k.

(** [for x in xs: body], threading the loop state. *)
Fixpoint for_each {A S} (xs : list A) (s : S) (body : S → A → result S)
  : result S :=
  match xs with
  | [] => Ok s
  | x :: xs' => s' ← body s x; for_each xs' s' body
  end.

(** [try: body / except Exception: handler]. *)
Definition try_except {A} (body : result A) (handler : exn → result A)
  : result A :=
  match body with
  | Raise e => handler e
  | r => r
  end.

(** Values that flow through spreadsheet cells. *)
Inductive pyval : Type :=
| PyNone
| PyBool (b : bool)
| PyInt (z : Z)
| PyStr (s : string).

(** Python truth value testing. *)
Definition truthy (v : pyval) : bool :=
  match v with
  | PyNone => false
  | PyBool b => b
  | PyInt z => negb (z =? 0)
  | PyStr s => negb (String.eqb s "")
  end.

(** [a or b] *)
Definition py_or (a b : pyval) : pyval := if truthy a then a else b.

(** [a / b] on integers.  Python rounds the quotient to a float; the model
    keeps the exact rational. *)
Definition true_div (a b : Z) : result QArith_base.Q :=
  if b =? 0 then Raise ZeroDivisionError
  else Ok (QArith_base.Qdiv (QArith_base.inject_Z a) (QArith_base.inject_Z b)).

(** [l[i]] with Python's negative indices. *)
Definition py_index {A} (l : list A) (i : Z) : result A :=
  let n := Z.of_nat (length l) in
  let j := if i <? 0 then i + n else i in
  if (j <? 0) || (n <=? j) then Raise IndexError
  else match l !! Z.to_nat j with
       | Some x => Ok x
       | None => Raise IndexError
       end.

(** [s.split(sep)] for a one-character separator. *)
Fixpoint split (sep : ascii) (s : string) : list string :=
  match s with
  | EmptyString => [EmptyString]
  | String c s' =>
      if Ascii.eqb c sep then EmptyString :: split sep s'
      else match split sep s' with
           | h :: t => String c h :: t
           | [] => [String c EmptyString]
           end
  end.

(** [s.split(sep, 1)]: at most one split, at the first separator. *)
Fixpoint split1 (sep : ascii) (s : string) : list string :=
  match s with
  | EmptyString => [EmptyString]
  | String c s' =>
      if Ascii.eqb c sep then [EmptyString; s']
      else match split1 sep s' with
           | h :: t => String c h :: t
           | [] => [String c EmptyString]
           end
  end.

(** [s.replace(old, new)] for a non-empty [old]: occurrences are replaced
    left to right and do not overlap.  [skip] counts the characters of a
    matched occurrence still to be dropped. *)
Fixpoint replace_from (old new : string) (skip : nat) (s : string) : string :=
  match s with
  | EmptyString => EmptyString
  | String c s' =>
      match skip with
      | S k => replace_from old new k s'
      | O =>
          if String.prefix old s
          then new +:+ replace_from old new (Nat.pred (String.length old)) s'
          else String c (replace_from old new O s')
      end
  end.

Definition replace (old new s : string) : string := replace_from old new O s.

(** [needle in hay] on strings. *)
Fixpoint contains (needle hay : string) : bool :=
  String.prefix needle hay ||
  match hay with
  | EmptyString => false
  | String _ hay' => contains needle hay'
  end.

(** [s.endswith(suffix)] *)
Definition endswith (s suffix : string) : bool :=
  let n := String.length s in
  let m := String.length suffix in
  (m <=? n)%nat && String.eqb (String.substring (n - m) m s) suffix.

(** [sorted(l)] on strings: code-point order.  The order is total and
    antisymmetric, so the sorted list does not depend on the algorithm. *)
Fixpoint insert_sorted (x : string) (l : list string) : list string :=
  match l with
  | [] => [x]
  | y :: l' => if String.leb x y then x :: l else y :: insert_sorted x l'
  end.

Definition sorted (l : list string) : list string := foldr insert_sorted [] l.

(** Strings are sequences of code points below 256; [lower_char] is
    [str.lower] on that range: A-Z, and the Latin-1 capitals U+00C0-U+00DE
    except the multiplication sign U+00D7. *)
Definition lower_char (c : ascii) : ascii :=
  let n := N_of_ascii c in
  if ((65 <=? n) && (n <=? 90))%N
     || ((192 <=? n) && (n <=? 222) && negb (n =? 215))%N
  then ascii_of_N (n + 32)
  else c.

Fixpoint lower (s : string) : string :=
  match s with
  | EmptyString => EmptyString
  | String c s' => String (lower_char c) (lower s')
  end.

(** [s.rstrip(c)] for a one-character set. *)
Fixpoint rstrip (c : ascii) (s : string) : string :=
  match s with
  | EmptyString => EmptyString
  | String a s' =>
      match rstrip c s' with
      | EmptyString => if Ascii.eqb a c then EmptyString else String a EmptyString
      | t => String a t
      end
  end.

(** [os.path.join(a, b)] of posixpath. *)
Definition path_join (a b : string) : string :=
  if String.prefix "/" b then b
  else if String.eqb a "" || endswith a "/" then a +:+ b
  else a +:+ "/" +:+ b.

(** Lower-case hexadecimal digits, as printed by [%x]. *)
Definition hex_digit (n : N) : ascii :=
  if (n <? 10)%N then ascii_of_N (48 + n) else ascii_of_N (87 + n).

Definition hex2 (n : N) : string :=
  String (hex_digit (n / 16)) (String (hex_digit (n mod 16)) EmptyString).

Definition squote : ascii := "039"%char.
Definition dquote : ascii := "034"%char.
Definition backslash : ascii := "092"%char.

(** [str.isprintable] on one code point below 256. *)
Definition isprintable (c : ascii) : bool :=
  let n := N_of_ascii c in
  (((32 <=? n) && (n <=? 126)) || ((161 <=? n) && negb (n =? 173)))%N.

(** [repr(s)] of a string: single quotes unless the string holds a single
    quote and no double quote. *)
Definition repr_char (quote c : ascii) : string :=
  if Ascii.eqb c quote || Ascii.eqb c backslash
  then String backslash (String c EmptyString)
  else if Ascii.eqb c "009" then String backslash "t"
  else if Ascii.eqb c "010" then String backslash "n"
  else if Ascii.eqb c "013" then String backslash "r"
  else if isprintable c then String c EmptyString
  else String backslash (String "x" (hex2 (N_of_ascii c))).

Fixpoint repr_chars (quote : ascii) (s : string) : string :=
  match s with
  | EmptyString => EmptyString
  | String c s' => repr_char quote c +:+ repr_chars quote s'
  end.

Definition repr_str (s : string) : string :=
  let quote :=
    if contains (String squote EmptyString) s
       && negb (contains (String dquote EmptyString) s)
    then dquote else squote in
  String quote (repr_chars quote s +:+ String quote EmptyString).

(** [repr(l)] of a list of strings, which is also what an f-string
    substitutes for [{l}]. *)
Definition repr_list (l : list string) : string :=
  "[" +:+ String.concat ", " (map repr_str l) +:+ "]".

(** A [dict]: insertion-ordered, one entry per key. *)
Section dict.
Context {K V : Type} `{EqDecision K}.

(** [d.get(k)] *)
Fixpoint dict_get (d : list (K * V)) (k : K) : option V :=
  match d with
  | [] => None
  | (k', v) :: d' => if decide (k' = k) then Some v else dict_get d' k
  end.

(** [k in d] *)
Definition dict_contains (d : list (K * V)) (k : K) : bool :=
  match dict_get d k with Some _ => true | None => false end.

(** [d[k]] *)
Definition dict_getitem (d : list (K * V)) (k : K) : result V :=
  match dict_get d k with Some v => Ok v | None => Raise KeyError end.

(** [d[k] = v]: an existing key keeps its position. *)
Fixpoint dict_set (d : list (K * V)) (k : K) (v : V) : list (K * V) :=
  match d with
  | [] => [(k, v)]
  | (k', v') :: d' =>
      if decide (k' = k) then (k', v) :: d' else (k', v') :: dict_set d' k v
  end.

(** [dict(pairs)], also a dict comprehension over [pairs]. *)
Definition dict_of_pairs (pairs : list (K * V)) : list (K * V) :=
  foldl (λ d kv, dict_set d kv.1 kv.2) [] pairs.

(** [list(d.keys())] *)
Definition dict_keys (d : list (K * V)) : list K := d.*1.

End dict.

(** What a library call into a remote service or the operating system
    comes back with: a value or an exception. *)
Inductive reply (A : Type) : Type :=
| Returned (a : A)
| Failed (e : exn).
Global Arguments Returned {A} a.
Global Arguments Failed {A} e.

Definition call {A} (r : reply A) : result A :=
  match r with
  | Returned a => Ok a
  | Failed e => Raise e
  end.

(** A [for] loop whose body may [return]: [Some r] leaves the loop with
    [r], [None] goes on to the next element. *)
Fixpoint for_return {A R} (xs : list A) (body : A → result (option R))
  : result (option R) :=
  match xs with
  | [] => Ok None
  | x :: xs' =>
      r ← body x;
      match r with
      | Some v => Ok (Some v)
      | None => for_return xs' body
      end
  end.

End Py.
Import Py.

(** ** io_util.py *)
Module io_util.

(** *** Strings as [json] sees them

    Everywhere else a Python [str] is a [string] of code points below 256.
    [json] is modelled on every [str]: a sequence of code points up to
    0x10FFFF, the surrogates U+D800 to U+DFFF included.  [StrType] gives the
    code points of the strings of a type, and the string of a sequence of
    code points where the type has one.  The routines below are written once
    for both types of strings. *)
Class StrType (str : Type) : Type := {
  code_points : str → list N;
  of_code_points : list N → option str
}.

Global Instance latin1 : StrType string := {|
  code_points s := map N_of_ascii (list_ascii_of_string s);
  of_code_points points :=
    if forallb (λ n, n <? 256)%N points
    then Some (string_of_list_ascii (map ascii_of_N points))
    else None
|}.

Global Instance unicode : StrType (list N) := {|
  code_points points := points;
  of_code_points points := Some points
|}.

(** What the two operations owe each other. *)
Class StrLaws (str : Type) `{StrType str} : Prop := {
  of_code_points_code_points (s : str) :
    of_code_points (code_points s) = Some s;
  code_points_of_code_points (points : list N) (s : str) :
    of_code_points points = Some s → code_points s = points
}.

Definition is_high_surrogate (n : N) : bool := ((0xD800 <=? n) && (n <=? 0xDBFF))%N.
Definition is_low_surrogate (n : N) : bool := ((0xDC00 <=? n) && (n <=? 0xDFFF))%N.

(** *** The [json] encoder and decoder on prefix caches

    A prefix cache is a flat JSON object from strings to strings.
    [json_dump] is [json.dump] with its defaults ([ensure_ascii=True], item
    separator [", "], key separator [": "]) on such a dict: what it writes is
    plain ASCII.  A code point from U+10000 on is written as the escapes of
    its two surrogates; the quotient and remainder by 1024 stand for the
    shift and the masks of the encoder. *)

Definition hex4 (n : N) : string := hex2 (n / 256) +:+ hex2 (n mod 256).

Definition json_escape_char (n : N) : string :=
  if (n =? 34)%N then String backslash (String dquote EmptyString)
  else if (n =? 92)%N then String backslash (String backslash EmptyString)
  else if (n =? 8)%N then String backslash "b"
  else if (n =? 12)%N then String backslash "f"
  else if (n =? 10)%N then String backslash "n"
  else if (n =? 13)%N then String backslash "r"
  else if (n =? 9)%N then String backslash "t"
  else if ((32 <=? n) && (n <=? 126))%N then String (ascii_of_N n) EmptyString
  else if (n <? 0x10000)%N then String backslash (String "u" (hex4 n))
  else
    let v := (n - 0x10000)%N in
    String backslash (String "u" (hex4 (0xD800 + v / 1024)))
    +:+ String backslash (String "u" (hex4 (0xDC00 + v mod 1024))).

Fixpoint json_escape (points : list N) : string :=
  match points with
  | [] => EmptyString
  | n :: points' => json_escape_char n +:+ json_escape points'
  end.

Definition json_string `{StrType str} (s : str) : string :=
  String dquote (json_escape (code_points s) +:+ String dquote EmptyString).

Definition json_item `{StrType str} (kv : str * str) : string :=
  json_string kv.1 +:+ ": " +:+ json_string kv.2.

Definition json_dump `{StrType str} (contents : list (str * str)) : string :=
  "{" +:+ String.concat ", " (map json_item contents) +:+ "}".

(** Value of a hexadecimal digit, either case. *)
Definition hex_value (c : ascii) : option N :=
  let n := N_of_ascii c in
  if ((48 <=? n) && (n <=? 57))%N then Some (n - 48)%N
  else if ((97 <=? n) && (n <=? 102))%N then Some (n - 87)%N
  else if ((65 <=? n) && (n <=? 70))%N then Some (n - 55)%N
  else None.

Definition hex4_value (a b c d : ascii) : option N :=
  x ← hex_value a; y ← hex_value b; z ← hex_value c; w ← hex_value d;
  Some (((x * 16 + y) * 16 + z) * 16 + w)%N.

(** The code point a one-letter escape stands for. *)
Definition unescape (e : ascii) : option N :=
  if Ascii.eqb e dquote then Some 34%N
  else if Ascii.eqb e backslash then Some 92%N
  else if Ascii.eqb e "/" then Some 47%N
  else if Ascii.eqb e "b" then Some 8%N
  else if Ascii.eqb e "f" then Some 12%N
  else if Ascii.eqb e "n" then Some 10%N
  else if Ascii.eqb e "r" then Some 13%N
  else if Ascii.eqb e "t" then Some 9%N
  else None.

(** The code point of a high and a low surrogate read one after the other. *)
Definition join_surrogates (high low : N) : N :=
  (0x10000 + ((high - 0xD800) * 1024 + (low - 0xDC00)))%N.

(** Scans a string literal whose opening quote has been consumed; returns
    the code points of the string and the text after the closing quote.  The
    escape of a high surrogate that is followed at once by the escape of a
    low surrogate is read with it as one code point; any other escape is one
    code point by itself.  A raw control character, an unknown escape and
    the end of the text inside the literal are errors of the decoder, which
    raises [JSONDecodeError], a [ValueError]. *)
Fixpoint scanstring (s : string) : result (list N * string) :=
  match s with
  | EmptyString => Raise ValueError
  | String c s' =>
      if Ascii.eqb c dquote then Ok ([], s')
      else if Ascii.eqb c backslash then
        match s' with
        | EmptyString => Raise ValueError
        | String e s'' =>
            if Ascii.eqb e "u" then
              match s'' with
              | String h1 (String h2 (String h3 (String h4 s3))) =>
                  match hex4_value h1 h2 h3 h4 with
                  | Some n =>
                      if is_high_surrogate n then
                        match s3 with
                        | String "\" (String "u" s4) =>
                            match s4 with
                            | String l1 (String l2 (String l3 (String l4 s5))) =>
                                match hex4_value l1 l2 l3 l4 with
                                | Some m =>
                                    if is_low_surrogate m then
                                      '(t, rest) ← scanstring s5;
                                      Ok (join_surrogates n m :: t, rest)
                                    else
                                      '(t, rest) ← scanstring s3;
                                      Ok (n :: t, rest)
                                | None => Raise ValueError
                                end
                            | _ => Raise ValueError
                            end
                        | _ => '(t, rest) ← scanstring s3; Ok (n :: t, rest)
                        end
                      else '(t, rest) ← scanstring s3; Ok (n :: t, rest)
                  | None => Raise ValueError
                  end
              | _ => Raise ValueError
              end
            else
              match unescape e with
              | Some n =>
                  '(t, rest) ← scanstring s'';
                  Ok (n :: t, rest)
              | None => Raise ValueError
              end
        end
      else if (N_of_ascii c <? 32)%N then Raise ValueError
      else '(t, rest) ← scanstring s'; Ok (N_of_ascii c :: t, rest)
  end.

Definition is_json_space (c : ascii) : bool :=
  Ascii.eqb c " " || Ascii.eqb c "009" || Ascii.eqb c "010" || Ascii.eqb c "013".

Fixpoint skip_ws (s : string) : string :=
  match s with
  | EmptyString => EmptyString
  | String c s' => if is_json_space c then skip_ws s' else s
  end.

(** The characters a JSON value other than a string can start with: an
    object, an array, a number, [null], [true], [false], [NaN], [Infinity].
    Where the decoder expects a value, any other character is an error. *)
Definition starts_other_value (c : ascii) : bool :=
  Ascii.eqb c "{" || Ascii.eqb c "[" || Ascii.eqb c "-"
  || ((48 <=? N_of_ascii c) && (N_of_ascii c <=? 57))%N
  || Ascii.eqb c "n" || Ascii.eqb c "t" || Ascii.eqb c "f"
  || Ascii.eqb c "N" || Ascii.eqb c "I".

(** The members of an object, from just after the opening quote of a key to
    just after the closing brace.  A member whose value is not a string is
    not modelled.  Every member consumes input, so fuel equal to the length
    of the document is never used up. *)
Fixpoint scan_members (fuel : nat) (s : string) (pairs : list (list N * list N))
  : result (list (list N * list N) * string) :=
  match fuel with
  | O => OutOfFuel
  | S fuel' =>
      '(key, s1) ← scanstring s;
      match skip_ws s1 with
      | String ":" s2 =>
          match skip_ws s2 with
          | String "034" s3 =>
              '(value, s4) ← scanstring s3;
              let pairs := pairs ++ [(key, value)] in
              match skip_ws s4 with
              | String "}" s5 => Ok (pairs, s5)
              | String "," s5 =>
                  match skip_ws s5 with
                  | String "034" s6 => scan_members fuel' s6 pairs
                  | _ => Raise ValueError
                  end
              | _ => Raise ValueError
              end
          | String c _ =>
              if starts_other_value c then Unmodelled else Raise ValueError
          | EmptyString => Raise ValueError
          end
      | _ => Raise ValueError
      end
  end.

(** [json.loads] on the code points: a flat object from strings to strings
    is read into a dict, a later member replacing an earlier one of the same
    key.  A document that starts like another JSON value is not modelled;
    everything else is malformed. *)
Definition json_loads (text : string) : result (list (list N * list N)) :=
  match skip_ws text with
  | String "{" s1 =>
      '(pairs, rest) ←
        match skip_ws s1 with
        | String "}" s2 => Ok ([], s2)
        | String "034" s2 => scan_members (String.length text) s2 []
        | _ => Raise ValueError
        end;
      match skip_ws rest with
      | EmptyString => Ok (dict_of_pairs pairs)
      | _ => Raise ValueError
      end
  | String c _ =>
      if Ascii.eqb c dquote || starts_other_value c then Unmodelled
      else Raise ValueError
  | EmptyString => Raise ValueError
  end.

(** The dict in the string type in use, when each of its strings is one. *)
Definition as_dict `{StrType str} (d : list (list N * list N))
  : result (list (str * str)) :=
  for_each d []
    (λ acc kv,
       match of_code_points kv.1, of_code_points kv.2 with
       | Some k, Some v => Ok (acc ++ [(k, v)])
       | _, _ => Unmodelled
       end).

Definition json_load `{StrType str} (text : string) : result (list (str * str)) :=
  d ← json_loads text; as_dict d.

(** *** The file system

    [fs] maps a path to the text of the file there; a directory that holds
    no file is listed by its path with a slash at the end.  A directory is
    there when [fs] lists a path under it; the directory a relative path
    starts from and the root are always there.  Paths are modelled in their
    simplest spelling, without empty components and without [.] and [..],
    and are compared as they are written.  Links, permissions and the limits
    of the file system are not modelled.  [open] raises [ValueError] for a
    path with a null character, before it asks the file system, and
    [OSError] when the file system turns the path down. *)

Definition simply_spelt (path : string) : bool :=
  match split "/" path with
  | first :: rest =>
      forallb (λ c, negb (String.eqb c "." || String.eqb c "..")) (first :: rest)
      && forallb (λ c, negb (String.eqb c "")) rest
  | [] => true
  end.

Definition check_path (path : string) : result unit :=
  if contains (String "000" EmptyString) path then Raise ValueError
  else if String.eqb path "" || endswith path "/" then Raise OSError
  else if simply_spelt path then Ok () else Unmodelled.

(** The path of the directory a file lies in: [path] up to its last slash,
    nothing when it has none. *)
Fixpoint parent_dir (path : string) : string :=
  match path with
  | EmptyString => EmptyString
  | String c rest =>
      if contains "/" path then String c (parent_dir rest) else EmptyString
  end.

Definition exists_dir (fs : gmap string string) (dir : string) : bool :=
  String.eqb dir "" || String.eqb dir "/"
  || bool_decide (map_Exists (λ path _, String.prefix dir path = true) fs).

(** [open(path, "r")] followed by [f.read()]: the file has to be there. *)
Definition open_r (fs : gmap string string) (path : string) : result string :=
  _ ← check_path path;
  if exists_dir fs (path +:+ "/") then Raise OSError
  else match fs !! path with
       | Some text => Ok text
       | None => Raise OSError
       end.

(** [open(path, "w")]: the file is there already, or its directory is. *)
Definition open_w (fs : gmap string string) (path : string) : result unit :=
  _ ← check_path path;
  if exists_dir fs (path +:+ "/") then Raise OSError
  else if bool_decide (is_Some (fs !! path)) || exists_dir fs (parent_dir path)
  then Ok ()
  else Raise OSError.

(** *** The two routines *)
Definition read_json `{StrType str} (fs : gmap string string) (path : string)
  : result (list (str * str)) :=
  text ← open_r fs path; json_load text.

Definition write_json `{StrType str} (fs : gmap string string) (path : string)
  (contents : list (str * str)) : result (gmap string string) :=
  _ ← open_w fs path; Ok (<[path := json_dump contents]> fs).

End io_util.

(** ** s3_util.py *)
Module s3_util.

(** *** The storage service

    The keyword arguments of [list_objects_v2] that the module passes, and
    the fields of a response that it reads.  An entry of ["Contents"] is
    modelled by its ["Key"], an entry of ["CommonPrefixes"] by its
    ["Prefix"]; [None] means the field is missing from the response. *)
Record list_kwargs : Type := {
  Bucket : string;
  Prefix : option string;
  Delimiter : option string;
  ContinuationToken : option string
}.

Record response : Type := {
  Contents : option (list string);
  CommonPrefixes : option (list string);
  IsTruncated : bool;
  NextContinuationToken : option string
}.

(** The unsigned client every routine creates: one snapshot of the service
    answers all requests of a run. *)
Definition s3_client : Type := list_kwargs → reply response.

(** [if token:] on an optional string. *)
Definition is_set (token : option string) : bool :=
  match token with
  | Some t => negb (String.eqb t "")
  | None => false
  end.

Definition last_name (key : string) : result string :=
  py_index (split "/" key) (-1).

(** The pages of [paginator.paginate(Bucket, Prefix, Delimiter="/")] are
    requested one at a time.  The paginator asks for another page when the
    response is truncated and names a token that is not empty, and raises
    [PaginationError] when that token is the one it has just sent.
    [exists_in_prefix] returns from inside the loop, so later pages are not
    requested. *)
Fixpoint exists_in_pages (fuel : nat) (s3 : s3_client)
  (bucket_name prefix target_name : string) (token : option string)
  : result bool :=
  match fuel with
  | O => OutOfFuel
  | S fuel' =>
      page ← call (s3 {| Bucket := bucket_name; Prefix := Some prefix;
                         Delimiter := Some "/"; ContinuationToken := token |});
      in_contents ← for_return (default [] (Contents page))
        (λ key,
           name ← last_name key;
           if String.eqb name target_name then Ok (Some true) else Ok None);
      match in_contents with
      | Some b => Ok b
      | None =>
          in_prefixes ← for_return (default [] (CommonPrefixes page))
            (λ common_prefix,
               name ← last_name (rstrip "/" common_prefix);
               if String.eqb name target_name then Ok (Some true) else Ok None);
          match in_prefixes with
          | Some b => Ok b
          | None =>
              if IsTruncated page && is_set (NextContinuationToken page) then
                if bool_decide (NextContinuationToken page = token)
                then Raise PaginationError
                else exists_in_pages fuel' s3 bucket_name prefix target_name
                       (NextContinuationToken page)
              else Ok false
          end
      end
  end.

Definition exists_in_prefix (fuel : nat) (s3 : s3_client)
  (bucket_name prefix target_name : string) : result bool :=
  exists_in_pages fuel s3 bucket_name prefix target_name None.

(** The body of the [while True] loop of [list_bucket_prefixes]. *)
Fixpoint list_bucket_prefixes_loop (fuel : nat) (s3 : s3_client)
  (bucket_name : string) (keyword : option string)
  (prefixes : list string) (continuation_token : option string)
  : result (list string) :=
  match fuel with
  | O => OutOfFuel
  | S fuel' =>
      let list_kwargs :=
        {| Bucket := bucket_name; Prefix := None; Delimiter := Some "/";
           ContinuationToken :=
             if is_set continuation_token then continuation_token else None |} in
      response ← call (s3 list_kwargs);
      let prefixes :=
        match CommonPrefixes response with
        | Some common_prefixes =>
            foldl (λ prefixes prefix,
                     match keyword with
                     | Some k =>
                         if negb (String.eqb k "") && contains k (lower prefix)
                         then prefixes ++ [prefix] else prefixes
                     | None => prefixes ++ [prefix]
                     end)
                  prefixes common_prefixes
        | None => prefixes
        end in
      if IsTruncated response
      then list_bucket_prefixes_loop fuel' s3 bucket_name keyword prefixes
             (NextContinuationToken response)
      else Ok prefixes
  end.

Definition list_bucket_prefixes (fuel : nat) (s3 : s3_client)
  (bucket_name : string) (keyword : option string) : result (list string) :=
  list_bucket_prefixes_loop fuel s3 bucket_name keyword [] None.

Definition list_prefixes (s3 : s3_client) (bucket_name prefix : string)
  : result (list string) :=
  let prefix := if endswith prefix "/" then prefix else prefix +:+ "/" in
  response ← call (s3 {| Bucket := bucket_name; Prefix := Some prefix;
                         Delimiter := Some "/"; ContinuationToken := None |});
  match CommonPrefixes response with
  | Some common_prefixes => Ok common_prefixes
  | None => Ok []
  end.

(** [map(str, range(0, 8))] *)
Definition levels : list string := ["0"; "1"; "2"; "3"; "4"; "5"; "6"; "7"].

(** [brain_id] is a string or an integer; [str_of_brain_id] is [str]. *)
Inductive brain_id_t : Type :=
| IdStr (s : string)
| IdInt (z : Z).

Definition str_of_brain_id (brain_id : brain_id_t) : string :=
  match brain_id with
  | IdStr s => s
  | IdInt z => NilZero.string_of_int (Z.to_int z)
  end.

Definition is_valid_img_prefix (fuel : nat) (s3 : s3_client)
  (bucket_name prefix : string) (brain_id : brain_id_t) : result bool :=
  let is_test := contains "test" (lower prefix) in
  let has_correct_id := contains (str_of_brain_id brain_id) prefix in
  if negb has_correct_id || is_test then Ok false
  else
    has_zarr ← exists_in_prefix fuel s3 bucket_name prefix "fused.zarr";
    if (has_zarr : bool) then
      let img_prefix := path_join prefix "fused.zarr" in
      multiscales ← list_prefixes s3 bucket_name img_prefix;
      multiscales ← for_each multiscales []
        (λ acc s, name ← py_index (split "/" s) (-2); Ok (acc ++ [name]));
      missing ← for_return levels
        (λ s, if bool_decide (s ∈ multiscales) then Ok None else Ok (Some false));
      match missing with
      | Some b => Ok b
      | None => Ok true
      end
    else Ok true.

(** [np.max] of a shape: an empty shape has no maximum. *)
Definition np_max (shape : list Z) : result Z :=
  match shape with
  | [] => Raise ValueError
  | d :: ds => Ok (foldl Z.max d ds)
  end.

(** [zarr_open root] stands for opening [root] through [s3fs] and [zarr]
    and reading the [shape] of what is found there. *)
Definition is_shape_plausible (zarr_open : string → reply (list Z))
  (prefix : string) : result bool :=
  returned ← try_except
    (let root := path_join prefix "0" in
     shape ← call (zarr_open root);
     largest ← np_max shape;
     if 25000 <? largest then Ok (Some true) else Ok None)
    (λ e, Ok None);
  match returned with
  | Some b => Ok b
  | None => Ok false
  end.

Definition find_img_prefix (fuel : nat) (s3 : s3_client)
  (zarr_open : string → reply (list Z)) (brain_id : string)
  : result (list string) :=
  let bucket_name := "aind-open-data" in
  let keyword := "exaspim_" +:+ brain_id in
  prefixes ← list_bucket_prefixes fuel s3 bucket_name (Some keyword);
  for_each prefixes []
    (λ valid_prefixes prefix,
       has_fusion ← exists_in_prefix fuel s3 bucket_name prefix "fusion";
       let prefix := if (has_fusion : bool) then path_join prefix "fusion" else prefix in
       valid ← is_valid_img_prefix fuel s3 bucket_name prefix (IdStr brain_id);
       if (valid : bool) then
         let prefix :=
           path_join (path_join "s3://aind-open-data" prefix) "fused.zarr" in
         plausible ← is_shape_plausible zarr_open prefix;
         if (plausible : bool) then Ok (valid_prefixes ++ [prefix]) else Ok valid_prefixes
       else Ok valid_prefixes).

(** Returns the file system after the call together with the prefix. *)
Definition get_img_prefix (fuel : nat) (s3 : s3_client)
  (zarr_open : string → reply (list Z)) (fs : gmap string string)
  (brain_id : string) (prefix_lookup_path : option string)
  : result (gmap string string * string) :=
  prefix_lookup ←
    (if is_set prefix_lookup_path
     then d ← io_util.read_json fs (default "" prefix_lookup_path); Ok (Some d)
     else Ok None);
  match prefix_lookup ≫= λ d, dict_get d brain_id with
  | Some cached => Ok (fs, cached)
  | None =>
      found ← find_img_prefix fuel s3 zarr_open brain_id;
      match found with
      | [candidate] =>
          let prefix := candidate +:+ "/" in
          match prefix_lookup with
          | Some d =>
              fs' ← io_util.write_json fs (default "" prefix_lookup_path)
                      (dict_set d brain_id prefix);
              Ok (fs', prefix)
          | None => Ok (fs, prefix)
          end
      | _ => Raise (Exception ("Image Prefixes Found - " +:+ repr_list found))
      end
  end.

End s3_util.

(** ** data_util.py *)
Module data_util.

Definition find_most_recent_dirname (results_prefix_list : list string)
  : result string :=
  dates ← for_each results_prefix_list []
    (λ dates prefix,
       dirname ← py_index (split "/" prefix) (-2);
       Ok (dates ++ [replace "results_" "" dirname]));
  latest ← py_index (sorted dates) (-1);
  Ok ("results_" +:+ latest).

Section soma_locations.
(** [read_csv path] stands for [pd.read_csv(path)]: the columns of the table
    by name, or a failure.  [literal_eval] is [ast.literal_eval]. *)
Context {coord : Type}.
Variable read_csv : string → reply (list (string * list pyval)).
Variable literal_eval : pyval → result coord.

(** Returns [None] when there is no data, else the list of coordinates. *)
Definition load_soma_locations (s3 : s3_util.s3_client) (brain_id : string)
  : result (option (list coord)) :=
  let bucket_name := "aind-msma-morphology-data" in
  let prefix := "exaspim_soma_detection/" +:+ brain_id in
  prefix_list ← s3_util.list_prefixes s3 bucket_name prefix;
  match prefix_list with
  | _ :: _ =>
      dirname ← find_most_recent_dirname prefix_list;
      let path := "s3://" +:+ bucket_name +:+ "/" +:+ prefix +:+ "/" +:+ dirname
                  +:+ "/somas-" +:+ brain_id +:+ ".csv" in
      table ← call (read_csv path);
      column ← dict_getitem table "xyz";
      points ← for_each column []
        (λ points cell, point ← literal_eval cell; Ok (points ++ [point]));
      Ok (Some points)
  | [] => Ok None
  end.

End soma_locations.

End data_util.


(** ** smartsheet_util.py *)
Module smartsheet_util.

(** *** The sheet snapshot held by a [SmartSheetClient] *)
Record Cell : Type := {
  column_id : Z;
  display_value : option string;
  value : pyval
}.

Record Row : Type := {
  row_id : Z;
  parent_id : option Z;
  cells : list Cell
}.

Record Column : Type := {
  title : string;
  col_id : Z
}.

Record Sheet : Type := {
  columns : list Column;
  rows : list Row
}.

Record SmartSheetClient : Type := {
  sheet : Sheet;
  column_name_to_id : list (string * Z)
}.

(** The lookup built by [__init__] from the fetched sheet. *)
Definition init (fetched : Sheet) : SmartSheetClient :=
  {| sheet := fetched;
     column_name_to_id :=
       dict_of_pairs (map (λ c, (title c, col_id c)) (columns fetched)) |}.

(** [cell.display_value] as a Python value. *)
Definition display (cell : Cell) : pyval :=
  match display_value cell with
  | Some s => PyStr s
  | None => PyNone
  end.

(** [next((c for c in row.cells if c.column_id == col_id), None)] followed
    by an attribute access, which raises on [None]. *)
Definition cell_of (row : Row) (col : Z) : result Cell :=
  match List.find (λ c, column_id c =? col) (cells row) with
  | Some c => Ok c
  | None => Raise AttributeError
  end.

Definition get_value (self : SmartSheetClient) (row_idx : Z)
  (column_name : string) : result pyval :=
  row ← py_index (rows (sheet self)) row_idx;
  col ← dict_getitem (column_name_to_id self) column_name;
  cell ← cell_of row col;
  Ok (py_or (display cell) (value cell)).

(** [cell.value if cell.display_value else cell.display_value] *)
Definition dataframe_entry (cell : Cell) : pyval :=
  if truthy (display cell) then value cell else display cell.

(** A sheet as the listing calls of the service show it. *)
Record SheetInfo : Type := {
  name : string;
  sheet_id : Z
}.

(** [client.Sheets.list_sheets()] answers with the sheets the caller can
    reach directly. *)
Definition find_sheet_id (list_sheets : reply (list SheetInfo))
  (sheet_name : string) : result Z :=
  response ← call list_sheets;
  found ← for_return response
    (λ sheet, if String.eqb (name sheet) sheet_name
              then Ok (Some (sheet_id sheet)) else Ok None);
  match found with
  | Some id => Ok id
  | None => Raise (Exception ("Sheet Not Found - sheet_name=" +:+ sheet_name))
  end.

(** [client.Workspaces.list_workspaces()] answers with the ids of the
    workspaces, [client.Workspaces.get_workspace(id)] with the sheets of
    one; a workspace is fetched only when the loop reaches it. *)
Definition find_workspace_sheet_id (list_workspaces : reply (list Z))
  (get_workspace : Z → reply (list SheetInfo)) (sheet_name : string)
  : result Z :=
  workspaces ← call list_workspaces;
  found ← for_return workspaces
    (λ ws,
       workspace ← call (get_workspace ws);
       for_return workspace
         (λ sheet, if String.eqb (name sheet) sheet_name
                   then Ok (Some (sheet_id sheet)) else Ok None));
  match found with
  | Some id => Ok id
  | None => Raise (Exception ("Sheet Not Found - sheet_name=" +:+ sheet_name))
  end.

(** [cell.display_value == keyword] for a string [keyword]. *)
Definition shows (keyword : string) (cell : Cell) : bool :=
  match display_value cell with
  | Some s => String.eqb s keyword
  | None => false
  end.

Definition find_row_id (self : SmartSheetClient) (keyword : string)
  : result Z :=
  found ← for_return (rows (sheet self))
    (λ row,
       for_return (cells row)
         (λ cell, if shows keyword cell then Ok (Some (row_id row)) else Ok None));
  match found with
  | Some id => Ok id
  | None => Raise (Exception ("Row Not Found - keyword=" +:+ keyword))
  end.

(** The body of the loop of [get_rows_in_column_with], for row [idx]. *)
Definition matching_row_step (col : Z) (row_value : string)
  (row_idxs : list Z) (entry : nat * Row) : result (list Z) :=
  let '(idx, row) := entry in
  cell ← cell_of row col;
  match py_or (display cell) (value cell) with
  | PyStr s =>
      if String.eqb (lower s) (lower row_value)
      then Ok (row_idxs ++ [Z.of_nat idx]) else Ok row_idxs
  | _ => Ok row_idxs
  end.

Definition get_rows_in_column_with (self : SmartSheetClient)
  (column_name row_value : string) : result (list Z) :=
  col ← dict_getitem (column_name_to_id self) column_name;
  for_each (imap (λ idx row, (idx, row)) (rows (sheet self))) []
    (matching_row_step col row_value).

(** [if row.parent_id:] on an optional row id. *)
Definition has_parent (row : Row) : option Z :=
  match parent_id row with
  | Some p => if p =? 0 then None else Some p
  | None => None
  end.

(** The [defaultdict(list)] of [get_children_map], keyed in the order in
    which parents are first met. *)
Definition get_children_map (self : SmartSheetClient)
  : result (list (Z * list Z)) :=
  let idx_lookup :=
    dict_of_pairs
      (imap (λ idx row, (row_id row, Z.of_nat idx)) (rows (sheet self))) in
  for_each (rows (sheet self)) []
    (λ children_map row,
       match has_parent row with
       | Some parent =>
           parent_idx ← dict_getitem idx_lookup parent;
           child_idx ← dict_getitem idx_lookup (row_id row);
           Ok (dict_set children_map parent_idx
                 (default [] (dict_get children_map parent_idx) ++ [child_idx]))
       | None => Ok children_map
       end).

(** [brain_id, segmentation_id = sample_name.split("_", 1)] *)
Definition split_sample (sample_name : pyval) : result (string * string) :=
  match sample_name with
  | PyStr s =>
      match split1 "_" s with
      | [brain_id; segmentation_id] => Ok (brain_id, segmentation_id)
      | _ => Raise ValueError
      end
  | _ => Raise AttributeError
  end.

(** What [extract_merge_sites] prints when [verbose]. *)
Inductive printed : Type :=
| SuccessRate (brain_id : string) (rate : QArith_base.Q)
| OverallSuccessRate (rate : QArith_base.Q)
| ConfirmedMergeSites (count : Z).

Section pandas.
(** [pandas] is a collaborator: a frame type with the constructor from rows
    and column titles, the constructor from named columns, and [concat].
    [ast.literal_eval] reads a coordinate from a cell value. *)
Context {DataFrame coord : Type}.
Variable DataFrame_of_rows : list (list pyval) → list string → result DataFrame.
Variable literal_eval : pyval → result coord.

Definition to_dataframe (self : SmartSheetClient) : result DataFrame :=
  let columns := dict_keys (column_name_to_id self) in
  data ← for_each (rows (sheet self)) []
    (λ data row,
       row_data ← for_each (cells row) []
         (λ row_data cell, let val := dataframe_entry cell in Ok (row_data ++ [val]));
       Ok (data ++ [row_data]));
  DataFrame_of_rows data columns.

Definition read_xyz (xyz_str : pyval) : result coord := literal_eval xyz_str.

(** The dict [sites] of [find_confirmed_merge_sites], one field per key. *)
Record Sites : Type := {
  segment_id : list pyval;
  groundtruth_id : list pyval;
  xyz : list coord
}.

(** The body of the loop of [find_confirmed_merge_sites], for row [i]. *)
Definition merge_site_step (smartsheet_client : SmartSheetClient)
  (state : Sites * Z) (i : Z) : result (Sites * Z) :=
  let '(sites, n_reviewed_sites) := state in
  is_merge ← get_value smartsheet_client i "Merge Confirmation";
  is_reviewed ← get_value smartsheet_client i "Reviewed?";
  sites ←
    (if truthy is_merge && truthy is_reviewed then
       seg ← get_value smartsheet_client i "Segmentation ID";
       gt ← get_value smartsheet_client i "Ground Truth ID";
       world ← get_value smartsheet_client i "World Coordinates";
       point ← read_xyz world;
       Ok {| segment_id := segment_id sites ++ [seg];
             groundtruth_id := groundtruth_id sites ++ [gt];
             xyz := xyz sites ++ [point] |}
     else Ok sites);
  if truthy is_reviewed
  then Ok (sites, n_reviewed_sites + 1)
  else Ok (sites, n_reviewed_sites).

Definition find_confirmed_merge_sites (smartsheet_client : SmartSheetClient)
  (idxs : list Z) : result (Sites * Z) :=
  for_each idxs
    ({| segment_id := []; groundtruth_id := []; xyz := [] |}, 0)
    (merge_site_step smartsheet_client).

Variable DataFrame_of_columns :
  list string → list string → Sites → result DataFrame.
Variable concat : list DataFrame → result DataFrame.

(** The state of the loop of [extract_merge_sites]: the frames collected,
    the two running totals and the lines printed. *)
Record Totals : Type := {
  merge_site_dfs : list DataFrame;
  n_merge_sites : Z;
  n_reviewed_sites : Z;
  stdout : list printed
}.

(** The body of that loop, for one parent row and its children. *)
Definition extract_parent (smartsheet_client : SmartSheetClient) (verbose : bool)
  (totals : Totals) (entry : Z * list Z) : result Totals :=
  let '(parent_idx, child_idxs) := entry in
  sample_name ← get_value smartsheet_client parent_idx "Sample";
  '(brain_id, segmentation_id) ← split_sample sample_name;
  '(sites, n) ← find_confirmed_merge_sites smartsheet_client child_idxs;
  let count := length (xyz sites) in
  if (0 <? count)%nat then
    df ← DataFrame_of_columns (replicate count brain_id)
           (replicate count segmentation_id) sites;
    success_rate ← true_div (Z.of_nat count) n;
    Ok {| merge_site_dfs := merge_site_dfs totals ++ [df];
          n_merge_sites := n_merge_sites totals + Z.of_nat count;
          n_reviewed_sites := n_reviewed_sites totals + n;
          stdout := if verbose
                    then stdout totals ++ [SuccessRate brain_id success_rate]
                    else stdout totals |}
  else Ok totals.

(** Returns the frame together with the lines printed. *)
Definition extract_merge_sites (smartsheet_client : SmartSheetClient)
  (verbose : bool) : result (DataFrame * list printed) :=
  children_map ← get_children_map smartsheet_client;
  totals ← for_each children_map
    {| merge_site_dfs := []; n_merge_sites := 0; n_reviewed_sites := 0;
       stdout := [] |}
    (extract_parent smartsheet_client verbose);
  out ←
    (if verbose then
       overall ← true_div (n_merge_sites totals) (n_reviewed_sites totals);
       Ok (stdout totals
             ++ [OverallSuccessRate overall;
                 ConfirmedMergeSites (n_merge_sites totals)])
     else Ok (stdout totals));
  df ← concat (merge_site_dfs totals);
  Ok (df, out).

End pandas.

End smartsheet_util.

(** ** Notions used in the statements *)

(** [pages_from s3 request token pages]: asked with [token] and then with
    each continuation token it hands out, the service returns [pages], the
    last of which is not truncated. *)
Inductive pages_from (s3 : s3_util.s3_client)
  (request : option string → s3_util.list_kwargs)
  : option string → list s3_util.response → Prop :=
| pages_last (token : option string) (r : s3_util.response) :
    s3 (request token) = Returned r →
    s3_util.IsTruncated r = false →
    pages_from s3 request token [r]
| pages_more (token : option string) (r : s3_util.response) (next : string)
    (rs : list s3_util.response) :
    s3 (request token) = Returned r →
    s3_util.IsTruncated r = true →
    s3_util.NextContinuationToken r = Some next →
    next ≠ "" →
    pages_from s3 request (Some next) rs →
    pages_from s3 request token (r :: rs).

(** The directories a page lists. *)
Definition page_dirs (r : s3_util.response) : list string :=
  default [] (s3_util.CommonPrefixes r).

(** The directories of a whole listing. *)
Definition all_dirs (pages : list s3_util.response) : list string :=
  concat (map page_dirs pages).

(** The requests of [list_bucket_prefixes] and [list_prefixes]. *)
Definition bucket_request (bucket_name : string) (token : option string)
  : s3_util.list_kwargs :=
  {| s3_util.Bucket := bucket_name; s3_util.Prefix := None;
     s3_util.Delimiter := Some "/"; s3_util.ContinuationToken := token |}.

Definition prefix_request (bucket_name prefix : string) (token : option string)
  : s3_util.list_kwargs :=
  {| s3_util.Bucket := bucket_name; s3_util.Prefix := Some prefix;
     s3_util.Delimiter := Some "/"; s3_util.ContinuationToken := token |}.

(** The sixteen ways of writing [test] in upper and lower case. *)
Definition test_spellings : list string :=
  t ← ["t"; "T"]; e ← ["e"; "E"]; s ← ["s"; "S"]; t' ← ["t"; "T"];
  [t +:+ e +:+ s +:+ t'].

(** The names [is_valid_img_prefix] compares the levels with: the last
    directory component of each listed prefix. *)
Definition level_names (dirs : list string) : result (list string) :=
  for_each dirs []
    (λ acc s, name ← py_index (split "/" s) (-2); Ok (acc ++ [name])).

(** The prefixes [list_bucket_prefixes] keeps under a keyword. *)
Definition keyword_filter (keyword : option string) (dirs : list string)
  : list string :=
  match keyword with
  | None => dirs
  | Some k =>
      List.filter (λ prefix, negb (String.eqb k "") && contains k (lower prefix)) dirs
  end.

(** [list_prefixes] lists the prefix with a trailing slash. *)
Definition with_slash (prefix : string) : string :=
  if endswith prefix "/" then prefix else prefix +:+ "/".

(** Dated result directories. *)
Definition is_digit (c : ascii) : bool :=
  ((48 <=? N_of_ascii c) && (N_of_ascii c <=? 57))%N.

Fixpoint all_chars (p : ascii → bool) (s : string) : bool :=
  match s with
  | EmptyString => true
  | String c s' => p c && all_chars p s'
  end.

(** [YYYYMMDD]: eight digits. *)
Definition is_yyyymmdd (date : string) : bool :=
  (String.length date =? 8)%nat && all_chars is_digit date.

(** A parent path: empty, or ending in a slash. *)
Definition is_parent (parent : string) : Prop :=
  parent = "" ∨ ∃ q, parent = q +:+ "/".

(** The prefix of the directory [results_<date>] under [parent]. *)
Definition results_prefix (parent date : string) : string :=
  parent +:+ "results_" +:+ date +:+ "/".

(** Whether [get_value] reads a truthy value from a cell. *)
Definition cell_truthy (client : smartsheet_util.SmartSheetClient) (i : Z)
  (column_name : string) : bool :=
  match smartsheet_util.get_value client i column_name with
  | Ok v => truthy v
  | _ => false
  end.

(** A child row counts as reviewed when its ["Reviewed?"] cell is truthy,
    and as confirmed when its ["Merge Confirmation"] cell is truthy too. *)
Definition reviewed (client : smartsheet_util.SmartSheetClient) (i : Z) : bool :=
  cell_truthy client i "Reviewed?".

Definition confirmed (client : smartsheet_util.SmartSheetClient) (i : Z) : bool :=
  cell_truthy client i "Merge Confirmation" && reviewed client i.

(** The three readings that make up the record of row [i]. *)
Definition record_of {coord} (literal_eval : pyval → result coord)
  (client : smartsheet_util.SmartSheetClient) (i : Z)
  (seg gt : pyval) (point : coord) : Prop :=
  smartsheet_util.get_value client i "Segmentation ID" = Ok seg ∧
  smartsheet_util.get_value client i "Ground Truth ID" = Ok gt ∧
  ∃ world, smartsheet_util.get_value client i "World Coordinates" = Ok world ∧
           literal_eval world = Ok point.

(** A sequence of code points is a [str] when none of them exceeds
    U+10FFFF. *)
Definition is_str (points : list N) : bool :=
  forallb (λ n, n <=? 0x10FFFF)%N points.

(** No high surrogate is followed at once by a low surrogate. *)
Fixpoint no_surrogate_pair (points : list N) : bool :=
  match points with
  | n :: points' =>
      match points' with
      | m :: _ =>
          negb (io_util.is_high_surrogate n && io_util.is_low_surrogate m)
      | [] => true
      end && no_surrogate_pair points'
  | [] => true
  end.

(** The strings [json] reads back as it wrote them. *)
Definition json_safe `{io_util.StrType str} (s : str) : bool :=
  is_str (io_util.code_points s) && no_surrogate_pair (io_util.code_points s).

(** [get_img_prefix] misses the cache when no cache path is given, or when
    the cache file is read and has no entry for the identifier; in the
    second case the path and the dict read are kept for the write back. *)
Inductive cache_miss (fs : gmap string string) (brain_id : string)
  : option string → option (string * list (string * string)) → Prop :=
| miss_no_cache (prefix_lookup_path : option string) :
    s3_util.is_set prefix_lookup_path = false →
    cache_miss fs brain_id prefix_lookup_path None
| miss_not_cached (path : string) (prefix_lookup : list (string * string)) :
    path ≠ "" →
    io_util.read_json fs path = Ok prefix_lookup →
    dict_get prefix_lookup brain_id = None →
    cache_miss fs brain_id (Some path) (Some (path, prefix_lookup)).

(** The file system once the prefix found has been added to the cache. *)
Definition cache_written (fs : gmap string string)
  (cache : option (string * list (string * string)))
  (brain_id prefix : string) : gmap string string :=
  match cache with
  | Some (path, prefix_lookup) =>
      <[path := io_util.json_dump (dict_set prefix_lookup brain_id prefix)]> fs
  | None => fs
  end.

(** The last component of a key, and the names [exists_in_prefix] reads off
    a page: the files and the subdirectories listed there. *)
Definition last_component (key : string) : string :=
  List.last (split "/" key) "".

Definition page_names (r : s3_util.response) : list string :=
  map last_component (default [] (s3_util.Contents r))
  ++ map (λ d, last_component (rstrip "/" d)) (default [] (s3_util.CommonPrefixes r)).

(** The file [load_soma_locations] reads for a brain and a date. *)
Definition soma_csv_path (brain_id date : string) : string :=
  "s3://aind-msma-morphology-data/exaspim_soma_detection/" +:+ brain_id
  +:+ "/results_" +:+ date +:+ "/somas-" +:+ brain_id +:+ ".csv".

(** The request [load_soma_locations] lists the runs of a brain with. *)
Definition soma_request (brain_id : string) : s3_util.list_kwargs :=
  prefix_request "aind-msma-morphology-data"
    (with_slash ("exaspim_soma_detection/" +:+ brain_id)) None.

(** What a row has to hold in a column to be listed by
    [get_rows_in_column_with]: a string, shown or raw, that equals the value
    asked for up to the case of letters. *)
Definition row_matches (col : Z) (row_value : string)
  (row : smartsheet_util.Row) : Prop :=
  ∃ cell s, smartsheet_util.cell_of row col = Ok cell ∧
            py_or (smartsheet_util.display cell) (smartsheet_util.value cell)
            = PyStr s ∧
            lower s = lower row_value.

(** The capital letters A to Z. *)
Definition is_capital (c : ascii) : bool :=
  ((65 <=? N_of_ascii c) && (N_of_ascii c <=? 90))%N.

(** The totals [extract_merge_sites] reports over a children map: the
    confirmed children of all parents, and the reviewed children of the
    parents that have a confirmed child. *)
Definition confirmed_total (client : smartsheet_util.SmartSheetClient)
  (children_map : list (Z * list Z)) : Z :=
  foldr (λ entry acc,
           Z.of_nat (length (List.filter (confirmed client) entry.2)) + acc)
        0 children_map.

Definition reviewed_total (client : smartsheet_util.SmartSheetClient)
  (children_map : list (Z * list Z)) : Z :=
  foldr (λ entry acc,
           (if (0 <? length (List.filter (confirmed client) entry.2))%nat
            then Z.of_nat (length (List.filter (reviewed client) entry.2))
            else 0) + acc)
        0 children_map.

(** ** Sample data *)
Module samples.
Import smartsheet_util.

(** A sheet with one parent row and three review rows under it: one
    confirmed and reviewed, one reviewed only, one not yet reviewed. *)
Definition merge_columns : list Column :=
  [ {| title := "Sample"; col_id := 1 |};
    {| title := "Merge Confirmation"; col_id := 2 |};
    {| title := "Reviewed?"; col_id := 3 |};
    {| title := "Segmentation ID"; col_id := 4 |};
    {| title := "Ground Truth ID"; col_id := 5 |};
    {| title := "World Coordinates"; col_id := 6 |} ].

Definition text_cell (col : Z) (s : string) : Cell :=
  {| column_id := col; display_value := Some s; value := PyStr s |}.

Definition box_cell (col : Z) (checked : bool) : Cell :=
  {| column_id := col; display_value := None; value := PyBool checked |}.

Definition empty_cell (col : Z) : Cell :=
  {| column_id := col; display_value := None; value := PyNone |}.

Definition review_row (rid : Z) (merge reviewed : bool) (seg gt xyz : string) : Row :=
  {| row_id := rid; parent_id := Some 100;
     cells := [ empty_cell 1; box_cell 2 merge; box_cell 3 reviewed;
                text_cell 4 seg; text_cell 5 gt; text_cell 6 xyz ] |}.

Definition merge_sheet : Sheet :=
  {| columns := merge_columns;
     rows :=
       [ {| row_id := 100; parent_id := None;
            cells := [ text_cell 1 "653158_seg1"; empty_cell 2; empty_cell 3;
                       empty_cell 4; empty_cell 5; empty_cell 6 ] |};
         review_row 101 true true "17" "N001" "(1, 2, 3)";
         review_row 102 false true "18" "N002" "(4, 5, 6)";
         review_row 103 false false "19" "N003" "(7, 8, 9)" ] |}.

Definition merge_client : SmartSheetClient := init merge_sheet.

(** [ast.literal_eval] on the coordinates of the sample sheet. *)
Definition literal_eval (v : pyval) : result (Z * Z * Z) :=
  match v with
  | PyStr s =>
      match dict_get [("(1, 2, 3)", (1, 2, 3)); ("(4, 5, 6)", (4, 5, 6));
                      ("(7, 8, 9)", (7, 8, 9))] s with
      | Some point => Ok point
      | None => Raise ValueError
      end
  | _ => Raise ValueError
  end.

(** A cell showing a formatted number over a raw one. *)
Definition formatted_cell : Cell :=
  {| column_id := 1; display_value := Some "1,250"; value := PyInt 1250 |}.

Definition formatted_sheet : Sheet :=
  {| columns := [ {| title := "Count"; col_id := 1 |} ];
     rows := [ {| row_id := 7; parent_id := None; cells := [formatted_cell] |};
               {| row_id := 8; parent_id := None; cells := [empty_cell 1] |} ] |}.

(** A frame kept as its rows and column titles. *)
Definition frame_of_rows (data : list (list pyval)) (columns : list string)
  : result (list (list pyval) * list string) := Ok (data, columns).

(** *** A snapshot of the two buckets

    [aind-open-data] holds four datasets.  653158 is in the old layout,
    with [fused.zarr] directly under its directory.  653980 was acquired
    twice, both in the old layout.  609281 is in the new layout: its
    [fused.zarr] lies under [fusion/] and has levels 0 to 6 only.  The
    top-level listing comes in two pages.  A listing whose [Prefix] has no
    trailing slash groups every key under the one common prefix that ends
    at the next slash. *)
Import s3_util.

Definition listing (dirs : list string) : response :=
  {| Contents := None; CommonPrefixes := Some dirs;
     IsTruncated := false; NextContinuationToken := None |}.

Definition empty_listing : response :=
  {| Contents := None; CommonPrefixes := None;
     IsTruncated := false; NextContinuationToken := None |}.

Definition level_dirs (root : string) (names : list string) : list string :=
  map (λ n, root +:+ n +:+ "/") names.

Definition top_page_1 : response :=
  {| Contents := None;
     CommonPrefixes := Some ["SmartSPIM_653158_2023/"; "exaSPIM_609281_2022/";
                             "exaSPIM_653158_2023/"];
     IsTruncated := true; NextContinuationToken := Some "page-2" |}.

Definition top_page_2 : response :=
  listing ["exaSPIM_653980_2023/"; "exaSPIM_653980_2024/"].

Definition open_data_listings : list (string * response) :=
  [ ("exaSPIM_653158_2023/",
     {| Contents := Some ["exaSPIM_653158_2023/metadata.json"];
        CommonPrefixes := Some ["exaSPIM_653158_2023/fused.zarr/"];
        IsTruncated := false; NextContinuationToken := None |});
    ("exaSPIM_653158_2023/fused.zarr/",
     listing (level_dirs "exaSPIM_653158_2023/fused.zarr/" levels));
    ("exaSPIM_653980_2023/", listing ["exaSPIM_653980_2023/fused.zarr/"]);
    ("exaSPIM_653980_2023/fused.zarr/",
     listing (level_dirs "exaSPIM_653980_2023/fused.zarr/" levels));
    ("exaSPIM_653980_2024/", listing ["exaSPIM_653980_2024/fused.zarr/"]);
    ("exaSPIM_653980_2024/fused.zarr/",
     listing (level_dirs "exaSPIM_653980_2024/fused.zarr/" levels));
    ("exaSPIM_609281_2022/", listing ["exaSPIM_609281_2022/fusion/"]);
    ("exaSPIM_609281_2022/fusion", listing ["exaSPIM_609281_2022/fusion/"]);
    ("exaSPIM_609281_2022/fusion/",
     listing ["exaSPIM_609281_2022/fusion/fused.zarr/"]);
    ("exaSPIM_609281_2022/fusion/fused.zarr/",
     listing (level_dirs "exaSPIM_609281_2022/fusion/fused.zarr/"
                ["0"; "1"; "2"; "3"; "4"; "5"; "6"])) ].

(** [aind-msma-morphology-data] holds two soma detection runs of 653158;
    their listing is cut after the first. *)
Definition soma_page_1 : response :=
  {| Contents := None;
     CommonPrefixes := Some ["exaspim_soma_detection/653158/results_20230101/"];
     IsTruncated := true; NextContinuationToken := Some "page-2" |}.

Definition soma_page_2 : response :=
  listing ["exaspim_soma_detection/653158/results_20240615/"].

Definition snapshot (kw : list_kwargs) : reply response :=
  if String.eqb (Bucket kw) "aind-open-data" then
    match Prefix kw with
    | None =>
        if bool_decide (ContinuationToken kw = Some "page-2")
        then Returned top_page_2 else Returned top_page_1
    | Some p => Returned (default empty_listing (dict_get open_data_listings p))
    end
  else if String.eqb (Bucket kw) "aind-msma-morphology-data" then
    if bool_decide (Prefix kw = Some "exaspim_soma_detection/653158/")
    then if bool_decide (ContinuationToken kw = Some "page-2")
         then Returned soma_page_2 else Returned soma_page_1
    else Returned empty_listing
  else Failed ClientError.

(** Level 0 of every [fused.zarr] above is a plausible volume. *)
Definition zarr_volumes (root : string) : reply (list Z) :=
  if bool_decide (root ∈ [ "s3://aind-open-data/exaSPIM_653158_2023/fused.zarr/0";
                           "s3://aind-open-data/exaSPIM_653980_2023/fused.zarr/0";
                           "s3://aind-open-data/exaSPIM_653980_2024/fused.zarr/0";
                           "s3://aind-open-data/exaSPIM_609281_2022/fusion/fused.zarr/0" ])
  then Returned [1; 1; 12000; 30000; 21000]
  else Failed OSError.

(** A cache file that knows the prefix of 653158. *)
Definition cache_files : gmap string string :=
  {[ "prefix_lookup.json" :=
       io_util.json_dump
         [("653158", "s3://aind-open-data/exaSPIM_653158_2023/fused.zarr/")] ]}.

(** The table of soma locations behind the first run of 653158. *)
Definition read_csv (path : string) : reply (list (string * list pyval)) :=
  if String.eqb path
       "s3://aind-msma-morphology-data/exaspim_soma_detection/653158/results_20230101/somas-653158.csv"
  then Returned [("xyz", [PyStr "(1, 2, 3)"; PyStr "(4, 5, 6)"])]
  else Failed OSError.

(** The sheets of an account, two of them under the same name, and the
    sheets of its two workspaces. *)
Definition sheet_list : list SheetInfo :=
  [ {| name := "Neuron Reconstructions"; sheet_id := 11 |};
    {| name := "ExaSPIM Merge Locations"; sheet_id := 12 |};
    {| name := "ExaSPIM Merge Locations"; sheet_id := 13 |} ].

Definition workspace_sheets (workspace_id : Z) : reply (list SheetInfo) :=
  if workspace_id =? 1
  then Returned [ {| name := "Neuron Reconstructions"; sheet_id := 21 |} ]
  else if workspace_id =? 2
  then Returned [ {| name := "ExaSPIM Merge Locations"; sheet_id := 22 |} ]
  else Failed ClientError.

(** Two columns under one title. *)
Definition twice_titled_sheet : Sheet :=
  {| columns := [ {| title := "Sample"; col_id := 1 |};
                  {| title := "Notes"; col_id := 2 |};
                  {| title := "Sample"; col_id := 3 |} ];
     rows := [] |}.

(** A review row whose parent row is not on the sheet. *)
Definition orphan_sheet : Sheet :=
  {| columns := merge_columns;
     rows := [ review_row 101 true true "17" "N001" "(1, 2, 3)" ] |}.


(** A frame kept as the columns it was made of; frames are concatenated by
    appending them, and [pandas.concat] refuses an empty list of frames. *)
Definition frame : Type :=
  list (list string * list string * @Sites (Z * Z * Z)).

Definition frame_of_columns (brain_ids segmentation_ids : list string)
  (sites : @Sites (Z * Z * Z)) : result frame :=
  Ok [(brain_ids, segmentation_ids, sites)].

Definition concat_frames (frames : list frame) : result frame :=
  match frames with
  | [] => Raise ValueError
  | _ => Ok (List.concat frames)
  end.

End samples.

(** * Part II: properties *)

(** ** Reasoning about the error monad *)

Lemma bind_Ok {A B} (a : A) (k : A → result B) : (Ok a ≫= k) = k a.
Proof. reflexivity. Qed.

Lemma bind_Ok_inv {A B} (m : result A) (k : A → result B) (b : B) :
  (m ≫= k) = Ok b → ∃ a, m = Ok a ∧ k a = Ok b.
Proof. destruct m as [a| | |]; simpl; intros H; try discriminate. eauto. Qed.

Lemma for_each_app {A S} (xs ys : list A) (s : S) (body : S → A → result S) :
  for_each (xs ++ ys) s body = (for_each xs s body ≫= λ s', for_each ys s' body).
Proof.
  revert s. induction xs as [|x xs IH]; intros s; simpl; [done|].
  destruct (body s x) as [s'| | |]; simpl; auto.
Qed.

(** A loop that only appends computes a [map]. *)
Lemma for_each_append_map {A B} (f : A → B) (xs : list A) (acc : list B) :
  for_each xs acc (λ acc x, Ok (acc ++ [f x])) = Ok (acc ++ map f xs).
Proof.
  revert acc. induction xs as [|x xs IH]; intros acc; simpl.
  - by rewrite app_nil_r.
  - change (for_each xs (acc ++ [f x]) (λ acc x, Ok (acc ++ [f x]))
            = Ok (acc ++ f x :: map f xs)).
    rewrite IH. by rewrite <- app_assoc.
Qed.

(** ** Strings: append, prefix and substring *)

Local Arguments String.append !_ _ / : simpl nomatch.

Lemma append_nil_r (s : string) : s +:+ "" = s.
Proof. induction s as [|c s IH]; [done|]. cbn. by rewrite IH. Qed.

Lemma append_assoc (a b c : string) : (a +:+ b) +:+ c = a +:+ (b +:+ c).
Proof. induction a as [|x a IH]; [done|]. cbn. by rewrite IH. Qed.

Lemma append_cons (c : ascii) (a b : string) :
  String c a +:+ b = String c (a +:+ b).
Proof. reflexivity. Qed.

Lemma lower_app (a b : string) : lower (a +:+ b) = lower a +:+ lower b.
Proof. induction a as [|x a IH]; [done|]. cbn. by rewrite IH. Qed.

Lemma prefix_app (n b : string) : String.prefix n (n +:+ b) = true.
Proof.
  induction n as [|x n IH]; [by destruct b|].
  cbn. destruct (ascii_dec x x); [done|congruence].
Qed.

Lemma contains_prefix (n h : string) :
  String.prefix n h = true → contains n h = true.
Proof. destruct h; unfold contains; fold contains; by intros ->. Qed.

Lemma contains_app (n a b : string) : contains n (a +:+ n +:+ b) = true.
Proof.
  induction a as [|x a IH].
  - change ("" +:+ n +:+ b) with (n +:+ b). apply contains_prefix, prefix_app.
  - simpl. rewrite IH. apply orb_true_r.
Qed.

Lemma prefix_true_app (n h : string) :
  String.prefix n h = true → ∃ b, h = n +:+ b.
Proof.
  revert h. induction n as [|c n IH]; intros h H; [by exists h|].
  destruct h as [|d h]; [done|]. simpl in H.
  destruct (ascii_dec c d) as [->|]; [|done].
  destruct (IH h H) as [b ->]. by exists b.
Qed.

(** [contains] is the substring test. *)
Lemma contains_spec (n h : string) :
  contains n h = true ↔ ∃ a b, h = a +:+ n +:+ b.
Proof.
  split.
  - induction h as [|x h IH]; unfold contains; fold contains.
    + rewrite orb_false_r. intros [b Hb]%prefix_true_app. by exists "", b.
    + intros [H|H]%orb_true_iff.
      * apply prefix_true_app in H as [b Hb]. by exists "", b.
      * destruct (IH H) as (a & b & ->). by exists (String x a), b.
  - intros (a & b & ->). apply contains_app.
Qed.

(** ** Indexing, [split] and [replace] *)

Example split_example :
  split "/" "a/results_20230101/" = ["a"; "results_20230101"; ""] ∧
  split "/" "" = [""] ∧
  split1 "_" "653158_seg_1" = ["653158"; "seg_1"].
Proof. repeat split. Qed.

Example replace_example :
  replace "results_" "" "results_20230101" = "20230101" ∧
  replace "ab" "x" "ababa" = "xxa".
Proof. repeat split. Qed.

Example rstrip_example :
  rstrip "/" "a/b//" = "a/b" ∧ rstrip "/" "//" = "".
Proof. repeat split. Qed.

Example path_join_example :
  path_join "exaSPIM_1/" "fusion" = "exaSPIM_1/fusion" ∧
  path_join "exaSPIM_1/fusion" "fused.zarr" = "exaSPIM_1/fusion/fused.zarr" ∧
  path_join "s3://aind-open-data" "exaSPIM_1/" = "s3://aind-open-data/exaSPIM_1/".
Proof. repeat split. Qed.

Example py_index_example :
  py_index ["a"; "b"; "c"] (-1) = Ok "c" ∧
  py_index ["a"; "b"; "c"] (-3) = Ok "a" ∧
  py_index ["a"; "b"; "c"] (-4) = Raise IndexError ∧
  py_index ["a"; "b"; "c"] 3 = Raise IndexError.
Proof. repeat split. Qed.

Example repr_list_example :
  repr_list [] = "[]" ∧
  repr_list ["a"; "b/c"] = "['a', 'b/c']" ∧
  repr_str (String "010" "it's") = String dquote ("\nit's" +:+ String dquote "").
Proof. repeat split. Qed.

Lemma py_index_negative {A} (l : list A) (i : Z) (x : A) :
  i < 0 → 0 ≤ i + Z.of_nat (length l) →
  l !! Z.to_nat (i + Z.of_nat (length l)) = Some x →
  py_index l i = Ok x.
Proof.
  intros Hneg Hlow Hx. unfold py_index.
  rewrite (proj2 (Z.ltb_lt i 0)) by done.
  rewrite (proj2 (Z.ltb_ge _ 0)) by done.
  rewrite (proj2 (Z.leb_gt _ _)) by lia. simpl. by rewrite Hx.
Qed.

Lemma py_index_last {A} (l : list A) (x : A) : py_index (l ++ [x]) (-1) = Ok x.
Proof.
  apply py_index_negative; rewrite ?length_app; simpl; try lia.
  replace (Z.to_nat _) with (length l + 0)%nat by lia.
  by rewrite lookup_app_r, Nat.add_comm, Nat.add_sub by lia.
Qed.

Lemma py_index_before_last {A} (l : list A) (x y : A) :
  py_index (l ++ [x; y]) (-2) = Ok x.
Proof.
  apply py_index_negative; rewrite ?length_app; simpl; try lia.
  replace (Z.to_nat _) with (length l + 0)%nat by lia.
  by rewrite lookup_app_r, Nat.add_comm, Nat.add_sub by lia.
Qed.

Lemma split_not_nil (sep : ascii) (s : string) : split sep s ≠ [].
Proof.
  induction s as [|c s IH]; simpl; [done|].
  destruct (Ascii.eqb c sep); [done|]. by destruct (split sep s).
Qed.

Lemma split_app_sep (sep : ascii) (a b : string) :
  split sep (a +:+ String sep b) = split sep a ++ split sep b.
Proof.
  induction a as [|c a IH]; simpl.
  - by rewrite Ascii.eqb_refl.
  - destruct (Ascii.eqb c sep); [by rewrite IH|].
    rewrite IH. pose proof (split_not_nil sep a).
    by destruct (split sep a).
Qed.

Lemma split_without_sep (sep : ascii) (s : string) :
  all_chars (λ c, negb (Ascii.eqb c sep)) s = true → split sep s = [s].
Proof.
  induction s as [|c s IH]; simpl; [done|].
  intros [Hc Hs]%andb_true_iff. apply negb_true_iff in Hc. rewrite Hc.
  by rewrite IH.
Qed.

Lemma all_chars_impl (p q : ascii → bool) (s : string) :
  (∀ c, p c = true → q c = true) → all_chars p s = true → all_chars q s = true.
Proof.
  intros Hpq. induction s as [|c s IH]; simpl; [done|].
  intros [Hc Hs]%andb_true_iff. by rewrite (Hpq c Hc), IH.
Qed.

Lemma all_chars_app (p : ascii → bool) (a b : string) :
  all_chars p (a +:+ b) = all_chars p a && all_chars p b.
Proof. induction a as [|c a IH]; simpl; [done|]. by rewrite IH, andb_assoc. Qed.

Lemma is_digit_not (c d : ascii) :
  is_digit d = false → is_digit c = true → negb (Ascii.eqb c d) = true.
Proof.
  intros Hd Hc. apply negb_true_iff, Ascii.eqb_neq. intros ->. congruence.
Qed.

(** The component before the last one of a prefix [parent/name/]. *)
Lemma split_dirname (parent name : string) :
  is_parent parent →
  all_chars (λ c, negb (Ascii.eqb c "/")) name = true →
  py_index (split "/" (parent +:+ name +:+ "/")) (-2) = Ok name.
Proof.
  intros [->|[q ->]] Hname.
  - change ("" +:+ name +:+ "/") with (name +:+ String "/" "").
    rewrite split_app_sep, split_without_sep by done.
    apply (py_index_before_last []).
  - rewrite append_assoc.
    change ("/" +:+ name +:+ "/") with (String "/" (name +:+ String "/" "")).
    rewrite !split_app_sep, (split_without_sep _ name) by done.
    apply py_index_before_last.
Qed.

Lemma replace_digits (old new : string) (c : ascii) (old' date : string) :
  old = String c old' → is_digit c = false →
  all_chars is_digit date = true →
  replace_from old new 0 date = date.
Proof.
  intros -> Hc. induction date as [|d date IH]; [done|].
  intros [Hd Hdate]%andb_true_iff. simpl.
  destruct (ascii_dec c d) as [->|]; [congruence|]. by rewrite IH.
Qed.

Lemma replace_results (date : string) :
  all_chars is_digit date = true →
  replace "results_" "" ("results_" +:+ date) = date.
Proof.
  intros Hdate. unfold replace. simpl.
  assert (String.prefix "" date = true) as -> by (by destruct date).
  by apply (replace_digits "results_" "" "r" "esults_").
Qed.

(** ** The order of [sorted] *)

Lemma leb_refl (a : string) : String.leb a a = true.
Proof. by destruct (String.leb_total a a). Qed.

Lemma leb_trans (a b c : string) :
  String.leb a b = true → String.leb b c = true → String.leb a c = true.
Proof.
  unfold String.leb. revert b c.
  induction a as [|x a IH]; intros [|y b] [|z c]; simpl; try done.
  unfold Ascii.compare.
  destruct (N.compare_spec (N_of_ascii x) (N_of_ascii y)) as [Hxy|Hxy|Hxy],
           (N.compare_spec (N_of_ascii y) (N_of_ascii z)) as [Hyz|Hyz|Hyz],
           (N.compare_spec (N_of_ascii x) (N_of_ascii z)) as [Hxz|Hxz|Hxz];
    try done; try lia.
  apply IH.
Qed.

Lemma insert_sorted_perm (x : string) (l : list string) :
  insert_sorted x l ≡ₚ x :: l.
Proof.
  induction l as [|y l IH]; simpl; [done|].
  destruct (String.leb x y); [done|]. rewrite IH. apply Permutation_swap.
Qed.

Lemma sorted_perm (l : list string) : sorted l ≡ₚ l.
Proof.
  induction l as [|x l IH]; simpl; [done|].
  by rewrite insert_sorted_perm, IH.
Qed.

(** Inserting into a list that ends in an upper bound of its elements. *)
Lemma insert_sorted_last (x m : string) (init : list string) :
  (∀ y, y ∈ init → String.leb y m = true) →
  ∃ init', insert_sorted x (init ++ [m])
           = init' ++ [if String.leb x m then m else x].
Proof.
  induction init as [|y init IH]; intros Hbound; simpl.
  - destruct (String.leb x m); [by exists [x]|by exists [m]].
  - destruct (String.leb x y) eqn:Hxy.
    + rewrite (leb_trans x y m) by (auto; apply Hbound; set_solver).
      by exists (x :: y :: init).
    + destruct IH as [init' ->]; [intros; apply Hbound; set_solver|].
      by exists (y :: init').
Qed.

(** The last element of a sorted non-empty list is one of the elements and
    bounds them all. *)
Lemma sorted_last (l : list string) :
  l ≠ [] →
  ∃ init m, sorted l = init ++ [m] ∧ m ∈ l ∧ ∀ y, y ∈ l → String.leb y m = true.
Proof.
  induction l as [|x l IH]; [done|]. intros _.
  destruct l as [|x' l].
  { exists [], x. simpl. split; [done|]. split; [by left|].
    intros y ->%list_elem_of_singleton. apply leb_refl. }
  destruct IH as (init & m & Hsorted & Hm & Hbound); [done|].
  change (sorted (x :: x' :: l)) with (insert_sorted x (sorted (x' :: l))).
  rewrite Hsorted.
  destruct (insert_sorted_last x m init) as [init' ->].
  { intros y Hy. apply Hbound. rewrite <- (sorted_perm (x' :: l)), Hsorted.
    apply elem_of_app. by left. }
  exists init'. eexists. split; [done|].
  destruct (String.leb x m) eqn:Hxm.
  - split; [by right|]. intros y [->|Hy]%elem_of_cons; auto.
  - split; [by left|]. intros y [->|Hy]%elem_of_cons; [apply leb_refl|].
    apply (leb_trans y m x); [auto|].
    destruct (String.leb_total x m); congruence.
Qed.

(** ** smartsheet_util: which of the two cell values is read *)
Section smartsheet_values.
Import smartsheet_util.

Lemma display_truthy (cell : Cell) :
  truthy (display cell) = true ↔ ∃ s, display_value cell = Some s ∧ s ≠ "".
Proof.
  unfold display. destruct (display_value cell) as [s|]; simpl.
  - rewrite negb_true_iff, String.eqb_neq. split; [eauto|].
    by intros (s' & [= <-] & Hs).
  - split; [done | by intros (? & ? & _)].
Qed.

Lemma display_falsy (cell : Cell) :
  truthy (display cell) = false ↔
  display_value cell = None ∨ display_value cell = Some "".
Proof.
  unfold display. destruct (display_value cell) as [s|]; simpl.
  - rewrite negb_false_iff, String.eqb_eq. split; [intros ->; auto|].
    by intros [?|[= ->]].
  - split; auto.
Qed.

Lemma get_value_eq (self : SmartSheetClient) (row_idx : Z) (column_name : string)
  (row : Row) (col : Z) (cell : Cell) :
  py_index (rows (sheet self)) row_idx = Ok row →
  dict_get (column_name_to_id self) column_name = Some col →
  List.find (λ c, column_id c =? col) (cells row) = Some cell →
  get_value self row_idx column_name = Ok (py_or (display cell) (value cell)).
Proof.
  intros Hrow Hcol Hcell. unfold get_value, dict_getitem, cell_of.
  rewrite Hrow; simpl. rewrite Hcol; simpl. by rewrite Hcell.
Qed.

(** C8: on a row and column of the sheet, [get_value] returns the display
    value of the cell when that is a non-empty string, and the raw value of
    the cell when the display value is empty or absent; a raw value that
    differs from a non-empty display value is not returned. *)
Theorem get_value_display_else_raw (self : SmartSheetClient) (row_idx : Z)
  (column_name : string) (row : Row) (col : Z) (cell : Cell) :
  py_index (rows (sheet self)) row_idx = Ok row →
  dict_get (column_name_to_id self) column_name = Some col →
  List.find (λ c, column_id c =? col) (cells row) = Some cell →
  (∀ s, display_value cell = Some s → s ≠ "" →
        get_value self row_idx column_name = Ok (PyStr s)) ∧
  (display_value cell = None ∨ display_value cell = Some "" →
        get_value self row_idx column_name = Ok (value cell)) ∧
  (∀ s, display_value cell = Some s → s ≠ "" → value cell ≠ PyStr s →
        get_value self row_idx column_name ≠ Ok (value cell)).
Proof.
  intros Hrow Hcol Hcell.
  rewrite (get_value_eq _ _ _ _ _ _ Hrow Hcol Hcell). unfold py_or.
  assert (∀ s, display_value cell = Some s → s ≠ "" →
               (if truthy (display cell) then display cell else value cell)
               = PyStr s) as Hshown.
  { intros s Hs Hne.
    assert (truthy (display cell) = true) as -> by (apply display_truthy; eauto).
    unfold display. by rewrite Hs. }
  split; [|split].
  - intros s Hs Hne. by rewrite (Hshown s).
  - intros H. apply display_falsy in H. by rewrite H.
  - intros s Hs Hne Hraw. rewrite (Hshown s) by done. congruence.
Qed.

End smartsheet_values.

(** A lookup of the sample sheet. *)
Lemma get_value_display_else_raw_witness :
  smartsheet_util.get_value (smartsheet_util.init samples.formatted_sheet) 0 "Count"
  = Ok (PyStr "1,250") ∧
  smartsheet_util.get_value (smartsheet_util.init samples.formatted_sheet) (-1) "Count"
  = Ok PyNone.
Proof.
  split.
  - refine (proj1 (get_value_display_else_raw
      (smartsheet_util.init samples.formatted_sheet) 0 "Count"
      _ 1 samples.formatted_cell _ _ _) "1,250" _ _); try reflexivity.
    discriminate.
  - refine (proj1 (proj2 (get_value_display_else_raw
      (smartsheet_util.init samples.formatted_sheet) (-1) "Count"
      _ 1 (samples.empty_cell 1) _ _ _)) _); try reflexivity.
    left; reflexivity.
Defined.

Section smartsheet_frames.
Import smartsheet_util.
Context {DataFrame : Type}.
Variable DataFrame_of_rows : list (list pyval) → list string → result DataFrame.

Lemma to_dataframe_eq (self : SmartSheetClient) :
  to_dataframe DataFrame_of_rows self
  = DataFrame_of_rows
      (map (λ row, map dataframe_entry (cells row)) (rows (sheet self)))
      (dict_keys (column_name_to_id self)).
Proof.
  unfold to_dataframe.
  assert (∀ rs data,
    for_each rs data
      (λ data row,
         row_data ← for_each (cells row) []
           (λ row_data cell, let val := dataframe_entry cell in Ok (row_data ++ [val]));
         Ok (data ++ [row_data]))
    = Ok (data ++ map (λ row, map dataframe_entry (cells row)) rs)) as Hrows.
  { induction rs as [|r rs IH]; intros data; simpl.
    - by rewrite app_nil_r.
    - pose proof (for_each_append_map dataframe_entry (cells r) []) as Hr.
      simpl in Hr. rewrite Hr. simpl.
      rewrite IH. by rewrite <- app_assoc. }
  by rewrite Hrows.
Qed.

(** C10: [to_dataframe] hands to the frame constructor, for every cell, the
    raw value when the display value is truthy and the display value itself
    (empty or absent) otherwise, whereas [get_value] reads the display value
    in the first case and the raw value in the second. *)
Theorem to_dataframe_emits (self : SmartSheetClient) :
  to_dataframe DataFrame_of_rows self
  = DataFrame_of_rows
      (map (λ row, map dataframe_entry (cells row)) (rows (sheet self)))
      (dict_keys (column_name_to_id self)) ∧
  ∀ cell : Cell,
    (∀ s, display_value cell = Some s → s ≠ "" →
       dataframe_entry cell = value cell ∧
       py_or (display cell) (value cell) = PyStr s) ∧
    (display_value cell = Some "" →
       dataframe_entry cell = PyStr "" ∧
       py_or (display cell) (value cell) = value cell) ∧
    (display_value cell = None →
       dataframe_entry cell = PyNone ∧
       py_or (display cell) (value cell) = value cell).
Proof.
  split; [apply to_dataframe_eq|].
  intros cell. unfold dataframe_entry, py_or. repeat split.
  - assert (truthy (display cell) = true) as -> by (apply display_truthy; eauto).
    done.
  - assert (truthy (display cell) = true) as -> by (apply display_truthy; eauto).
    unfold display. by rewrite H.
  - unfold display. by rewrite H.
  - unfold display. by rewrite H.
  - unfold display. by rewrite H.
  - unfold display. by rewrite H.
Qed.

End smartsheet_frames.

(** The frame of the sample sheet: the formatted cell contributes its raw
    number, the empty cell its absent display value. *)
Lemma to_dataframe_emits_witness :
  smartsheet_util.to_dataframe samples.frame_of_rows
    (smartsheet_util.init samples.formatted_sheet)
  = Ok ([[PyInt 1250]; [PyNone]], ["Count"]) ∧
  smartsheet_util.dataframe_entry samples.formatted_cell = PyInt 1250 ∧
  smartsheet_util.dataframe_entry (samples.empty_cell 1) = PyNone.
Proof.
  pose proof (to_dataframe_emits samples.frame_of_rows
                (smartsheet_util.init samples.formatted_sheet)) as [Hdf Hcell].
  split; [exact Hdf|]. split.
  - exact (proj1 (proj1 (Hcell samples.formatted_cell) "1,250" eq_refl
                    ltac:(discriminate))).
  - exact (proj1 (proj2 (proj2 (Hcell (samples.empty_cell 1))) eq_refl)).
Defined.

(** ** smartsheet_util: confirmed merge sites *)
Section merge_sites.
Import smartsheet_util.
Context {coord : Type}.
Variable literal_eval : pyval → result coord.

Lemma merge_site_step_inv (client : SmartSheetClient) (sites sites' : Sites)
  (n n' : Z) (i : Z) :
  merge_site_step literal_eval client (sites, n) i = Ok (sites', n') →
  n' = n + (if reviewed client i then 1 else 0) ∧
  if confirmed client i
  then ∃ seg gt point,
         record_of literal_eval client i seg gt point ∧
         sites' = {| segment_id := segment_id sites ++ [seg];
                     groundtruth_id := groundtruth_id sites ++ [gt];
                     xyz := xyz sites ++ [point] |}
  else sites' = sites.
Proof.
  unfold merge_site_step, confirmed, reviewed, cell_truthy, record_of, read_xyz.
  destruct (get_value client i "Merge Confirmation") as [m| | |]; [|done..].
  rewrite bind_Ok.
  destruct (get_value client i "Reviewed?") as [r| | |]; [|done..].
  rewrite bind_Ok.
  destruct (truthy m), (truthy r); cbn [andb].
  - destruct (get_value client i "Segmentation ID") as [seg| | |]; [|done..].
    rewrite !bind_Ok.
    destruct (get_value client i "Ground Truth ID") as [gt| | |]; [|done..].
    rewrite !bind_Ok.
    destruct (get_value client i "World Coordinates") as [w| | |]; [|done..].
    rewrite !bind_Ok.
    destruct (literal_eval w) as [p| | |] eqn:Hp; [|done..].
    rewrite !bind_Ok. intros [= <- <-]. split; [done|].
    exists seg, gt, p. eauto 10.
  - rewrite bind_Ok. intros [= <- <-]. split; [lia|done].
  - rewrite bind_Ok. by intros [= <- <-].
  - rewrite bind_Ok. intros [= <- <-]. split; [lia|done].
Qed.

Lemma merge_sites_loop (client : SmartSheetClient) (idxs : list Z)
  (sites0 sites : Sites) (n0 n : Z) :
  for_each idxs (sites0, n0) (merge_site_step literal_eval client)
  = Ok (sites, n) →
  n = n0 + Z.of_nat (length (List.filter (reviewed client) idxs)) ∧
  ∃ records : list (pyval * pyval * coord),
    Forall2 (λ i r, record_of literal_eval client i r.1.1 r.1.2 r.2)
      (List.filter (confirmed client) idxs) records ∧
    segment_id sites = segment_id sites0 ++ map (λ r, r.1.1) records ∧
    groundtruth_id sites = groundtruth_id sites0 ++ map (λ r, r.1.2) records ∧
    xyz sites = xyz sites0 ++ map (λ r, r.2) records.
Proof.
  revert sites0 n0. induction idxs as [|i idxs IH]; intros sites0 n0.
  - simpl. intros [= <- <-]. split; [lia|].
    exists []. by rewrite !app_nil_r.
  - cbn [for_each]. intros Hrun.
    apply bind_Ok_inv in Hrun as ([sites1 n1] & Hstep & Hrest).
    apply merge_site_step_inv in Hstep as [-> Hsites1].
    apply IH in Hrest as (-> & records & Hrecords & Hseg & Hgt & Hxyz).
    cbn [List.filter]. split.
    { destruct (reviewed client i); simpl length; lia. }
    destruct (confirmed client i).
    + destruct Hsites1 as (seg & gt & p & Hrec & ->).
      exists ((seg, gt, p) :: records). simpl in *.
      rewrite Hseg, Hgt, Hxyz, <- !app_assoc. split; [|done].
      by constructor.
    + subst sites1. by exists records.
Qed.

Lemma confirmed_le_reviewed (client : SmartSheetClient) (idxs : list Z) :
  (length (List.filter (confirmed client) idxs)
   ≤ length (List.filter (reviewed client) idxs))%nat.
Proof.
  induction idxs as [|i idxs IH]; simpl; [done|]. unfold confirmed at 1.
  destruct (reviewed client i); rewrite ?andb_false_r; simpl.
  - destruct (cell_truthy client i "Merge Confirmation"); simpl; lia.
  - done.
Qed.

(** The result of [find_confirmed_merge_sites] in terms of the two filters. *)
Lemma find_confirmed_merge_sites_inv (client : SmartSheetClient)
  (idxs : list Z) (sites : Sites) (n : Z) :
  find_confirmed_merge_sites literal_eval client idxs = Ok (sites, n) →
  n = Z.of_nat (length (List.filter (reviewed client) idxs)) ∧
  (∃ records : list (pyval * pyval * coord),
     Forall2 (λ i r, record_of literal_eval client i r.1.1 r.1.2 r.2)
       (List.filter (confirmed client) idxs) records ∧
     segment_id sites = map (λ r, r.1.1) records ∧
     groundtruth_id sites = map (λ r, r.1.2) records ∧
     xyz sites = map (λ r, r.2) records) ∧
  ((0 < length (xyz sites))%nat →
   true_div (Z.of_nat (length (xyz sites))) n
   = Ok (QArith_base.Qdiv
           (QArith_base.inject_Z
              (Z.of_nat (length (List.filter (confirmed client) idxs))))
           (QArith_base.inject_Z
              (Z.of_nat (length (List.filter (reviewed client) idxs)))))).
Proof.
  intros Hrun. unfold find_confirmed_merge_sites in Hrun.
  apply merge_sites_loop in Hrun as (Hn & records & Hrecords & Hseg & Hgt & Hxyz).
  simpl in Hn, Hseg, Hgt, Hxyz. split; [done|]. split; [by exists records|].
  assert (length (xyz sites) = length (List.filter (confirmed client) idxs))
    as Hcount.
  { rewrite Hxyz, length_map. symmetry. by eapply Forall2_length. }
  intros Hpos. unfold true_div. rewrite Hcount, Hn.
  pose proof (confirmed_le_reviewed client idxs).
  rewrite (proj2 (Z.eqb_neq _ 0)) by lia. done.
Qed.

(** C4: [find_confirmed_merge_sites] returns one record for each child row
    whose ["Merge Confirmation"] and ["Reviewed?"] cells are both truthy, in
    the order of the rows, and none for any other row; the count it returns
    is the number of child rows whose ["Reviewed?"] cell is truthy, confirmed
    or not.  In the loop of [extract_merge_sites] the parent of these rows,
    when it has a confirmed child, adds the records as one frame, and its
    success ratio is the number of confirmed children over that count of
    reviewed children, which is also what it adds to the reviewed total. *)
Theorem find_confirmed_merge_sites_reviewed_total {DataFrame : Type}
  (DataFrame_of_columns : list string → list string → Sites → result DataFrame)
  (client : SmartSheetClient) (verbose : bool) (totals : Totals)
  (parent_idx : Z) (child_idxs : list Z) (sample : pyval)
  (brain_id segmentation_id : string) (sites : Sites) (n : Z) (df : DataFrame) :
  get_value client parent_idx "Sample" = Ok sample →
  split_sample sample = Ok (brain_id, segmentation_id) →
  find_confirmed_merge_sites literal_eval client child_idxs = Ok (sites, n) →
  ((0 < length (xyz sites))%nat →
   DataFrame_of_columns (replicate (length (xyz sites)) brain_id)
     (replicate (length (xyz sites)) segmentation_id) sites = Ok df) →
  let c := length (List.filter (confirmed client) child_idxs) in
  let r := length (List.filter (reviewed client) child_idxs) in
  n = Z.of_nat r ∧
  (∃ records : list (pyval * pyval * coord),
     Forall2 (λ i r, record_of literal_eval client i r.1.1 r.1.2 r.2)
       (List.filter (confirmed client) child_idxs) records ∧
     segment_id sites = map (λ r, r.1.1) records ∧
     groundtruth_id sites = map (λ r, r.1.2) records ∧
     xyz sites = map (λ r, r.2) records) ∧
  extract_parent literal_eval DataFrame_of_columns client verbose totals
    (parent_idx, child_idxs)
  = if (0 <? c)%nat then
      Ok {| merge_site_dfs := merge_site_dfs totals ++ [df];
            n_merge_sites := n_merge_sites totals + Z.of_nat c;
            n_reviewed_sites := n_reviewed_sites totals + Z.of_nat r;
            stdout :=
              if verbose
              then stdout totals
                   ++ [SuccessRate brain_id
                         (QArith_base.Qdiv (QArith_base.inject_Z (Z.of_nat c))
                                           (QArith_base.inject_Z (Z.of_nat r)))]
              else stdout totals |}
    else Ok totals.
Proof.
  intros Hsample Hsplit Hsites Hdf c r.
  pose proof (find_confirmed_merge_sites_inv _ _ _ _ Hsites)
    as (Hn & (records & Hrecords & Hseg & Hgt & Hxyz) & Hrate).
  split; [done|]. split; [by exists records|].
  assert (length (xyz sites) = c) as Hcount.
  { rewrite Hxyz, length_map. symmetry. by eapply Forall2_length. }
  unfold extract_parent. rewrite Hsample, bind_Ok, Hsplit, bind_Ok, Hsites, bind_Ok.
  cbv zeta. rewrite Hcount in *.
  destruct (0 <? c)%nat eqn:Hpos; [|done].
  apply Nat.ltb_lt in Hpos.
  by rewrite (Hdf Hpos), bind_Ok, (Hrate Hpos), bind_Ok, Hn.
Qed.

(** The success ratio printed for a parent row divides the number of
    confirmed children by the number of reviewed children. *)
Lemma extract_parent_success_rate {DataFrame : Type}
  (DataFrame_of_columns : list string → list string → Sites → result DataFrame)
  (client : SmartSheetClient) (totals totals' : Totals)
  (parent_idx : Z) (child_idxs : list Z) :
  extract_parent literal_eval DataFrame_of_columns client true totals
    (parent_idx, child_idxs) = Ok totals' →
  let c := length (List.filter (confirmed client) child_idxs) in
  let r := length (List.filter (reviewed client) child_idxs) in
  if (0 <? c)%nat then
    ∃ brain_id,
      stdout totals'
      = stdout totals
        ++ [SuccessRate brain_id
              (QArith_base.Qdiv (QArith_base.inject_Z (Z.of_nat c))
                                (QArith_base.inject_Z (Z.of_nat r)))] ∧
      n_merge_sites totals' = n_merge_sites totals + Z.of_nat c ∧
      n_reviewed_sites totals' = n_reviewed_sites totals + Z.of_nat r
  else totals' = totals.
Proof.
  unfold extract_parent. intros Hrun.
  apply bind_Ok_inv in Hrun as (sample & _ & Hrun).
  apply bind_Ok_inv in Hrun as ([brain_id seg_id] & _ & Hrun).
  apply bind_Ok_inv in Hrun as ([sites n] & Hsites & Hrun).
  apply find_confirmed_merge_sites_inv in Hsites
    as (Hn & (records & Hrecords & _ & _ & Hxyz) & Hrate).
  assert (length (xyz sites) = length (List.filter (confirmed client) child_idxs))
    as Hcount.
  { rewrite Hxyz, length_map. symmetry. by eapply Forall2_length. }
  rewrite Hcount in *. cbv zeta.
  destruct (0 <? _)%nat eqn:Hpos; [|by injection Hrun].
  apply Nat.ltb_lt in Hpos.
  apply bind_Ok_inv in Hrun as (df & _ & Hrun).
  rewrite (Hrate Hpos), bind_Ok in Hrun. injection Hrun as <-. simpl.
  exists brain_id. by rewrite Hn.
Qed.

End merge_sites.

(** On the sample sheet, the row that is reviewed but not confirmed adds to
    the count and not to the records: the parent has one record and a
    success ratio of one in two. *)
Lemma find_confirmed_merge_sites_reviewed_total_witness :
  smartsheet_util.find_confirmed_merge_sites samples.literal_eval
    samples.merge_client [1; 2; 3]
  = Ok ({| smartsheet_util.segment_id := [PyStr "17"];
           smartsheet_util.groundtruth_id := [PyStr "N001"];
           smartsheet_util.xyz := [(1, 2, 3)] |}, 2) ∧
  List.filter (reviewed samples.merge_client) [1; 2; 3] = [1; 2] ∧
  List.filter (confirmed samples.merge_client) [1; 2; 3] = [1] ∧
  smartsheet_util.extract_parent samples.literal_eval samples.frame_of_columns
    samples.merge_client true
    {| smartsheet_util.merge_site_dfs := [];
       smartsheet_util.n_merge_sites := 0;
       smartsheet_util.n_reviewed_sites := 0;
       smartsheet_util.stdout := [] |}
    (0, [1; 2; 3])
  = Ok {| smartsheet_util.merge_site_dfs :=
            [[(["653158"], ["seg1"],
               {| smartsheet_util.segment_id := [PyStr "17"];
                  smartsheet_util.groundtruth_id := [PyStr "N001"];
                  smartsheet_util.xyz := [(1, 2, 3)] |})]];
          smartsheet_util.n_merge_sites := 1;
          smartsheet_util.n_reviewed_sites := 2;
          smartsheet_util.stdout :=
            [smartsheet_util.SuccessRate "653158"
               (QArith_base.Qdiv (QArith_base.inject_Z 1)
                                 (QArith_base.inject_Z 2))] |}.
Proof.
  pose proof (find_confirmed_merge_sites_reviewed_total samples.literal_eval
                samples.frame_of_columns samples.merge_client true
                {| smartsheet_util.merge_site_dfs := [];
                   smartsheet_util.n_merge_sites := 0;
                   smartsheet_util.n_reviewed_sites := 0;
                   smartsheet_util.stdout := [] |}
                0 [1; 2; 3] (PyStr "653158_seg1") "653158" "seg1" _ 2
                [(["653158"], ["seg1"],
                  {| smartsheet_util.segment_id := [PyStr "17"];
                     smartsheet_util.groundtruth_id := [PyStr "N001"];
                     smartsheet_util.xyz := [(1, 2, 3)] |})]
                eq_refl eq_refl eq_refl (λ _, eq_refl)) as (_ & _ & Hparent).
  split; [reflexivity|]. split; [reflexivity|]. split; [reflexivity|].
  exact Hparent.
Defined.

(** ** data_util: the most recent results directory *)
Section most_recent.
Import data_util.

Lemma is_yyyymmdd_digits (date : string) :
  is_yyyymmdd date = true → all_chars is_digit date = true.
Proof. by intros [_ ?]%andb_true_iff. Qed.

Lemma results_prefix_dirname (parent date : string) :
  is_parent parent → all_chars is_digit date = true →
  py_index (split "/" (results_prefix parent date)) (-2)
  = Ok ("results_" +:+ date).
Proof.
  intros Hparent Hdate. unfold results_prefix.
  replace (parent +:+ "results_" +:+ date +:+ "/")
    with (parent +:+ ("results_" +:+ date) +:+ "/")
    by (by rewrite (append_assoc "results_")).
  apply split_dirname; [done|].
  rewrite all_chars_app. apply andb_true_iff. split; [done|].
  eapply all_chars_impl; [|exact Hdate].
  intros c. by apply is_digit_not.
Qed.

Local Arguments results_prefix : simpl never.

Lemma dates_loop (inputs : list (string * string)) (acc : list string) :
  Forall (λ pd, is_parent pd.1 ∧ is_yyyymmdd pd.2 = true) inputs →
  for_each (map (λ pd, results_prefix pd.1 pd.2) inputs) acc
    (λ dates prefix,
       dirname ← py_index (split "/" prefix) (-2);
       Ok (dates ++ [replace "results_" "" dirname]))
  = Ok (acc ++ inputs.*2).
Proof.
  intros Hall. revert acc.
  induction Hall as [|[parent date] inputs [Hparent Hdate] _ IH]; intros acc.
  - simpl. by rewrite app_nil_r.
  - simpl in *. apply is_yyyymmdd_digits in Hdate.
    rewrite results_prefix_dirname, bind_Ok by done. cbv beta.
    rewrite replace_results, bind_Ok, IH by done.
    by rewrite <- app_assoc.
Qed.

(** C5: on a non-empty list of prefixes [parent/results_YYYYMMDD/], the
    result is [results_] followed by one of the dates, and no date of the
    list comes after it in the order of strings. *)
Theorem find_most_recent_dirname_latest (inputs : list (string * string)) :
  inputs ≠ [] →
  Forall (λ pd, is_parent pd.1 ∧ is_yyyymmdd pd.2 = true) inputs →
  ∃ date,
    find_most_recent_dirname (map (λ pd, results_prefix pd.1 pd.2) inputs)
    = Ok ("results_" +:+ date) ∧
    date ∈ inputs.*2 ∧
    ∀ d, d ∈ inputs.*2 → String.leb d date = true.
Proof.
  intros Hne Hall. unfold find_most_recent_dirname.
  rewrite dates_loop by done. rewrite bind_Ok. cbv beta.
  change ([] ++ inputs.*2) with (inputs.*2).
  destruct (sorted_last (inputs.*2)) as (init & date & -> & Hdate & Hmax).
  { by destruct inputs. }
  exists date. by rewrite py_index_last.
Qed.

End most_recent.

(** The example of the specification. *)
Lemma find_most_recent_dirname_latest_witness :
  ∃ date,
    data_util.find_most_recent_dirname
      ["a/results_20230101/"; "b/results_20240615/"]
    = Ok ("results_" +:+ date) ∧
    date ∈ ["20230101"; "20240615"] ∧
    ∀ d, d ∈ ["20230101"; "20240615"] → String.leb d date = true.
Proof.
  apply (find_most_recent_dirname_latest
           [("a/", "20230101"); ("b/", "20240615")]).
  - discriminate.
  - constructor; [split; [right; by exists "a"|reflexivity]|].
    constructor; [split; [right; by exists "b"|reflexivity]|].
    constructor.
Defined.

(** ** io_util: the prefix cache survives a round trip *)
Section json.
Import io_util.

Example json_dump_example :
  json_dump [("651324", "s3://aind-open-data/exaSPIM_651324/fused.zarr/")]
  = String "{" (String dquote ("651324" +:+ String dquote (": " +:+ String dquote
      ("s3://aind-open-data/exaSPIM_651324/fused.zarr/" +:+ String dquote "}")))) ∧
  json_dump ([] : list (string * string)) = "{}" ∧
  json_escape [9; 200; 97; 92; 98]%N = "\t\u00c8a\\b" ∧
  json_escape [0x1F600; 0xD83D]%N = "\ud83d\ude00\ud83d".
Proof. repeat split. Qed.

(** *** The two types of strings *)

#[global] Instance latin1_laws : StrLaws string.
Proof.
  split.
  - intros s. cbn [of_code_points code_points latin1].
    assert (forallb (λ n, n <? 256)%N (map N_of_ascii (list_ascii_of_string s))
            = true) as ->.
    { apply forallb_forall. intros n (c & <- & _)%in_map_iff.
      apply N.ltb_lt, N_ascii_bounded. }
    f_equal. rewrite map_map.
    rewrite (map_ext _ id), map_id; [apply string_of_list_ascii_of_string|].
    intros c. apply ascii_N_embedding.
  - intros points s. cbn [of_code_points code_points latin1].
    destruct (forallb _ points) eqn:Hsmall; [|done]. intros [= <-].
    rewrite list_ascii_of_string_of_list_ascii, map_map.
    rewrite <- (map_id points) at 2. apply map_ext_in.
    intros n Hn. apply N_ascii_embedding, N.ltb_lt.
    by apply (proj1 (forallb_forall _ _) Hsmall).
Qed.

#[global] Instance unicode_laws : StrLaws (list N).
Proof. split; [done|]. by intros points s [= <-]. Qed.

Lemma code_points_inj `{StrLaws str} (s t : str) :
  code_points s = code_points t → s = t.
Proof.
  intros Heq. apply (inj Some).
  by rewrite <- !of_code_points_code_points, Heq.
Qed.

(** A string of code points below 256 has no surrogate at all. *)
Lemma latin1_json_safe (s : string) : json_safe s = true.
Proof.
  unfold json_safe. cbn [code_points latin1].
  induction (list_ascii_of_string s) as [|c cs IH]; [done|].
  apply andb_true_iff in IH as [Hstr Hpair].
  pose proof (N_ascii_bounded c) as Hc.
  apply andb_true_iff. split.
  - cbn [map is_str forallb]. fold (is_str (map N_of_ascii cs)).
    rewrite Hstr, andb_true_r. apply N.leb_le. lia.
  - cbn [map no_surrogate_pair]. rewrite Hpair, andb_true_r.
    destruct (map N_of_ascii cs); [done|].
    unfold is_high_surrogate.
    replace (0xD800 <=? N_of_ascii c)%N with false; [done|].
    symmetry. apply N.leb_gt. lia.
Qed.

(** *** Hexadecimal digits and surrogates *)

Lemma hex_value_digit (d : N) : (d < 16)%N → hex_value (hex_digit d) = Some d.
Proof.
  intros Hd. rewrite <- (N2Nat.id d).
  assert (N.to_nat d < 16)%nat as Hk by lia.
  revert Hk. generalize (N.to_nat d). clear. intros k Hk.
  do 16 (destruct k as [|k]; [reflexivity|]). lia.
Qed.

Lemma hex4_value_hex4 (n : N) (rest : string) :
  (n < 0x10000)%N →
  ∃ a b c d,
    hex4 n +:+ rest = String a (String b (String c (String d rest))) ∧
    hex4_value a b c d = Some n.
Proof.
  intros Hn. eexists _, _, _, _. split; [reflexivity|].
  pose proof (N.div_mod n 256 ltac:(done)) as H1.
  pose proof (N.div_mod (n / 256) 16 ltac:(done)) as H2.
  pose proof (N.div_mod (n mod 256) 16 ltac:(done)) as H3.
  pose proof (N.mod_upper_bound n 256 ltac:(done)) as B1.
  pose proof (N.mod_upper_bound (n / 256) 16 ltac:(done)) as B2.
  pose proof (N.mod_upper_bound (n mod 256) 16 ltac:(done)) as B3.
  assert (n / 256 / 16 < 16)%N as B4.
  { do 2 apply N.Div0.div_lt_upper_bound. lia. }
  assert (n mod 256 / 16 < 16)%N as B5.
  { apply N.Div0.div_lt_upper_bound. lia. }
  unfold hex4_value. rewrite !hex_value_digit by done.
  cbn [mbind option_bind]. f_equal.
  generalize dependent (n mod 256 mod 16)%N. intros d.
  generalize dependent (n mod 256 / 16)%N. intros c.
  generalize dependent (n / 256 mod 16)%N. intros b.
  generalize dependent (n / 256 / 16)%N. intros a.
  generalize dependent (n mod 256)%N. intros lo.
  generalize dependent (n / 256)%N. intros hi. lia.
Qed.

(** The two surrogates of a code point from U+10000 on. *)
Lemma surrogates_of (n : N) :
  (0x10000 <= n <= 0x10FFFF)%N →
  let high := (0xD800 + (n - 0x10000) / 1024)%N in
  let low := (0xDC00 + (n - 0x10000) mod 1024)%N in
  is_high_surrogate high = true ∧ is_low_surrogate low = true ∧
  (high < 0x10000)%N ∧ (low < 0x10000)%N ∧
  join_surrogates high low = n.
Proof.
  intros Hn high low.
  pose proof (N.div_mod (n - 0x10000) 1024 ltac:(done)) as H1.
  pose proof (N.mod_upper_bound (n - 0x10000) 1024 ltac:(done)) as B1.
  assert ((n - 0x10000) / 1024 < 1024)%N as B2.
  { apply N.Div0.div_lt_upper_bound. lia. }
  unfold is_high_surrogate, is_low_surrogate, join_surrogates, high, low.
  clear high low.
  generalize dependent ((n - 0x10000) mod 1024)%N. intros r.
  generalize dependent ((n - 0x10000) / 1024)%N. intros q H1 Hq Hr.
  repeat split.
  - apply andb_true_iff. split; apply N.leb_le; lia.
  - apply andb_true_iff. split; apply N.leb_le; lia.
  - lia.
  - lia.
  - lia.
Qed.
(** *** Reading back one string *)

Lemma scanstring_raw (c : ascii) (t : string) :
  Ascii.eqb c dquote = false → Ascii.eqb c backslash = false →
  (N_of_ascii c <? 32)%N = false →
  scanstring (String c t)
  = ('(u, rest) ← scanstring t; Ok (N_of_ascii c :: u, rest)).
Proof. intros H1 H2 H3. cbn [scanstring]. by rewrite H1, H2, H3. Qed.

(** One step of [scanstring] at the escape of a code point. *)
Lemma scanstring_u (h1 h2 h3 h4 : ascii) (s3 : string) :
  scanstring (String backslash (String "u"
                (String h1 (String h2 (String h3 (String h4 s3))))))
  = match hex4_value h1 h2 h3 h4 with
    | Some n =>
        if is_high_surrogate n then
          match s3 with
          | String "\" (String "u" s4) =>
              match s4 with
              | String l1 (String l2 (String l3 (String l4 s5))) =>
                  match hex4_value l1 l2 l3 l4 with
                  | Some m =>
                      if is_low_surrogate m then
                        '(t, rest) ← scanstring s5;
                        Ok (join_surrogates n m :: t, rest)
                      else
                        '(t, rest) ← scanstring s3;
                        Ok (n :: t, rest)
                  | None => Raise ValueError
                  end
              | _ => Raise ValueError
              end
          | _ => '(t, rest) ← scanstring s3; Ok (n :: t, rest)
          end
        else '(t, rest) ← scanstring s3; Ok (n :: t, rest)
    | None => Raise ValueError
    end.
Proof. reflexivity. Qed.

(** What follows the escape of a high surrogate without being read with
    it: anything but an escape ["\u"], or the escape of a code point that
    is no low surrogate. *)
Lemma scanstring_u_alone (h1 h2 h3 h4 : ascii) (s3 : string) (n : N) :
  hex4_value h1 h2 h3 h4 = Some n →
  (is_high_surrogate n = true →
   (∀ s4, s3 ≠ String backslash (String "u" s4)) ∨
   (∃ l1 l2 l3 l4 s5 m,
      s3 = String backslash (String "u"
             (String l1 (String l2 (String l3 (String l4 s5))))) ∧
      hex4_value l1 l2 l3 l4 = Some m ∧ is_low_surrogate m = false)) →
  scanstring (String backslash (String "u"
                (String h1 (String h2 (String h3 (String h4 s3))))))
  = ('(u, rest) ← scanstring s3; Ok (n :: u, rest)).
Proof.
  intros Hn Hnext. rewrite scanstring_u, Hn.
  destruct (is_high_surrogate n); [|done].
  destruct (Hnext eq_refl) as [Hother|(l1 & l2 & l3 & l4 & s5 & m & -> & -> & ->)];
    [|done].
  destruct s3 as [|c [|e s4]].
  - done.
  - destruct c as [[] [] [] [] [] [] [] []]; reflexivity.
  - destruct (Ascii.eqb_spec c backslash) as [->|Hc].
    + destruct (Ascii.eqb_spec e "u") as [->|He]; [by destruct (Hother s4)|].
      destruct e as [[] [] [] [] [] [] [] []]; done.
    + destruct c as [[] [] [] [] [] [] [] []]; done.
Qed.

(** The escapes of a high and a low surrogate are read as one code point. *)
Lemma scanstring_u_pair (h1 h2 h3 h4 l1 l2 l3 l4 : ascii) (s5 : string)
  (n m : N) :
  hex4_value h1 h2 h3 h4 = Some n → is_high_surrogate n = true →
  hex4_value l1 l2 l3 l4 = Some m → is_low_surrogate m = true →
  scanstring (String backslash (String "u"
                (String h1 (String h2 (String h3 (String h4
                   (String backslash (String "u"
                      (String l1 (String l2 (String l3 (String l4 s5))))))))))))
  = ('(u, rest) ← scanstring s5; Ok (join_surrogates n m :: u, rest)).
Proof.
  intros Hn Hhigh Hm Hlow. by rewrite scanstring_u, Hn, Hhigh, Hm, Hlow.
Qed.
Lemma ascii_of_N_eqb (n : N) (c : ascii) :
  (n < 256)%N → n ≠ N_of_ascii c → Ascii.eqb (ascii_of_N n) c = false.
Proof.
  intros Hn Hne. apply Ascii.eqb_neq. intros <-.
  by rewrite N_ascii_embedding in Hne.
Qed.

(** What the escaped form of a string starts with. *)
Lemma json_escape_start (points : list N) (rest : string) :
  is_str points = true →
  match points with
  | m :: _ => is_low_surrogate m = false
  | [] => True
  end →
  (∀ s4, json_escape points +:+ String dquote rest
         ≠ String backslash (String "u" s4)) ∨
  (∃ l1 l2 l3 l4 s5 m,
     json_escape points +:+ String dquote rest
     = String backslash (String "u"
         (String l1 (String l2 (String l3 (String l4 s5))))) ∧
     hex4_value l1 l2 l3 l4 = Some m ∧ is_low_surrogate m = false).
Proof.
  destruct points as [|m tail]; intros Hstr Hlow.
  { left. intros s4. discriminate. }
  apply andb_true_iff in Hstr as [Hm%N.leb_le _].
  cbn [json_escape]. rewrite append_assoc.
  generalize (json_escape tail +:+ String dquote rest). intros t.
  unfold json_escape_char.
  repeat match goal with
         | |- context [(m =? ?k)%N] =>
             destruct (N.eqb_spec m k) as [->|?]; [left; intros s4; discriminate|]
         end.
  destruct ((32 <=? m) && (m <=? 126))%N eqn:Hprint.
  { apply andb_true_iff in Hprint as [H32%N.leb_le H126%N.leb_le].
    cbn [String.append]. left. intros s4 [= Hc _].
    apply (f_equal N_of_ascii) in Hc. rewrite N_ascii_embedding in Hc by lia.
    change (N_of_ascii backslash) with 92%N in Hc. done. }
  destruct (m <? 0x10000)%N eqn:Hbmp.
  - apply N.ltb_lt in Hbmp.
    destruct (hex4_value_hex4 m t Hbmp) as (a & b & c & d & Htext & Hvalue).
    right. exists a, b, c, d, t, m. cbn [String.append]. by rewrite Htext.
  - apply N.ltb_ge in Hbmp.
    destruct (surrogates_of m ltac:(lia)) as (Hhigh & _ & Hsmall & _).
    cbv zeta. rewrite append_assoc.
    set (high := (0xD800 + (m - 0x10000) / 1024)%N) in *.
    generalize (String backslash (String "u" (hex4 (0xDC00 + (m - 0x10000) mod 1024)))
                +:+ t). intros t'.
    destruct (hex4_value_hex4 high t' Hsmall) as (a & b & c & d & Htext & Hvalue).
    right. exists a, b, c, d, t', high. cbn [String.append]. rewrite Htext.
    repeat split; [done|].
    unfold is_high_surrogate in Hhigh. unfold is_low_surrogate.
    apply andb_true_iff in Hhigh as [_ Hle%N.leb_le].
    apply andb_false_iff. left. apply N.leb_gt. lia.
Qed.

(** Every code point is read back from its escape, unless it is a high
    surrogate and the escape of a low surrogate follows. *)
Lemma scanstring_escape_char (n : N) (tail : list N) (rest : string) :
  (n <= 0x10FFFF)%N →
  is_str tail = true →
  (is_high_surrogate n = true →
   match tail with
   | m :: _ => is_low_surrogate m = false
   | [] => True
   end) →
  scanstring (json_escape_char n +:+ (json_escape tail +:+ String dquote rest))
  = ('(u, r) ← scanstring (json_escape tail +:+ String dquote rest);
     Ok (n :: u, r)).
Proof.
  intros Hn Htail Hnext.
  assert (is_high_surrogate n = true →
          (∀ s4, json_escape tail +:+ String dquote rest
                 ≠ String backslash (String "u" s4)) ∨
          (∃ l1 l2 l3 l4 s5 m,
             json_escape tail +:+ String dquote rest
             = String backslash (String "u"
                 (String l1 (String l2 (String l3 (String l4 s5))))) ∧
             hex4_value l1 l2 l3 l4 = Some m ∧ is_low_surrogate m = false))
    as Hstart.
  { intros Hhigh. by apply json_escape_start; [|apply Hnext]. }
  revert Hstart. generalize (json_escape tail +:+ String dquote rest).
  intros t Hstart. unfold json_escape_char.
  repeat match goal with
         | |- context [(n =? ?k)%N] =>
             destruct (N.eqb_spec n k) as [->|?]; [reflexivity|]
         end.
  destruct ((32 <=? n) && (n <=? 126))%N eqn:Hprint.
  { apply andb_true_iff in Hprint as [H32%N.leb_le H126%N.leb_le].
    cbn [String.append]. rewrite scanstring_raw.
    - by rewrite N_ascii_embedding by lia.
    - by apply ascii_of_N_eqb; [lia|].
    - by apply ascii_of_N_eqb; [lia|].
    - rewrite N_ascii_embedding by lia. apply N.ltb_ge. lia. }
  destruct (n <? 0x10000)%N eqn:Hbmp.
  - apply N.ltb_lt in Hbmp.
    destruct (hex4_value_hex4 n t Hbmp) as (a & b & c & d & Htext & Hvalue).
    cbn [String.append]. rewrite Htext. by apply scanstring_u_alone.
  - apply N.ltb_ge in Hbmp.
    destruct (surrogates_of n ltac:(lia))
      as (Hhigh & Hlow & Hsmall & Hsmall' & Hjoin).
    cbv zeta in *. rewrite append_assoc.
    destruct (hex4_value_hex4 _ t Hsmall') as (a' & b' & c' & d' & Htext' & Hvalue').
    cbn [String.append]. rewrite Htext'.
    destruct (hex4_value_hex4 _
                (String backslash (String "u"
                   (String a' (String b' (String c' (String d' t))))))
                Hsmall)
      as (a & b & c & d & Htext & Hvalue).
    rewrite Htext.
    rewrite (scanstring_u_pair _ _ _ _ _ _ _ _ _ _ _ Hvalue Hhigh Hvalue' Hlow).
    by rewrite Hjoin.
Qed.

Lemma no_surrogate_pair_cons (n : N) (tail : list N) :
  no_surrogate_pair (n :: tail) = true →
  no_surrogate_pair tail = true ∧
  (is_high_surrogate n = true →
   match tail with
   | m :: _ => is_low_surrogate m = false
   | [] => True
   end).
Proof.
  cbn [no_surrogate_pair]. intros [Hhead Htail]%andb_true_iff.
  split; [done|]. intros Hhigh. destruct tail as [|m tail]; [done|].
  rewrite Hhigh in Hhead. by destruct (is_low_surrogate m).
Qed.

(** A string without a surrogate pair is read back from its escaped form. *)
Lemma scanstring_escape (points : list N) (rest : string) :
  is_str points = true → no_surrogate_pair points = true →
  scanstring (json_escape points +:+ String dquote rest) = Ok (points, rest).
Proof.
  induction points as [|n tail IH]; intros Hstr Hpair; [done|].
  apply no_surrogate_pair_cons in Hpair as [Hpair Hnext].
  pose proof Hstr as [Hn%N.leb_le Htail]%andb_true_iff.
  cbn [json_escape]. rewrite append_assoc.
  rewrite scanstring_escape_char by done.
  by rewrite IH.
Qed.
Lemma string_tail_inj (c : ascii) (a b : string) :
  String c a = String c b → a = b.
Proof. by intros [=]. Qed.

Lemma length_append (a b : string) :
  String.length (a +:+ b) = (String.length a + String.length b)%nat.
Proof. induction a as [|c a IH]; simpl; [done|]. by rewrite IH. Qed.

Lemma dict_set_fresh {K V} `{EqDecision K} (d : list (K * V)) (k : K) (v : V) :
  k ∉ d.*1 → dict_set d k v = d ++ [(k, v)].
Proof.
  induction d as [|[k' v'] d IH]; simpl; [done|].
  intros Hk. destruct (decide (k' = k)) as [->|].
  { exfalso. apply Hk. by left. }
  rewrite IH; [done|]. intros Hd. apply Hk. by right.
Qed.

Lemma dict_of_pairs_loop {K V} `{EqDecision K} (pairs acc : list (K * V)) :
  NoDup (acc ++ pairs).*1 →
  foldl (λ d kv, dict_set d kv.1 kv.2) acc pairs = acc ++ pairs.
Proof.
  revert acc. induction pairs as [|[k v] pairs IH]; intros acc Hnodup; simpl.
  - by rewrite app_nil_r.
  - rewrite dict_set_fresh.
    + rewrite IH; rewrite <- app_assoc; done.
    + rewrite fmap_app in Hnodup. apply NoDup_app in Hnodup as (_ & Hfresh & _).
      intros Hk. apply (Hfresh k Hk). by left.
Qed.

(** A dict is what [dict] builds from its own items. *)
Lemma dict_of_pairs_nodup {K V} `{EqDecision K} (d : list (K * V)) :
  NoDup d.*1 → dict_of_pairs d = d.
Proof. intros Hd. by apply (dict_of_pairs_loop d []). Qed.

(** One member, followed by [rest]. *)
Lemma scan_members_step (fuel : nat) (k v : list N) (rest : string)
  (acc : list (list N * list N)) :
  is_str k = true → no_surrogate_pair k = true →
  is_str v = true → no_surrogate_pair v = true →
  scan_members (S fuel)
    (json_escape k +:+ String dquote
       (String ":" (String " " (String dquote
          (json_escape v +:+ String dquote rest))))) acc
  = match skip_ws rest with
    | String "}" s5 => Ok (acc ++ [(k, v)], s5)
    | String "," s5 =>
        match skip_ws s5 with
        | String "034" s6 => scan_members fuel s6 (acc ++ [(k, v)])
        | _ => Raise ValueError
        end
    | _ => Raise ValueError
    end.
Proof.
  intros Hk Hk' Hv Hv'.
  cbn [scan_members]. rewrite scanstring_escape, bind_Ok by done.
  simpl. rewrite scanstring_escape, bind_Ok by done. reflexivity.
Qed.

(** *** Reading back a dict *)

Section any_str.
Context `{StrLaws str}.

Lemma json_item_app (k v : str) (rest : string) :
  json_item (k, v) +:+ rest
  = String dquote (json_escape (code_points k) +:+ String dquote
      (String ":" (String " " (String dquote
         (json_escape (code_points v) +:+ String dquote rest))))).
Proof.
  unfold json_item, json_string. simpl.
  rewrite !append_assoc. simpl. do 2 f_equal.
  rewrite !append_assoc. reflexivity.
Qed.

Lemma concat_items_cons (kv kv' : str * str) (contents : list (str * str)) :
  String.concat ", " (map json_item (kv :: kv' :: contents))
  = json_item kv +:+ ", " +:+ String.concat ", " (map json_item (kv' :: contents)).
Proof. reflexivity. Qed.

Lemma concat_items_quote (k v : str) (contents : list (str * str))
  (rest : string) :
  ∃ text, String.concat ", " (map json_item ((k, v) :: contents)) +:+ rest
          = String dquote text.
Proof.
  destruct contents as [|kv' contents].
  - change (String.concat ", " (map json_item [(k, v)])) with (json_item (k, v)).
    rewrite json_item_app. by eexists.
  - rewrite concat_items_cons, append_assoc, json_item_app. by eexists.
Qed.

(** The code points of the strings of a dict. *)
Lemma scan_members_dump (contents : list (str * str)) :
  ∀ (k v : str) (acc : list (list N * list N)) (fuel : nat)
    (text trailing : string),
    Forall (λ kv, json_safe kv.1 = true ∧ json_safe kv.2 = true)
      ((k, v) :: contents) →
    (length contents < fuel)%nat →
    String.concat ", " (map json_item ((k, v) :: contents)) +:+ String "}" trailing
    = String dquote text →
    scan_members fuel text acc
    = Ok (acc ++ map (λ kv, (code_points kv.1, code_points kv.2))
                   ((k, v) :: contents),
          trailing).
Proof.
  induction contents as [|[k' v'] contents IH];
    intros k v acc fuel text trailing Hsafe Hfuel Htext.
  all: destruct fuel as [|fuel]; [simpl in Hfuel; lia|].
  all: apply Forall_cons in Hsafe as [[Hk Hv] Hsafe]; simpl in Hk, Hv.
  all: apply andb_true_iff in Hk as [Hk Hk'], Hv as [Hv Hv'].
  - change (String.concat ", " (map json_item [(k, v)])) with (json_item (k, v))
      in Htext.
    rewrite json_item_app in Htext. apply string_tail_inj in Htext as <-.
    by rewrite scan_members_step.
  - rewrite concat_items_cons, append_assoc, json_item_app in Htext.
    apply string_tail_inj in Htext as <-.
    rewrite scan_members_step, append_assoc by done.
    destruct (concat_items_quote k' v' contents (String "}" trailing))
      as [text' Hnext].
    rewrite Hnext. simpl.
    rewrite (IH k' v' (acc ++ [(code_points k, code_points v)]) fuel text' trailing);
      [|done|simpl in Hfuel; lia|done].
    by rewrite <- app_assoc.
Qed.

Lemma json_item_length (kv : str * str) :
  (1 ≤ String.length (json_item kv))%nat.
Proof. unfold json_item, json_string. simpl. lia. Qed.

Lemma concat_items_length (contents : list (str * str)) :
  (length contents ≤ String.length (String.concat ", " (map json_item contents)))%nat.
Proof.
  induction contents as [|kv contents IH]; [done|].
  destruct contents as [|kv' contents].
  - apply json_item_length.
  - rewrite concat_items_cons, !length_append.
    pose proof (json_item_length kv). simpl length in *. lia.
Qed.

(** Loading a dumped dict scans exactly its items. *)
Lemma json_loads_dump (contents : list (str * str)) :
  Forall (λ kv, json_safe kv.1 = true ∧ json_safe kv.2 = true) contents →
  json_loads (json_dump contents)
  = Ok (dict_of_pairs
          (map (λ kv, (code_points kv.1, code_points kv.2)) contents)).
Proof.
  intros Hsafe. destruct contents as [|[k v] contents]; [reflexivity|].
  unfold json_dump.
  assert (length contents
          < String.length ("{" +:+ String.concat ", " (map json_item ((k, v) :: contents)) +:+ "}"))%nat
    as Hfuel.
  { rewrite !length_append.
    pose proof (concat_items_length ((k, v) :: contents)) as Hlen.
    simpl length in *. lia. }
  destruct (concat_items_quote k v contents "}") as [text Htext].
  change ("{" +:+ ?s) with (String "{" s) in *. rewrite Htext in *.
  unfold json_loads.
  remember (String.length (String "{" (String dquote text))) as fuel.
  cbn [skip_ws is_json_space Ascii.eqb Bool.eqb orb dquote].
  rewrite (scan_members_dump contents k v [] fuel text "") by done.
  reflexivity.
Qed.

Lemma as_dict_loop (contents acc : list (str * str)) :
  for_each (map (λ kv, (code_points kv.1, code_points kv.2)) contents) acc
    (λ acc kv,
       match of_code_points kv.1, of_code_points kv.2 with
       | Some k, Some v => Ok (acc ++ [(k, v)])
       | _, _ => Unmodelled
       end)
  = Ok (acc ++ contents).
Proof.
  revert acc. induction contents as [|[k v] contents IH]; intros acc.
  - by rewrite app_nil_r.
  - cbn [map for_each fst snd]. rewrite !of_code_points_code_points, bind_Ok, IH.
    by rewrite <- app_assoc.
Qed.

(** A dict is read back from what [json_dump] writes when its strings are
    read back. *)
Lemma json_load_dump (contents : list (str * str)) :
  NoDup contents.*1 →
  Forall (λ kv, json_safe kv.1 = true ∧ json_safe kv.2 = true) contents →
  json_load (json_dump contents) = Ok contents.
Proof.
  intros Hdict Hsafe. unfold json_load.
  rewrite json_loads_dump, bind_Ok by done.
  rewrite dict_of_pairs_nodup.
  - apply (as_dict_loop contents []).
  - assert (Inj (=) (=) (code_points (str := str))) as Hinj
      by (intros s t; apply code_points_inj).
    replace ((map (λ kv : str * str, (code_points kv.1, code_points kv.2))
                contents).*1)
      with (code_points <$> contents.*1).
    + by apply (NoDup_fmap_2 code_points).
    + rewrite <- !list_fmap_compose. by apply list_fmap_ext.
Qed.

End any_str.
(** *** The fuel of [json_loads] is never used up *)

(** What [scanstring] does after the escape of a code point: it goes on with
    a shorter text, or it raises. *)
Lemma scanstring_u_cases (h1 h2 h3 h4 : ascii) (s3 : string) :
  let s := String backslash (String "u"
             (String h1 (String h2 (String h3 (String h4 s3))))) in
  scanstring s = Raise ValueError ∨
  ∃ (n : N) (s' : string),
    (String.length s' < String.length s)%nat ∧
    scanstring s = ('(t, rest) ← scanstring s'; Ok (n :: t, rest)).
Proof.
  intros s. unfold s. rewrite scanstring_u.
  destruct (hex4_value h1 h2 h3 h4) as [n|]; [|by left].
  assert (∃ (k : N) (s' : string),
            (String.length s' < String.length s)%nat ∧
            ('(t, rest) ← scanstring s3; Ok (n :: t, rest))
            = ('(t, rest) ← scanstring s'; Ok (k :: t, rest))) as Halone.
  { exists n, s3. split; [unfold s; simpl; lia|done]. }
  destruct (is_high_surrogate n); [|right; exact Halone].
  destruct s3 as [|c [|e s4]]; [right; exact Halone| |].
  { right. destruct c as [[] [] [] [] [] [] [] []]; exact Halone. }
  destruct (Ascii.eqb_spec c backslash) as [->|Hc].
  2: { right. destruct c as [[] [] [] [] [] [] [] []]; done || exact Halone. }
  destruct (Ascii.eqb_spec e "u") as [->|He].
  2: { right. destruct e as [[] [] [] [] [] [] [] []]; done || exact Halone. }
  destruct s4 as [|l1 [|l2 [|l3 [|l4 s5]]]]; try by left.
  destruct (hex4_value l1 l2 l3 l4) as [m|]; [|by left].
  destruct (is_low_surrogate m); [|right; exact Halone].
  right. exists (join_surrogates n m), s5. split; [unfold s; simpl; lia|done].
Qed.

Lemma scanstring_shorter (n : nat) :
  ∀ s t rest, (String.length s ≤ n)%nat →
    scanstring s = Ok (t, rest) → (String.length rest < String.length s)%nat.
Proof.
  induction n as [|n IH]; intros s t rest Hn; destruct s as [|c s];
    simpl in Hn; try lia; try done.
  assert (∀ (k : N) (s' : string),
            (String.length s' < String.length (String c s))%nat →
            ('(t, rest) ← scanstring s'; Ok (k :: t, rest)) = Ok (t, rest) →
            (String.length rest < String.length (String c s))%nat) as Hstep.
  { intros k s' Hs'.
    destruct (scanstring s') as [[u r]| | |] eqn:Hscan; try done.
    rewrite bind_Ok. intros [= <- <-].
    apply IH in Hscan; simpl in *; lia. }
  destruct (Ascii.eqb_spec c dquote) as [->|Hquote].
  { intros [= <- <-]. simpl. lia. }
  destruct (Ascii.eqb_spec c backslash) as [->|Hslash].
  - destruct s as [|e s]; [done|].
    destruct (Ascii.eqb_spec e "u") as [->|Hu].
    + destruct s as [|h1 [|h2 [|h3 [|h4 s]]]]; try done.
      destruct (scanstring_u_cases h1 h2 h3 h4 s) as [->|(k & s' & Hs' & ->)];
        [done|].
      by apply Hstep.
    + cbn [scanstring].
      rewrite (proj2 (Ascii.eqb_neq _ _)), Ascii.eqb_refl by done.
      rewrite (proj2 (Ascii.eqb_neq e "u")) by done.
      destruct (unescape e) as [k|]; [|done].
      apply Hstep. simpl. lia.
  - cbn [scanstring].
    rewrite (proj2 (Ascii.eqb_neq c dquote)), (proj2 (Ascii.eqb_neq c backslash))
      by done.
    destruct (N_of_ascii c <? 32)%N; [done|].
    apply Hstep. simpl. lia.
Qed.

Lemma scanstring_fuel (n : nat) :
  ∀ s, (String.length s ≤ n)%nat → scanstring s ≠ OutOfFuel.
Proof.
  induction n as [|n IH]; intros s Hn; destruct s as [|c s];
    simpl in Hn; try lia; try done.
  assert (∀ (k : N) (s' : string),
            (String.length s' < String.length (String c s))%nat →
            ('(t, rest) ← scanstring s'; Ok (k :: t, rest))
            ≠ (OutOfFuel : result (list N * string))) as Hstep.
  { intros k s' Hs'.
    destruct (scanstring s') as [[u r]| | |] eqn:Hscan; try done.
    exfalso. revert Hscan. apply IH. simpl in *. lia. }
  destruct (Ascii.eqb_spec c dquote) as [->|Hquote]; [done|].
  destruct (Ascii.eqb_spec c backslash) as [->|Hslash].
  - destruct s as [|e s]; [done|].
    destruct (Ascii.eqb_spec e "u") as [->|Hu].
    + destruct s as [|h1 [|h2 [|h3 [|h4 s]]]]; try done.
      destruct (scanstring_u_cases h1 h2 h3 h4 s) as [->|(k & s' & Hs' & ->)];
        [done|].
      by apply Hstep.
    + cbn [scanstring].
      rewrite (proj2 (Ascii.eqb_neq _ _)), Ascii.eqb_refl by done.
      rewrite (proj2 (Ascii.eqb_neq e "u")) by done.
      destruct (unescape e) as [k|]; [|done].
      apply Hstep. simpl. lia.
  - cbn [scanstring].
    rewrite (proj2 (Ascii.eqb_neq c dquote)), (proj2 (Ascii.eqb_neq c backslash))
      by done.
    destruct (N_of_ascii c <? 32)%N; [done|].
    apply Hstep. simpl. lia.
Qed.

Lemma skip_ws_length (s : string) :
  (String.length (skip_ws s) ≤ String.length s)%nat.
Proof.
  induction s as [|c s IH]; simpl; [done|].
  destruct (is_json_space c); simpl; lia.
Qed.

Lemma scan_members_fuel (fuel : nat) :
  ∀ s pairs, (String.length s < fuel)%nat →
    scan_members fuel s pairs ≠ OutOfFuel.
Proof.
  induction fuel as [|fuel IH]; intros s pairs Hfuel; [lia|].
  cbn [scan_members].
  destruct (scanstring s) as [[key s1]| | |] eqn:Hkey; [|done| |done].
  2: { exfalso. revert Hkey. by apply (scanstring_fuel (String.length s)). }
  apply (scanstring_shorter (String.length s)) in Hkey; [|done].
  rewrite bind_Ok. pose proof (skip_ws_length s1) as Hs1.
  destruct (skip_ws s1) as [|c1 s2]; [done|].
  destruct (Ascii.eqb_spec c1 ":") as [->|Hc1].
  2: { destruct c1 as [[] [] [] [] [] [] [] []]; done. }
  pose proof (skip_ws_length s2) as Hs2.
  destruct (skip_ws s2) as [|c2 s3]; [done|].
  destruct (Ascii.eqb_spec c2 dquote) as [->|Hc2].
  2: { destruct c2 as [[] [] [] [] [] [] [] []]; done. }
  destruct (scanstring s3) as [[val s4]| | |] eqn:Hval; [|done| |done].
  2: { exfalso. revert Hval. by apply (scanstring_fuel (String.length s3)). }
  apply (scanstring_shorter (String.length s3)) in Hval; [|done].
  rewrite bind_Ok. pose proof (skip_ws_length s4) as Hs4.
  destruct (skip_ws s4) as [|c4 s5]; [done|].
  destruct (Ascii.eqb_spec c4 "}") as [->|Hc4]; [done|].
  destruct (Ascii.eqb_spec c4 ",") as [->|Hc4'].
  2: { destruct c4 as [[] [] [] [] [] [] [] []]; done. }
  pose proof (skip_ws_length s5) as Hs5.
  destruct (skip_ws s5) as [|c5 s6]; [done|].
  destruct (Ascii.eqb_spec c5 dquote) as [->|Hc5].
  2: { destruct c5 as [[] [] [] [] [] [] [] []]; done. }
  apply IH. simpl in *. lia.
Qed.

(** On every text [json_loads] returns a dict, raises, or finds a document
    that is not modelled. *)
Lemma json_loads_fuel (text : string) : json_loads text ≠ OutOfFuel.
Proof.
  unfold json_loads. pose proof (skip_ws_length text) as Htext.
  destruct (skip_ws text) as [|c0 s1]; [done|].
  destruct (Ascii.eqb_spec c0 "{") as [->|Hc0].
  2: { destruct c0 as [[] [] [] [] [] [] [] []]; done. }
  pose proof (skip_ws_length s1) as Hs1.
  destruct (skip_ws s1) as [|c1 s2].
  { done. }
  destruct (Ascii.eqb_spec c1 "}") as [->|Hc1].
  { rewrite bind_Ok. by destruct (skip_ws s2). }
  destruct (Ascii.eqb_spec c1 dquote) as [->|Hc1'].
  2: { destruct c1 as [[] [] [] [] [] [] [] []]; done. }
  simpl.
  destruct (scan_members (String.length text) s2 []) as [[pairs rest]| | |] eqn:Hscan.
  - rewrite bind_Ok. by destruct (skip_ws rest).
  - done.
  - exfalso. revert Hscan. apply scan_members_fuel. simpl in *. lia.
  - done.
Qed.
(** *** Files *)

Lemma prefix_longer (path suffix : string) :
  suffix ≠ "" → String.prefix (path +:+ suffix) path = false.
Proof.
  intros Hsuffix. induction path as [|c path IH]; simpl.
  - by destruct suffix.
  - by destruct (ascii_dec c c).
Qed.

Lemma exists_dir_insert (fs : gmap string string) (path text : string) :
  exists_dir fs (path +:+ "/") = false →
  exists_dir (<[path := text]> fs) (path +:+ "/") = false.
Proof.
  unfold exists_dir. intros [[-> ->]%orb_false_iff Hfs]%orb_false_iff.
  cbn [orb]. apply bool_decide_eq_false in Hfs. apply bool_decide_eq_false.
  intros (key & value & Hkey & Hprefix). apply Hfs.
  apply lookup_insert_Some in Hkey as [[<- _]|[_ Hkey]].
  - by rewrite prefix_longer in Hprefix.
  - by exists key, value.
Qed.

Lemma open_r_inv (fs : gmap string string) (path text : string) :
  open_r fs path = Ok text →
  check_path path = Ok () ∧ exists_dir fs (path +:+ "/") = false ∧
  fs !! path = Some text.
Proof.
  unfold open_r. destruct (check_path path) as [[]| | |]; [|done..].
  rewrite bind_Ok. destruct (exists_dir fs _); [done|].
  destruct (fs !! path); [|done]. by intros [= ->].
Qed.

Lemma open_w_inv (fs : gmap string string) (path : string) :
  open_w fs path = Ok () →
  check_path path = Ok () ∧ exists_dir fs (path +:+ "/") = false.
Proof.
  unfold open_w. destruct (check_path path) as [[]| | |]; [|done..].
  rewrite bind_Ok. by destruct (exists_dir fs _).
Qed.

(** A file that is there can be written again. *)
Lemma open_w_existing (fs : gmap string string) (path text : string) :
  check_path path = Ok () → exists_dir fs (path +:+ "/") = false →
  fs !! path = Some text →
  open_w fs path = Ok ().
Proof.
  intros Hpath Hdir Hfile. unfold open_w. rewrite Hpath, bind_Ok, Hdir.
  rewrite bool_decide_eq_true_2; [done|]. by rewrite Hfile.
Qed.

Lemma open_r_written (fs : gmap string string) (path text : string) :
  open_w fs path = Ok () → open_r (<[path := text]> fs) path = Ok text.
Proof.
  intros [Hpath Hdir]%open_w_inv. unfold open_r.
  by rewrite Hpath, bind_Ok, exists_dir_insert, lookup_insert_eq.
Qed.

Section any_str_files.
Context `{StrLaws str}.

Lemma read_json_inv (fs : gmap string string) (path : string)
  (d : list (str * str)) :
  read_json fs path = Ok d →
  ∃ text, open_r fs path = Ok text ∧ json_load text = Ok d.
Proof.
  unfold read_json. intros (text & Hopen & Hload)%bind_Ok_inv. eauto.
Qed.

(** Where [open] lets it, [write_json] puts the dumped dict into the file,
    and [read_json] reads it back when its strings are read back. *)
Lemma write_json_then_read_json (fs : gmap string string) (path : string)
  (contents : list (str * str)) :
  NoDup contents.*1 →
  Forall (λ kv, json_safe kv.1 = true ∧ json_safe kv.2 = true) contents →
  open_w fs path = Ok () →
  write_json fs path contents = Ok (<[path := json_dump contents]> fs) ∧
  read_json (<[path := json_dump contents]> fs) path = Ok contents.
Proof.
  intros Hdict Hsafe Hopen. unfold write_json, read_json.
  rewrite Hopen, bind_Ok. split; [done|].
  by rewrite (open_r_written _ _ _ Hopen), bind_Ok, json_load_dump.
Qed.

End any_str_files.

(** C9: a prefix cache written with [write_json] to a path that can be
    opened for writing, and read back from the same path with [read_json],
    is the mapping that was written, when none of its strings holds a high
    surrogate followed at once by a low surrogate. *)
Theorem write_json_read_json (fs : gmap string string) (path : string)
  (contents : list (list N * list N)) :
  NoDup contents.*1 →
  Forall (λ kv, json_safe kv.1 = true ∧ json_safe kv.2 = true) contents →
  open_w fs path = Ok () →
  ∃ fs', write_json fs path contents = Ok fs' ∧
         read_json fs' path = Ok contents.
Proof.
  intros Hdict Hsafe Hopen. eexists. by apply write_json_then_read_json.
Qed.

(** C9 as stated fails.  [open] turns down the empty path and a path into
    a directory that is not there; and from the two surrogates of U+1F600,
    written one after the other, [read_json] reads that one code point. *)
Lemma write_json_read_json_not_every_mapping :
  write_json ∅ "" [(code_points "653158", code_points "s3://bucket/")]
  = Raise OSError ∧
  write_json ∅ "cache/prefix_lookup.json"
    [(code_points "653158", code_points "s3://bucket/")]
  = Raise OSError ∧
  ∃ fs',
    write_json ∅ "prefix_lookup.json"
      [(code_points "653158", [0xD83D; 0xDE00]%N)] = Ok fs' ∧
    read_json fs' "prefix_lookup.json"
    = Ok [(code_points "653158", [0x1F600]%N)].
Proof.
  split; [reflexivity|]. split; [reflexivity|].
  eexists. split; [reflexivity|]. vm_compute. reflexivity.
Qed.

End json.

(** A cache of two datasets; the second path holds characters that are
    escaped, a code point beyond U+FFFF and surrogates that do not pair. *)
Lemma write_json_read_json_witness :
  ∃ fs',
    io_util.write_json ∅ "prefix_lookup.json"
      [(io_util.code_points "653158",
        io_util.code_points "s3://aind-open-data/exaSPIM_653158_2023/fused.zarr/");
       (io_util.code_points "609281",
        [9; 92; 34; 233; 0x3B1; 0xD83D; 0x1F600; 0xDE00; 0xD83D]%N)] = Ok fs' ∧
    io_util.read_json fs' "prefix_lookup.json"
    = Ok [(io_util.code_points "653158",
           io_util.code_points "s3://aind-open-data/exaSPIM_653158_2023/fused.zarr/");
          (io_util.code_points "609281",
           [9; 92; 34; 233; 0x3B1; 0xD83D; 0x1F600; 0xDE00; 0xD83D]%N)].
Proof.
  apply write_json_read_json.
  - apply (bool_decide_unpack _). vm_compute. exact I.
  - repeat constructor.
  - reflexivity.
Defined.

(** ** s3_util: the plausibility filter *)
Section shape.
Import s3_util.

Lemma foldl_max_elem (d : Z) (ds : list Z) : foldl Z.max d ds ∈ d :: ds.
Proof.
  revert d. induction ds as [|x ds IH]; intros d; simpl; [set_solver|].
  specialize (IH (Z.max d x)).
  apply elem_of_cons in IH as [IH|IH]; [|set_solver].
  rewrite IH. destruct (Z.max_spec d x) as [[_ ->]|[_ ->]]; set_solver.
Qed.

Lemma np_max_elem (shape : list Z) (m : Z) : np_max shape = Ok m → m ∈ shape.
Proof.
  destruct shape as [|d ds]; simpl; [done|].
  intros [= <-]. apply foldl_max_elem.
Qed.

(** C6: [is_shape_plausible] always returns a boolean.  A failure to open
    or read level 0, and a shape without a maximum, give [False]; [True] is
    returned only if level 0 was read and one of its dimensions exceeds
    25000. *)
Theorem is_shape_plausible_never_raises
  (zarr_open : string → reply (list Z)) (prefix : string) :
  (∃ b, is_shape_plausible zarr_open prefix = Ok b) ∧
  (∀ e, zarr_open (path_join prefix "0") = Failed e →
        is_shape_plausible zarr_open prefix = Ok false) ∧
  (zarr_open (path_join prefix "0") = Returned [] →
        is_shape_plausible zarr_open prefix = Ok false) ∧
  (is_shape_plausible zarr_open prefix = Ok true →
     ∃ shape d, zarr_open (path_join prefix "0") = Returned shape ∧
                d ∈ shape ∧ 25000 < d).
Proof.
  unfold is_shape_plausible.
  destruct (zarr_open (path_join prefix "0")) as [shape|e] eqn:Hopen; simpl.
  - destruct (np_max shape) as [m| | |] eqn:Hmax; simpl.
    + destruct (25000 <? m) eqn:Hm; simpl.
      * repeat split; eauto; try done.
        -- intros [= ->]. discriminate.
        -- intros _. exists shape, m.
           split; [done|]. split; [by apply np_max_elem|lia].
      * repeat split; eauto; done.
    + repeat split; eauto; done.
    + destruct shape; discriminate.
    + destruct shape; discriminate.
  - repeat split; eauto; done.
Qed.

End shape.

(** On the sample store the volume is accepted and every other prefix is
    turned down without an exception. *)
Lemma is_shape_plausible_never_raises_witness :
  s3_util.is_shape_plausible samples.zarr_volumes
    "s3://aind-open-data/exaSPIM_653158_2023/fused.zarr" = Ok true ∧
  s3_util.is_shape_plausible samples.zarr_volumes
    "s3://aind-open-data/exaSPIM_000000_2023/fused.zarr" = Ok false ∧
  ∃ shape d,
    samples.zarr_volumes
      (path_join "s3://aind-open-data/exaSPIM_653158_2023/fused.zarr" "0")
    = Returned shape ∧ d ∈ shape ∧ 25000 < d.
Proof.
  split; [reflexivity|]. split.
  - exact (proj1 (proj2 (is_shape_plausible_never_raises samples.zarr_volumes
      "s3://aind-open-data/exaSPIM_000000_2023/fused.zarr")) OSError eq_refl).
  - exact (proj2 (proj2 (proj2 (is_shape_plausible_never_raises
      samples.zarr_volumes
      "s3://aind-open-data/exaSPIM_653158_2023/fused.zarr"))) eq_refl).
Defined.

(** ** s3_util: the quick checks of the validity test *)
Section quick_checks.
Import s3_util.

Lemma lower_char_letter (c lo up : ascii) :
  (lo, up) ∈ [("t", "T"); ("e", "E"); ("s", "S")]%char →
  lower_char c = lo → c = lo ∨ c = up.
Proof.
  intros Hletter Hc. repeat apply elem_of_cons in Hletter as [[= -> ->]|Hletter].
  4: by apply elem_of_nil in Hletter.
  all: destruct c as [[] [] [] [] [] [] [] []]; vm_compute in Hc;
    try discriminate Hc; auto.
Qed.

(** The words that [lower] maps to [test] are its sixteen spellings. *)
Lemma lower_test (word : string) :
  lower word = "test" ↔ word ∈ test_spellings.
Proof.
  split.
  - destruct word as [|c1 [|c2 [|c3 [|c4 [|c5 word]]]]]; try discriminate.
    simpl. intros [= H1 H2 H3 H4].
    assert (c1 = "t" ∨ c1 = "T")%char as [-> | ->]
      by (apply lower_char_letter; [by left|done]).
    all: assert (c2 = "e" ∨ c2 = "E")%char as [-> | ->]
      by (apply lower_char_letter; [by right; left|done]).
    all: assert (c3 = "s" ∨ c3 = "S")%char as [-> | ->]
      by (apply lower_char_letter; [by right; right; left|done]).
    all: assert (c4 = "t" ∨ c4 = "T")%char as [-> | ->]
      by (apply lower_char_letter; [by left|done]).
    all: vm_compute; repeat (first [by left|right]).
  - intros Hword. vm_compute in Hword.
    repeat apply elem_of_cons in Hword as [->|Hword]; try reflexivity.
    by apply elem_of_nil in Hword.
Qed.

(** C7: a prefix that contains [test] in one of its sixteen spellings in
    upper and lower case is rejected, whatever the brain identifier and the
    bucket hold. *)
Theorem is_valid_img_prefix_rejects_test (fuel : nat) (s3 : s3_client)
  (bucket_name : string) (brain_id : brain_id_t) (before word after : string) :
  word ∈ test_spellings →
  is_valid_img_prefix fuel s3 bucket_name (before +:+ word +:+ after) brain_id
  = Ok false.
Proof.
  intros Hword%lower_test. unfold is_valid_img_prefix.
  rewrite !lower_app, Hword, contains_app. by rewrite orb_true_r.
Qed.

End quick_checks.

(** A dataset directory named as a test run is turned down. *)
Lemma is_valid_img_prefix_rejects_test_witness :
  s3_util.is_valid_img_prefix 0 samples.snapshot "aind-open-data"
    "exaSPIM_653158_TEST_2023/" (s3_util.IdInt 653158) = Ok false.
Proof.
  refine (is_valid_img_prefix_rejects_test 0 samples.snapshot "aind-open-data"
           (s3_util.IdInt 653158) "exaSPIM_653158_" "TEST" "_2023/" _).
  vm_compute. repeat (first [by left|right]).
Defined.

(** ** s3_util: paginated listings *)
Section listings.
Import s3_util.

Lemma foldl_keyword_filter (keyword : option string) (dirs acc : list string) :
  foldl (λ prefixes prefix,
           match keyword with
           | Some k =>
               if negb (String.eqb k "") && contains k (lower prefix)
               then prefixes ++ [prefix] else prefixes
           | None => prefixes ++ [prefix]
           end) acc dirs
  = acc ++ keyword_filter keyword dirs.
Proof.
  revert acc. induction dirs as [|d dirs IH]; intros acc.
  - destruct keyword; simpl; by rewrite app_nil_r.
  - simpl. rewrite IH. destruct keyword as [k|]; simpl.
    + destruct (negb (String.eqb k "") && contains k (lower d)); [|done].
      by rewrite <- app_assoc.
    + by rewrite <- app_assoc.
Qed.

Lemma keyword_filter_app (keyword : option string) (xs ys : list string) :
  keyword_filter keyword (xs ++ ys)
  = keyword_filter keyword xs ++ keyword_filter keyword ys.
Proof. destruct keyword; simpl; [apply List.filter_app|done]. Qed.

Lemma list_bucket_prefixes_loop_pages (s3 : s3_client) (bucket_name : string)
  (keyword : option string) (token : option string) (pages : list response) :
  pages_from s3 (bucket_request bucket_name) token pages →
  (token = None ∨ is_set token = true) →
  ∀ fuel acc, (length pages ≤ fuel)%nat →
    list_bucket_prefixes_loop fuel s3 bucket_name keyword acc token
    = Ok (acc ++ keyword_filter keyword (all_dirs pages)).
Proof.
  induction 1 as [token r Hr Hlast|token r next rs Hr Hmore Hnext Hne Hrs IH];
    intros Htoken fuel acc Hfuel.
  all: destruct fuel as [|fuel]; [simpl in Hfuel; lia|].
  all: assert ((if is_set token then token else None) = token) as Hsame
    by (destruct Htoken as [-> | ->]; done).
  all: simpl; rewrite Hsame; unfold bucket_request in Hr; rewrite Hr; simpl.
  - rewrite Hlast. unfold all_dirs, page_dirs. simpl. rewrite app_nil_r.
    destruct (CommonPrefixes r) as [dirs|]; simpl.
    + by rewrite foldl_keyword_filter.
    + destruct keyword; simpl; by rewrite app_nil_r.
  - rewrite Hmore, Hnext. rewrite IH.
    + unfold all_dirs at 2. simpl. fold (all_dirs rs).
      rewrite keyword_filter_app, app_assoc. f_equal. unfold page_dirs.
      destruct (CommonPrefixes r) as [dirs|]; simpl.
      * by rewrite foldl_keyword_filter.
      * destruct keyword; simpl; by rewrite app_nil_r.
    + right. simpl. by rewrite negb_true_iff, String.eqb_neq.
    + simpl in Hfuel. lia.
Qed.

(** [list_bucket_prefixes] follows the continuation tokens to the last page
    and returns the directories of all pages that pass the keyword. *)
Lemma list_bucket_prefixes_all_pages (s3 : s3_client) (bucket_name : string)
  (keyword : option string) (pages : list response) (fuel : nat) :
  pages_from s3 (bucket_request bucket_name) None pages →
  (length pages ≤ fuel)%nat →
  list_bucket_prefixes fuel s3 bucket_name keyword
  = Ok (keyword_filter keyword (all_dirs pages)).
Proof.
  intros Hpages Hfuel. unfold list_bucket_prefixes.
  by rewrite (list_bucket_prefixes_loop_pages _ _ _ _ _ Hpages) by auto.
Qed.

(** [list_prefixes] makes one request and returns the directories of the
    first page, whatever pages follow. *)
Lemma list_prefixes_first_page (s3 : s3_client) (bucket_name prefix : string)
  (r : response) (rs : list response) :
  pages_from s3 (prefix_request bucket_name (with_slash prefix)) None (r :: rs) →
  list_prefixes s3 bucket_name prefix = Ok (page_dirs r).
Proof.
  intros Hpages. unfold list_prefixes, page_dirs.
  assert (s3 (prefix_request bucket_name (with_slash prefix) None) = Returned r)
    as Hr by (by inversion Hpages).
  unfold prefix_request, with_slash in Hr. rewrite Hr. simpl.
  by destruct (CommonPrefixes r).
Qed.

Lemma last_name_component (key : string) :
  last_name key = Ok (last_component key).
Proof.
  unfold last_name, last_component.
  destruct (split "/" key) as [|x l] eqn:Hsplit using rev_ind.
  - by apply split_not_nil in Hsplit.
  - by rewrite py_index_last, last_last.
Qed.

Lemma for_return_names (m : string → result string) (g : string → string)
  (target : string) (xs : list string) :
  (∀ x, m x = Ok (g x)) →
  for_return xs
    (λ x, name ← m x;
          if String.eqb name target then Ok (Some true) else Ok None)
  = Ok (if bool_decide (target ∈ map g xs) then Some true else None).
Proof.
  intros Hm. induction xs as [|x xs IH]; [done|].
  cbn [for_return map]. rewrite Hm, !bind_Ok.
  destruct (String.eqb_spec (g x) target) as [<-|Hne].
  - rewrite bool_decide_eq_true_2; [done|by left].
  - rewrite bind_Ok, IH.
    destruct (bool_decide_reflect (target ∈ map g xs)).
    + rewrite bool_decide_eq_true_2; [done|by right].
    + rewrite bool_decide_eq_false_2; [done|].
      by intros [?|?]%elem_of_cons.
Qed.

(** One page of [exists_in_prefix]. *)
Lemma exists_in_pages_step (fuel : nat) (s3 : s3_client)
  (bucket_name prefix target : string) (token : option string) (r : response) :
  s3 (prefix_request bucket_name prefix token) = Returned r →
  exists_in_pages (S fuel) s3 bucket_name prefix target token
  = if bool_decide (target ∈ page_names r) then Ok true
    else if IsTruncated r && is_set (NextContinuationToken r) then
           if bool_decide (NextContinuationToken r = token)
           then Raise PaginationError
           else exists_in_pages fuel s3 bucket_name prefix target
                  (NextContinuationToken r)
         else Ok false.
Proof.
  intros Hr. cbn [exists_in_pages]. unfold prefix_request in Hr. rewrite Hr.
  cbn [call]. rewrite bind_Ok.
  rewrite (for_return_names last_name last_component)
    by apply last_name_component.
  rewrite bind_Ok. unfold page_names.
  destruct (bool_decide_reflect
              (target ∈ map last_component (default [] (Contents r)))) as [Hc|Hc].
  { rewrite bool_decide_eq_true_2; [done|]. apply elem_of_app. by left. }
  rewrite (for_return_names (λ d, last_name (rstrip "/" d))
             (λ d, last_component (rstrip "/" d)))
    by (intros; apply last_name_component).
  rewrite bind_Ok.
  destruct (bool_decide_reflect
              (target ∈ map (λ d, last_component (rstrip "/" d))
                            (default [] (CommonPrefixes r)))) as [Hp|Hp].
  { rewrite bool_decide_eq_true_2; [done|]. apply elem_of_app. by right. }
  rewrite (bool_decide_eq_false_2 (target ∈ _)); [done|].
  by intros [?|?]%elem_of_app.
Qed.

(** In a listing that comes to an end no page hands out the token it was
    asked for with. *)
Lemma pages_from_new_token (s3 : s3_client)
  (request : option string → list_kwargs) (token : option string)
  (pages : list response) :
  pages_from s3 request token pages →
  ∀ r, s3 (request token) = Returned r → IsTruncated r = true →
       NextContinuationToken r ≠ token.
Proof.
  induction 1 as [token r Hr Hlast|token r next rs Hr Hmore Hnext Hne Hrs IH];
    intros r' Hr' Htruncated Hsame.
  - rewrite Hr in Hr'. injection Hr' as <-. congruence.
  - rewrite Hr in Hr'. injection Hr' as <-.
    rewrite Hnext in Hsame. subst token.
    by apply (IH r).
Qed.

(** [exists_in_prefix] looks at every page until the name is found. *)
Lemma exists_in_pages_all (s3 : s3_client) (bucket_name prefix target : string)
  (token : option string) (pages : list response) :
  pages_from s3 (prefix_request bucket_name prefix) token pages →
  ∀ fuel, (length pages ≤ fuel)%nat →
    exists_in_pages fuel s3 bucket_name prefix target token
    = Ok (bool_decide (target ∈ concat (map page_names pages))).
Proof.
  induction 1 as [token r Hr Hlast|token r next rs Hr Hmore Hnext Hne Hrs IH];
    intros fuel Hfuel.
  all: destruct fuel as [|fuel]; [simpl in Hfuel; lia|].
  all: rewrite (exists_in_pages_step _ _ _ _ _ _ _ Hr); cbn [map concat].
  all: destruct (bool_decide_reflect (target ∈ page_names r)) as [Hin|Hin].
  all: try (rewrite bool_decide_eq_true_2; [done|]; apply elem_of_app; by left).
  - rewrite Hlast. cbn [andb]. rewrite bool_decide_eq_false_2; [done|].
    rewrite app_nil_r. done.
  - assert (NextContinuationToken r ≠ token) as Hnew.
    { eapply pages_from_new_token; [|exact Hr|exact Hmore].
      by eapply pages_more. }
    rewrite Hmore, Hnext. cbn [andb is_set].
    rewrite (proj2 (String.eqb_neq _ _) Hne). cbn [negb].
    rewrite (bool_decide_eq_false_2 (Some next = token))
      by (by rewrite <- Hnext).
    rewrite IH by (simpl in Hfuel; lia).
    f_equal. apply bool_decide_ext. rewrite elem_of_app. tauto.
Qed.

Lemma exists_in_prefix_pages (s3 : s3_client) (bucket_name prefix target : string)
  (pages : list response) (fuel : nat) :
  pages_from s3 (prefix_request bucket_name prefix) None pages →
  (length pages ≤ fuel)%nat →
  exists_in_prefix fuel s3 bucket_name prefix target
  = Ok (bool_decide (target ∈ concat (map page_names pages))).
Proof. intros Hpages Hfuel. by apply exists_in_pages_all. Qed.

(** C2, at an input where the code departs from it.  The soma detection
    runs of 653158 are listed in two pages; [list_prefixes] returns the
    directory of the first page only, and the most recent run is then
    picked among what was returned.  [list_bucket_prefixes] does return the
    directories of both pages of the top level of [aind-open-data]. *)
Theorem list_prefixes_drops_later_pages :
  pages_from samples.snapshot
    (prefix_request "aind-msma-morphology-data" "exaspim_soma_detection/653158/")
    None [samples.soma_page_1; samples.soma_page_2] ∧
  all_dirs [samples.soma_page_1; samples.soma_page_2]
  = ["exaspim_soma_detection/653158/results_20230101/";
     "exaspim_soma_detection/653158/results_20240615/"] ∧
  list_prefixes samples.snapshot "aind-msma-morphology-data"
    "exaspim_soma_detection/653158"
  = Ok ["exaspim_soma_detection/653158/results_20230101/"] ∧
  (list_prefixes samples.snapshot "aind-msma-morphology-data"
     "exaspim_soma_detection/653158" ≫= data_util.find_most_recent_dirname)
  = Ok "results_20230101" ∧
  pages_from samples.snapshot (bucket_request "aind-open-data") None
    [samples.top_page_1; samples.top_page_2] ∧
  list_bucket_prefixes 2 samples.snapshot "aind-open-data" None
  = Ok (all_dirs [samples.top_page_1; samples.top_page_2]).
Proof.
  assert (pages_from samples.snapshot (bucket_request "aind-open-data") None
            [samples.top_page_1; samples.top_page_2]) as Htop.
  { eapply pages_more; [reflexivity..|discriminate|].
    apply pages_last; reflexivity. }
  split.
  { eapply pages_more; [reflexivity..|discriminate|].
    apply pages_last; reflexivity. }
  split; [reflexivity|]. split; [reflexivity|]. split; [reflexivity|].
  split; [exact Htop|].
  exact (list_bucket_prefixes_all_pages _ _ None _ 2 Htop (le_n 2)).
Qed.

End listings.

(** ** s3_util: the resolution levels of an accepted prefix *)
Section levels.
Import s3_util.

Lemma for_return_all {A} (P : A → Prop) `{∀ x, Decision (P x)} (xs : list A) :
  for_return xs (λ x, if bool_decide (P x) then Ok None else Ok (Some false))
  = Ok (if bool_decide (Forall P xs) then None else Some false).
Proof.
  induction xs as [|x xs IH]; simpl; [done|].
  destruct (bool_decide_reflect (P x)) as [Hx|Hx]; simpl.
  - rewrite IH. destruct (bool_decide_reflect (Forall P xs)) as [Hxs|Hxs].
    + by rewrite bool_decide_eq_true_2; [|constructor].
    + rewrite bool_decide_eq_false_2; [done|]. by inversion 1.
  - rewrite bool_decide_eq_false_2; [done|]. by inversion 1.
Qed.

(** What the validity check computes once the quick checks have passed. *)
Lemma is_valid_img_prefix_unfold (fuel : nat) (s3 : s3_client)
  (bucket_name prefix : string) (brain_id : brain_id_t) :
  contains "test" (lower prefix) = false →
  contains (str_of_brain_id brain_id) prefix = true →
  is_valid_img_prefix fuel s3 bucket_name prefix brain_id
  = (has_zarr ← exists_in_prefix fuel s3 bucket_name prefix "fused.zarr";
     if (has_zarr : bool) then
       dirs ← list_prefixes s3 bucket_name (path_join prefix "fused.zarr");
       names ← level_names dirs;
       Ok (bool_decide (Forall (λ s, s ∈ names) levels))
     else Ok true).
Proof.
  intros Htest Hid. unfold is_valid_img_prefix. rewrite Htest, Hid.
  cbv beta iota delta [negb orb].
  destruct (exists_in_prefix _ _ _ _ _) as [[]| | |]; try reflexivity.
  rewrite !bind_Ok. cbv beta iota.
  destruct (list_prefixes _ _ _) as [dirs| | |]; try reflexivity.
  rewrite !bind_Ok. cbv beta. unfold level_names.
  destruct (for_each dirs _ _) as [names| | |]; try reflexivity.
  rewrite !bind_Ok. cbv beta.
  rewrite (for_return_all (λ s, s ∈ names)). rewrite bind_Ok.
  by destruct (bool_decide _).
Qed.

(** When [exists_in_prefix] finds [fused.zarr], acceptance means that the
    eight levels are all listed under it. *)
Lemma is_valid_img_prefix_levels (fuel : nat) (s3 : s3_client)
  (bucket_name prefix : string) (brain_id : brain_id_t) :
  exists_in_prefix fuel s3 bucket_name prefix "fused.zarr" = Ok true →
  is_valid_img_prefix fuel s3 bucket_name prefix brain_id = Ok true →
  ∃ dirs names,
    list_prefixes s3 bucket_name (path_join prefix "fused.zarr") = Ok dirs ∧
    level_names dirs = Ok names ∧
    ∀ s, s ∈ levels → s ∈ names.
Proof.
  intros Hzarr Hvalid.
  destruct (contains "test" (lower prefix)) eqn:Htest.
  { unfold is_valid_img_prefix in Hvalid.
    by rewrite Htest, orb_true_r in Hvalid. }
  destruct (contains (str_of_brain_id brain_id) prefix) eqn:Hid.
  2: { unfold is_valid_img_prefix in Hvalid. by rewrite Hid in Hvalid. }
  rewrite is_valid_img_prefix_unfold, Hzarr, bind_Ok in Hvalid by done.
  cbv beta iota in Hvalid.
  destruct (list_prefixes _ _ _) as [dirs| | |] eqn:Hdirs; try done.
  rewrite bind_Ok in Hvalid.
  destruct (level_names dirs) as [names| | |] eqn:Hnames; try done.
  rewrite bind_Ok in Hvalid.
  injection Hvalid as Hall%bool_decide_eq_true. exists dirs, names.
  split; [done|]. split; [done|]. by apply Forall_forall.
Qed.

(** When [exists_in_prefix] finds [fused.zarr], a listing without level 7
    is rejected. *)
Lemma is_valid_img_prefix_level_7 (fuel : nat) (s3 : s3_client)
  (bucket_name prefix : string) (brain_id : brain_id_t) (dirs names : list string) :
  contains "test" (lower prefix) = false →
  contains (str_of_brain_id brain_id) prefix = true →
  exists_in_prefix fuel s3 bucket_name prefix "fused.zarr" = Ok true →
  list_prefixes s3 bucket_name (path_join prefix "fused.zarr") = Ok dirs →
  level_names dirs = Ok names →
  "7" ∉ names →
  is_valid_img_prefix fuel s3 bucket_name prefix brain_id = Ok false.
Proof.
  intros Htest Hid Hzarr Hdirs Hnames H7.
  rewrite is_valid_img_prefix_unfold by done.
  rewrite Hzarr, bind_Ok. cbv beta iota. rewrite Hdirs, bind_Ok, Hnames, bind_Ok.
  rewrite bool_decide_eq_false_2; [done|].
  intros Hall. apply H7. rewrite Forall_forall in Hall. apply Hall.
  unfold levels. set_solver.
Qed.

(** When [exists_in_prefix] does not find [fused.zarr], a prefix that passes
    the quick checks is accepted without a look at any level. *)
Lemma is_valid_img_prefix_without_zarr (fuel : nat) (s3 : s3_client)
  (bucket_name prefix : string) (brain_id : brain_id_t) :
  contains "test" (lower prefix) = false →
  contains (str_of_brain_id brain_id) prefix = true →
  exists_in_prefix fuel s3 bucket_name prefix "fused.zarr" = Ok false →
  is_valid_img_prefix fuel s3 bucket_name prefix brain_id = Ok true.
Proof.
  intros Htest Hid Hzarr.
  by rewrite is_valid_img_prefix_unfold, Hzarr by done.
Qed.

(** C1, at the inputs where the code departs from it.  The directory of
    609281 is in the new layout; the prefix handed to the validity check is
    its [fusion] directory without a trailing slash, the listing of that
    prefix names [fusion/] only, [fused.zarr] is not found and the prefix is
    accepted although its pyramid has levels 0 to 6 only; it then comes out
    of [find_img_prefix] as a valid candidate.  A directory without any
    [fused.zarr] is accepted as well. *)
Theorem is_valid_img_prefix_accepts_missing_levels :
  is_valid_img_prefix 2 samples.snapshot "aind-open-data"
    "exaSPIM_609281_2022/fusion" (IdStr "609281") = Ok true ∧
  list_prefixes samples.snapshot "aind-open-data"
    (path_join "exaSPIM_609281_2022/fusion" "fused.zarr")
  = Ok (samples.level_dirs "exaSPIM_609281_2022/fusion/fused.zarr/"
          ["0"; "1"; "2"; "3"; "4"; "5"; "6"]) ∧
  find_img_prefix 3 samples.snapshot samples.zarr_volumes "609281"
  = Ok ["s3://aind-open-data/exaSPIM_609281_2022/fusion/fused.zarr"] ∧
  is_valid_img_prefix 2 samples.snapshot "aind-open-data"
    "SmartSPIM_653158_2023/" (IdStr "653158") = Ok true ∧
  list_prefixes samples.snapshot "aind-open-data"
    (path_join "SmartSPIM_653158_2023/" "fused.zarr") = Ok [].
Proof. repeat split; vm_compute; reflexivity. Qed.

End levels.

(** ** s3_util: one candidate or an error *)
Section candidates.
Import s3_util.

Lemma get_img_prefix_miss (fuel : nat) (s3 : s3_client)
  (zarr_open : string → reply (list Z)) (fs : gmap string string)
  (brain_id : string) (prefix_lookup_path : option string)
  (cache : option (string * list (string * string))) :
  cache_miss fs brain_id prefix_lookup_path cache →
  get_img_prefix fuel s3 zarr_open fs brain_id prefix_lookup_path
  = (found ← find_img_prefix fuel s3 zarr_open brain_id;
     match found with
     | [candidate] =>
         Ok (cache_written fs cache brain_id (candidate +:+ "/"),
             candidate +:+ "/")
     | _ => Raise (Exception ("Image Prefixes Found - " +:+ repr_list found))
     end).
Proof.
  intros [path Hpath|path d Hne Hread Hget]; unfold get_img_prefix.
  - rewrite Hpath, bind_Ok. simpl.
    destruct (find_img_prefix _ _ _ _) as [[|c [|c' found]]| | |]; reflexivity.
  - assert (is_set (Some path) = true) as ->
      by (simpl; by rewrite negb_true_iff, String.eqb_neq).
    simpl default. rewrite Hread, !bind_Ok. simpl. rewrite Hget.
    destruct (find_img_prefix _ _ _ _) as [[|c [|c' found]]| | |];
      try reflexivity.
    apply read_json_inv in Hread as (text & Hopen & _).
    apply open_r_inv in Hopen as (Hpath & Hdir & Hfile).
    rewrite !bind_Ok. unfold io_util.write_json.
    by rewrite (open_w_existing _ _ _ Hpath Hdir Hfile).
Qed.

(** C3, amended: on a cache miss, when the search ends with a list of
    candidates, a single candidate is returned with a slash appended (and
    written to the cache if there is one); no candidate or several raise
    an exception whose message carries the list as Python prints it: [[]]
    for no candidate, both candidates for two. *)
Theorem get_img_prefix_one_candidate (fuel : nat) (s3 : s3_client)
  (zarr_open : string → reply (list Z)) (fs : gmap string string)
  (brain_id : string) (prefix_lookup_path : option string)
  (cache : option (string * list (string * string))) (found : list string) :
  cache_miss fs brain_id prefix_lookup_path cache →
  find_img_prefix fuel s3 zarr_open brain_id = Ok found →
  (∀ candidate, found = [candidate] →
     get_img_prefix fuel s3 zarr_open fs brain_id prefix_lookup_path
     = Ok (cache_written fs cache brain_id (candidate +:+ "/"),
           candidate +:+ "/")) ∧
  (length found ≠ 1%nat →
     get_img_prefix fuel s3 zarr_open fs brain_id prefix_lookup_path
     = Raise (Exception ("Image Prefixes Found - " +:+ repr_list found))) ∧
  (found = [] →
     get_img_prefix fuel s3 zarr_open fs brain_id prefix_lookup_path
     = Raise (Exception "Image Prefixes Found - []")) ∧
  (∀ first second, found = [first; second] →
     get_img_prefix fuel s3 zarr_open fs brain_id prefix_lookup_path
     = Raise (Exception ("Image Prefixes Found - [" +:+ repr_str first
                         +:+ ", " +:+ repr_str second +:+ "]"))).
Proof.
  intros Hmiss Hfound.
  rewrite (get_img_prefix_miss _ _ _ _ _ _ _ Hmiss), Hfound, bind_Ok.
  repeat split.
  - intros c ->. reflexivity.
  - by destruct found as [|c [|c' found]].
  - intros ->. reflexivity.
  - intros a b ->. unfold repr_list. cbn [map String.concat].
    rewrite !append_assoc. reflexivity.
Qed.

(** C3 as stated fails: the single candidate of 653158 is not what is
    returned. *)
Lemma get_img_prefix_not_the_candidate :
  find_img_prefix 3 samples.snapshot samples.zarr_volumes "653158"
  = Ok ["s3://aind-open-data/exaSPIM_653158_2023/fused.zarr"] ∧
  ∀ fs', get_img_prefix 3 samples.snapshot samples.zarr_volumes ∅ "653158" None
         ≠ Ok (fs', "s3://aind-open-data/exaSPIM_653158_2023/fused.zarr").
Proof.
  split; [vm_compute; reflexivity|].
  intros fs'.
  replace (get_img_prefix 3 samples.snapshot samples.zarr_volumes ∅ "653158" None)
    with (Ok (∅ : gmap string string,
              "s3://aind-open-data/exaSPIM_653158_2023/fused.zarr/"))
    by (vm_compute; reflexivity).
  discriminate.
Qed.

End candidates.

(** The three outcomes on the sample bucket: 653158 has one candidate, which
    is returned and cached; 653980 has two; 000000 has none. *)
Lemma get_img_prefix_one_candidate_witness :
  s3_util.get_img_prefix 3 samples.snapshot samples.zarr_volumes
    {[ "prefix_lookup.json" := "{}" ]} "653158" (Some "prefix_lookup.json")
  = Ok (cache_written {[ "prefix_lookup.json" := "{}" ]}
          (Some ("prefix_lookup.json", [])) "653158"
          "s3://aind-open-data/exaSPIM_653158_2023/fused.zarr/",
        "s3://aind-open-data/exaSPIM_653158_2023/fused.zarr/") ∧
  s3_util.get_img_prefix 3 samples.snapshot samples.zarr_volumes ∅ "653980" None
  = Raise (Exception
      ("Image Prefixes Found - ["
       +:+ repr_str "s3://aind-open-data/exaSPIM_653980_2023/fused.zarr"
       +:+ ", "
       +:+ repr_str "s3://aind-open-data/exaSPIM_653980_2024/fused.zarr"
       +:+ "]")) ∧
  s3_util.get_img_prefix 3 samples.snapshot samples.zarr_volumes ∅ "000000" None
  = Raise (Exception "Image Prefixes Found - []").
Proof.
  split; [|split].
  - refine (proj1 (get_img_prefix_one_candidate 3 samples.snapshot
      samples.zarr_volumes {[ "prefix_lookup.json" := "{}" ]} "653158"
      (Some "prefix_lookup.json") (Some ("prefix_lookup.json", []))
      ["s3://aind-open-data/exaSPIM_653158_2023/fused.zarr"] _ _) _ eq_refl).
    + apply miss_not_cached; [discriminate|vm_compute; reflexivity|reflexivity].
    + vm_compute; reflexivity.
  - refine (proj2 (proj2 (proj2 (get_img_prefix_one_candidate 3 samples.snapshot
      samples.zarr_volumes ∅ "653980" None None _ _ _))) _ _ eq_refl).
    + by apply miss_no_cache.
    + vm_compute; reflexivity.
  - refine (proj1 (proj2 (proj2 (get_img_prefix_one_candidate 3 samples.snapshot
      samples.zarr_volumes ∅ "000000" None None [] _ _))) eq_refl).
    + by apply miss_no_cache.
    + vm_compute; reflexivity.
Defined.

(** * Part III: further properties of the modules *)

Local Arguments String.append !_ _ / : simpl nomatch.

(** ** Dicts *)

Lemma dict_get_set_eq {K V} `{EqDecision K} (d : list (K * V)) (k : K) (v : V) :
  dict_get (dict_set d k v) k = Some v.
Proof.
  induction d as [|[k' v'] d IH]; simpl.
  - by rewrite decide_True.
  - destruct (decide (k' = k)) as [->|Hne]; simpl.
    + by rewrite decide_True.
    + by rewrite decide_False.
Qed.

Lemma dict_get_set_ne {K V} `{EqDecision K} (d : list (K * V)) (k k' : K) (v : V) :
  k ≠ k' → dict_get (dict_set d k v) k' = dict_get d k'.
Proof.
  intros Hne. induction d as [|[k0 v0] d IH]; simpl.
  - by rewrite decide_False.
  - destruct (decide (k0 = k)) as [->|Hk0]; simpl.
    + by rewrite !decide_False.
    + destruct (decide (k0 = k')); [done|apply IH].
Qed.

Lemma dict_set_keys {K V} `{EqDecision K} (d : list (K * V)) (k : K) (v : V) :
  (dict_set d k v).*1 = if bool_decide (k ∈ d.*1) then d.*1 else d.*1 ++ [k].
Proof.
  induction d as [|[k' v'] d IH]; [done|].
  cbn [dict_set]. destruct (decide (k' = k)) as [->|Hne]; rewrite !fmap_cons.
  - rewrite bool_decide_eq_true_2; [done|by left].
  - rewrite IH. cbn [fst]. destruct (bool_decide_reflect (k ∈ d.*1)) as [Hin|Hin].
    + rewrite bool_decide_eq_true_2; [done|by right].
    + rewrite bool_decide_eq_false_2; [done|].
      intros [?|?]%elem_of_cons; congruence.
Qed.

Lemma dict_set_nodup {K V} `{EqDecision K} (d : list (K * V)) (k : K) (v : V) :
  NoDup d.*1 → NoDup (dict_set d k v).*1.
Proof.
  intros Hd. rewrite dict_set_keys.
  destruct (bool_decide_reflect (k ∈ d.*1)) as [Hin|Hin]; [done|].
  apply NoDup_app. split; [done|]. split; [|apply NoDup_singleton].
  intros x Hx ->%list_elem_of_singleton. done.
Qed.

(** A dict built by [dict] has one entry per key. *)
Lemma dict_of_pairs_keys_nodup {K V} `{EqDecision K} (pairs : list (K * V)) :
  NoDup (dict_of_pairs pairs).*1.
Proof.
  unfold dict_of_pairs.
  assert (∀ acc : list (K * V), NoDup acc.*1 →
            NoDup (foldl (λ d kv, dict_set d kv.1 kv.2) acc pairs).*1) as Hloop.
  { induction pairs as [|[k v] pairs IH]; intros acc Hacc; simpl; [done|].
    apply IH. by apply dict_set_nodup. }
  apply Hloop. constructor.
Qed.

(** ** io_util: what was read can be written back *)
Section cache_files.
Import io_util.

Lemma json_loads_nodup (text : string) (d : list (list N * list N)) :
  json_loads text = Ok d → NoDup d.*1.
Proof.
  unfold json_loads. destruct (skip_ws text) as [|c s1]; [done|].
  destruct (Ascii.eqb_spec c "{") as [->|Hc].
  2: { destruct c as [[] [] [] [] [] [] [] []]; done. }
  intros Hload. apply bind_Ok_inv in Hload as ([pairs rest] & _ & Hrest).
  destruct (skip_ws rest); [|done].
  injection Hrest as <-. apply dict_of_pairs_keys_nodup.
Qed.

(** The strings of a dict that was read are those of the code points that
    were scanned. *)
Lemma as_dict_keys `{StrLaws str} (d0 : list (list N * list N))
  (d : list (str * str)) :
  as_dict d0 = Ok d → code_points <$> d.*1 = d0.*1.
Proof.
  unfold as_dict.
  assert (∀ acc : list (str * str),
            for_each d0 acc
              (λ acc kv,
                 match of_code_points kv.1, of_code_points kv.2 with
                 | Some k, Some v => Ok (acc ++ [(k, v)])
                 | _, _ => Unmodelled
                 end) = Ok d →
            code_points <$> d.*1 = (code_points <$> acc.*1) ++ d0.*1) as Hloop.
  { induction d0 as [|[k0 v0] d0 IH]; intros acc; cbn [for_each fst snd].
    - intros [= <-]. by rewrite app_nil_r.
    - destruct (of_code_points k0) as [k|] eqn:Hk; [|done].
      destruct (of_code_points v0) as [v|]; [|done].
      rewrite bind_Ok. intros Hrest%IH.
      rewrite Hrest, !fmap_app, <- app_assoc. cbn.
      by rewrite (code_points_of_code_points _ _ Hk). }
  intros Hd. by rewrite (Hloop [] Hd).
Qed.

Lemma json_load_nodup `{StrLaws str} (text : string) (d : list (str * str)) :
  json_load text = Ok d → NoDup d.*1.
Proof.
  unfold json_load. intros (d0 & Hloads & Hdict)%bind_Ok_inv.
  apply (NoDup_fmap_1 code_points).
  rewrite (as_dict_keys _ _ Hdict). by eapply json_loads_nodup.
Qed.

Lemma read_json_nodup `{StrLaws str} (fs : gmap string string)
  (path : string) (d : list (str * str)) :
  read_json fs path = Ok d → NoDup d.*1.
Proof.
  intros (text & _ & Hload)%read_json_inv. by eapply json_load_nodup.
Qed.

Lemma latin1_dict_safe (d : list (string * string)) :
  Forall (λ kv, json_safe kv.1 = true ∧ json_safe kv.2 = true) d.
Proof. apply Forall_forall. intros kv _. split; apply latin1_json_safe. Qed.

(** Where a cache was read, a cache can be written and is read back. *)
Lemma read_json_rewritten (fs : gmap string string) (path : string)
  (d d' : list (string * string)) :
  read_json fs path = Ok d → NoDup d'.*1 →
  write_json fs path d' = Ok (<[path := json_dump d']> fs) ∧
  read_json (<[path := json_dump d']> fs) path = Ok d'.
Proof.
  intros (text & Hopen & _)%read_json_inv Hd'.
  apply open_r_inv in Hopen as (Hpath & Hdir & Hfile).
  apply write_json_then_read_json; [done|apply latin1_dict_safe|].
  by eapply open_w_existing.
Qed.


End cache_files.

(** ** s3_util: the prefix cache of [get_img_prefix] *)
Section cache.
Import s3_util.

Lemma is_set_some (path : string) : path ≠ "" → is_set (Some path) = true.
Proof. intros Hne. simpl. by rewrite negb_true_iff, String.eqb_neq. Qed.

Lemma get_img_prefix_from_cache (fs : gmap string string)
  (brain_id path cached : string) (prefix_lookup : list (string * string))
  (fuel : nat) (s3 : s3_client) (zarr_open : string → reply (list Z)) :
  path ≠ "" →
  io_util.read_json fs path = Ok prefix_lookup →
  dict_get prefix_lookup brain_id = Some cached →
  get_img_prefix fuel s3 zarr_open fs brain_id (Some path) = Ok (fs, cached).
Proof.
  intros Hne Hread Hget. unfold get_img_prefix.
  rewrite is_set_some by done. simpl default. rewrite Hread, !bind_Ok.
  simpl. by rewrite Hget.
Qed.

(** An identifier found in the cache is answered from the cache: the bucket
    and the zarr store are not consulted (any fuel will do, even none) and
    the file system is left as it was. *)
Theorem get_img_prefix_cache_hit (fs : gmap string string)
  (brain_id path cached : string) (prefix_lookup : list (string * string)) :
  path ≠ "" →
  io_util.read_json fs path = Ok prefix_lookup →
  dict_get prefix_lookup brain_id = Some cached →
  ∀ (fuel : nat) (s3 : s3_client) (zarr_open : string → reply (list Z)),
    get_img_prefix fuel s3 zarr_open fs brain_id (Some path) = Ok (fs, cached).
Proof.
  intros Hne Hread Hget fuel s3 zarr_open.
  by apply (get_img_prefix_from_cache _ _ _ _ prefix_lookup).
Qed.

(** A cache file that cannot be read (there is no such file, or what it
    holds is not JSON) makes [get_img_prefix] raise the error of the read,
    whatever the bucket holds: the search is not tried. *)
Theorem get_img_prefix_unreadable_cache (fs : gmap string string)
  (brain_id path : string) (e : exn) :
  path ≠ "" →
  io_util.read_json (str := string) fs path = Raise e →
  ∀ (fuel : nat) (s3 : s3_client) (zarr_open : string → reply (list Z)),
    get_img_prefix fuel s3 zarr_open fs brain_id (Some path) = Raise e.
Proof.
  intros Hne Hread fuel s3 zarr_open. unfold get_img_prefix.
  rewrite is_set_some by done. simpl default. by rewrite Hread.
Qed.

(** What a call with a cache path returns and leaves behind. *)
Lemma get_img_prefix_with_cache_inv (fuel : nat) (s3 : s3_client)
  (zarr_open : string → reply (list Z)) (fs fs' : gmap string string)
  (brain_id path prefix : string) :
  path ≠ "" →
  get_img_prefix fuel s3 zarr_open fs brain_id (Some path) = Ok (fs', prefix) →
  ∃ d, io_util.read_json fs path = Ok d ∧
       ((dict_get d brain_id = Some prefix ∧ fs' = fs) ∨
        (dict_get d brain_id = None ∧
         fs' = <[path := io_util.json_dump (dict_set d brain_id prefix)]> fs)).
Proof.
  intros Hne. unfold get_img_prefix.
  rewrite is_set_some by done. simpl default.
  destruct (io_util.read_json fs path) as [d| | |] eqn:Hread; [|done..].
  rewrite !bind_Ok. simpl.
  destruct (dict_get d brain_id) as [cached|] eqn:Hget.
  - intros [= <- <-]. exists d. auto.
  - destruct (find_img_prefix _ _ _ _) as [[|c [|c' found]]| | |]; try done.
    rewrite bind_Ok.
    rewrite (proj1 (read_json_rewritten _ _ _ (dict_set d brain_id (c +:+ "/")) Hread
                      (dict_set_nodup _ _ _ (read_json_nodup _ _ _ Hread)))).
    rewrite bind_Ok. intros [= <- <-]. exists d. auto.
Qed.

(** Once [get_img_prefix] has returned a prefix for an identifier with a
    cache path, every later call for that identifier and path returns the
    same prefix from the cache, whatever the bucket has become. *)
Theorem get_img_prefix_cached_afterwards (fuel : nat) (s3 : s3_client)
  (zarr_open : string → reply (list Z)) (fs fs' : gmap string string)
  (brain_id path prefix : string) :
  path ≠ "" →
  get_img_prefix fuel s3 zarr_open fs brain_id (Some path) = Ok (fs', prefix) →
  ∀ (fuel' : nat) (s3' : s3_client) (zarr_open' : string → reply (list Z)),
    get_img_prefix fuel' s3' zarr_open' fs' brain_id (Some path)
    = Ok (fs', prefix).
Proof.
  intros Hne Hcall fuel' s3' zarr_open'.
  apply (get_img_prefix_with_cache_inv _ _ _ _ _ _ _ _ Hne) in Hcall
    as (d & Hread & [[Hget ->]|[Hget ->]]).
  - by apply (get_img_prefix_from_cache _ _ _ _ d).
  - apply (get_img_prefix_from_cache _ _ _ _ (dict_set d brain_id prefix)); [done|..].
    + eapply read_json_rewritten; [done|].
      apply dict_set_nodup. by eapply read_json_nodup.
    + apply dict_get_set_eq.
Qed.

(** Adding an identifier to the cache keeps the entries that were there:
    an identifier cached before the call is still answered with its prefix
    after it. *)
Theorem get_img_prefix_keeps_entries (fuel : nat) (s3 : s3_client)
  (zarr_open : string → reply (list Z)) (fs fs' : gmap string string)
  (brain_id path prefix other cached : string)
  (prefix_lookup : list (string * string)) :
  path ≠ "" →
  io_util.read_json fs path = Ok prefix_lookup →
  dict_get prefix_lookup other = Some cached →
  get_img_prefix fuel s3 zarr_open fs brain_id (Some path) = Ok (fs', prefix) →
  ∀ (fuel' : nat) (s3' : s3_client) (zarr_open' : string → reply (list Z)),
    get_img_prefix fuel' s3' zarr_open' fs' other (Some path) = Ok (fs', cached).
Proof.
  intros Hne Hread Hother Hcall fuel' s3' zarr_open'.
  apply (get_img_prefix_with_cache_inv _ _ _ _ _ _ _ _ Hne) in Hcall
    as (d & Hread' & [[Hget ->]|[Hget ->]]).
  all: rewrite Hread in Hread'; injection Hread' as <-.
  - by apply (get_img_prefix_from_cache _ _ _ _ prefix_lookup).
  - apply (get_img_prefix_from_cache _ _ _ _ (dict_set prefix_lookup brain_id prefix));
      [done|..].
    + eapply read_json_rewritten; [done|].
      apply dict_set_nodup. by eapply read_json_nodup.
    + rewrite dict_get_set_ne; [done|]. intros ->. congruence.
Qed.

End cache.

(** ** s3_util: listings *)
Section more_listings.
Import s3_util.

(** When the top level of the bucket is served in pages, each truncated
    page naming the next, [list_bucket_prefixes] returns the directories of
    all pages, in order; with a keyword, those whose lower-cased name
    contains the keyword as it is given. *)
Theorem list_bucket_prefixes_collects (s3 : s3_client) (bucket_name : string)
  (keyword : option string) (pages : list response) (fuel : nat) :
  pages_from s3 (bucket_request bucket_name) None pages →
  (length pages ≤ fuel)%nat →
  list_bucket_prefixes fuel s3 bucket_name keyword
  = Ok (keyword_filter keyword (all_dirs pages)).
Proof. apply list_bucket_prefixes_all_pages. Qed.

Lemma lower_char_not_capital (c : ascii) : is_capital (lower_char c) = false.
Proof. destruct c as [[] [] [] [] [] [] [] []]; reflexivity. Qed.

Lemma lower_not_capital (s : string) :
  all_chars (λ c, negb (is_capital c)) (lower s) = true.
Proof.
  induction s as [|c s IH]; simpl; [done|].
  by rewrite lower_char_not_capital, IH.
Qed.

Lemma contains_capital_lower (before after prefix : string) (c : ascii) :
  is_capital c = true →
  contains (before +:+ String c after) (lower prefix) = false.
Proof.
  intros Hc. destruct (contains _ _) eqn:Hin; [|done].
  apply contains_spec in Hin as (a & b & Hlower).
  pose proof (lower_not_capital prefix) as Hall.
  rewrite Hlower, !all_chars_app in Hall. simpl in Hall.
  rewrite Hc in Hall. simpl in Hall.
  by rewrite !andb_false_r in Hall.
Qed.

(** A keyword with a capital letter matches no directory: the names are
    lower-cased before the comparison and the keyword is not. *)
Theorem list_bucket_prefixes_capital_keyword (s3 : s3_client)
  (bucket_name before after : string) (c : ascii) (pages : list response)
  (fuel : nat) :
  is_capital c = true →
  pages_from s3 (bucket_request bucket_name) None pages →
  (length pages ≤ fuel)%nat →
  list_bucket_prefixes fuel s3 bucket_name (Some (before +:+ String c after))
  = Ok [].
Proof.
  intros Hc Hpages Hfuel.
  rewrite (list_bucket_prefixes_all_pages _ _ _ _ _ Hpages Hfuel).
  unfold keyword_filter. f_equal.
  induction (all_dirs pages) as [|d dirs IH]; [done|].
  simpl. by rewrite contains_capital_lower, andb_false_r.
Qed.

(** On a listing served in pages, [exists_in_prefix] answers whether the
    name is the last component of a listed key, or of a listed subdirectory
    without its trailing slashes, on any of the pages. *)
Theorem exists_in_prefix_finds (s3 : s3_client)
  (bucket_name prefix target : string) (pages : list response) (fuel : nat) :
  pages_from s3 (prefix_request bucket_name prefix) None pages →
  (length pages ≤ fuel)%nat →
  exists_in_prefix fuel s3 bucket_name prefix target
  = Ok (bool_decide (target ∈ concat (map page_names pages))).
Proof. apply exists_in_prefix_pages. Qed.

Lemma substring_app_r (a s : string) :
  String.substring (String.length a) (String.length s) (a +:+ s) = s.
Proof.
  induction a as [|c a IH]; simpl; [|done].
  induction s as [|c s IH]; simpl; [done|]. by rewrite IH.
Qed.

Lemma endswith_app (a s : string) : endswith (a +:+ s) s = true.
Proof.
  unfold endswith. rewrite length_append.
  rewrite (proj2 (Nat.leb_le _ _)) by lia.
  replace (String.length a + String.length s - String.length s)%nat
    with (String.length a) by lia.
  by rewrite substring_app_r, String.eqb_refl.
Qed.

(** [list_prefixes] gives the same answer for a prefix given without its
    trailing slash as for the prefix with it. *)
Theorem list_prefixes_trailing_slash (s3 : s3_client)
  (bucket_name prefix : string) :
  endswith prefix "/" = false →
  list_prefixes s3 bucket_name prefix
  = list_prefixes s3 bucket_name (prefix +:+ "/").
Proof.
  intros Hends. unfold list_prefixes. by rewrite endswith_app, Hends.
Qed.

End more_listings.

(** ** s3_util: what a candidate is *)
Section more_candidates.
Import s3_util.

Lemma for_each_invariant {A S} (P : S → Prop) (body : S → A → result S)
  (xs : list A) (s0 s : S) :
  (∀ s x s', P s → body s x = Ok s' → P s') →
  P s0 → for_each xs s0 body = Ok s → P s.
Proof.
  intros Hbody. revert s0. induction xs as [|x xs IH]; intros s0 Hs0; simpl.
  - by intros [= <-].
  - intros Hrun. apply bind_Ok_inv in Hrun as (s1 & Hstep & Hrest).
    eapply IH; [|exact Hrest]. by eapply Hbody.
Qed.

Lemma contains_app_l (n a b : string) :
  contains n a = true → contains n (a +:+ b) = true.
Proof.
  intros (x & y & ->)%contains_spec. apply contains_spec.
  exists x, (y +:+ b). by rewrite !append_assoc.
Qed.

Lemma contains_app_r (n a b : string) :
  contains n b = true → contains n (a +:+ b) = true.
Proof.
  intros (x & y & ->)%contains_spec. apply contains_spec.
  exists (a +:+ x), y. by rewrite !append_assoc.
Qed.

Lemma path_join_cases (a b : string) :
  path_join a b = b ∨ path_join a b = a +:+ b ∨ path_join a b = a +:+ "/" +:+ b.
Proof.
  unfold path_join. destruct (String.prefix "/" b); [by left|].
  destruct (_ || _); auto.
Qed.

Lemma contains_path_join_r (n a b : string) :
  contains n b = true → contains n (path_join a b) = true.
Proof.
  intros Hb. destruct (path_join_cases a b) as [-> | [-> | ->]]; [done|..].
  - by apply contains_app_r.
  - by apply contains_app_r, contains_app_r.
Qed.

Lemma path_join_zarr (a : string) :
  path_join a "fused.zarr" = a +:+ "fused.zarr" ∨
  path_join a "fused.zarr" = (a +:+ "/") +:+ "fused.zarr".
Proof.
  unfold path_join. simpl String.prefix. cbv iota.
  destruct (_ || _); [by left|right]. by rewrite append_assoc.
Qed.

Lemma is_valid_img_prefix_has_id (fuel : nat) (s3 : s3_client)
  (bucket_name prefix : string) (brain_id : brain_id_t) :
  is_valid_img_prefix fuel s3 bucket_name prefix brain_id = Ok true →
  contains (str_of_brain_id brain_id) prefix = true ∧
  contains "test" (lower prefix) = false.
Proof.
  unfold is_valid_img_prefix.
  destruct (contains (str_of_brain_id brain_id) prefix); [|done].
  by destruct (contains "test" (lower prefix)).
Qed.

(** Every candidate that [find_img_prefix] returns contains the brain
    identifier, ends in [fused.zarr], and was found plausible: level 0 under
    it was opened and has a dimension above 25000. *)
Theorem find_img_prefix_candidates (fuel : nat) (s3 : s3_client)
  (zarr_open : string → reply (list Z)) (brain_id : string)
  (found : list string) :
  find_img_prefix fuel s3 zarr_open brain_id = Ok found →
  ∀ candidate, candidate ∈ found →
    contains brain_id candidate = true ∧
    (∃ root, candidate = root +:+ "fused.zarr") ∧
    is_shape_plausible zarr_open candidate = Ok true.
Proof.
  unfold find_img_prefix. intros Hrun.
  apply bind_Ok_inv in Hrun as (prefixes & _ & Hloop).
  eapply (for_each_invariant
    (λ valid : list string, ∀ candidate, candidate ∈ valid →
       contains brain_id candidate = true ∧
       (∃ root, candidate = root +:+ "fused.zarr") ∧
       is_shape_plausible zarr_open candidate = Ok true));
    [| |exact Hloop].
  - intros valid prefix valid' Hvalid Hstep. cbv beta in Hstep.
    apply bind_Ok_inv in Hstep as (has_fusion & _ & Hstep).
    apply bind_Ok_inv in Hstep as ([] & Hok & Hstep); [|by injection Hstep as <-].
    apply bind_Ok_inv in Hstep as ([] & Hshape & Hstep); [|by injection Hstep as <-].
    injection Hstep as <-.
    intros c [Hc| ->%list_elem_of_singleton]%elem_of_app; [by apply Hvalid|].
    apply is_valid_img_prefix_has_id in Hok as [Hid _]. simpl in Hid.
    split; [|split; [|done]].
    + destruct (path_join_zarr (path_join "s3://aind-open-data"
                  (if has_fusion then path_join prefix "fusion" else prefix)))
        as [-> | ->]; apply contains_app_l; [|apply contains_app_l];
        by apply contains_path_join_r.
    + destruct (path_join_zarr (path_join "s3://aind-open-data"
                  (if has_fusion then path_join prefix "fusion" else prefix)))
        as [-> | ->]; by eexists.
  - intros c Hc. by apply elem_of_nil in Hc.
Qed.

End more_candidates.

(** ** s3_util: the level check and the shape check *)
Section more_checks.
Import s3_util.

Lemma level_names_loop (parent : string) (names acc : list string) :
  is_parent parent →
  Forall (λ n, all_chars (λ c, negb (Ascii.eqb c "/")) n = true) names →
  for_each (map (λ n, parent +:+ n +:+ "/") names) acc
    (λ acc s, name ← py_index (split "/" s) (-2); Ok (acc ++ [name]))
  = Ok (acc ++ names).
Proof.
  intros Hparent Hnames. revert acc.
  induction Hnames as [|n names Hn _ IH]; intros acc.
  - simpl. by rewrite app_nil_r.
  - cbn [map for_each]. rewrite split_dirname, !bind_Ok by done.
    rewrite IH. by rewrite <- app_assoc.
Qed.

(** When the listing of the prefix shows [fused.zarr] and the listing of
    [fused.zarr] shows the subdirectories [names], a prefix that passes the
    two quick checks is accepted exactly if all of ["0"] to ["7"] are among
    [names]. *)
Theorem is_valid_img_prefix_checks_levels (fuel : nat) (s3 : s3_client)
  (bucket_name prefix : string) (brain_id : brain_id_t)
  (pages : list response) (r : response) (parent : string)
  (names : list string) :
  contains "test" (lower prefix) = false →
  contains (str_of_brain_id brain_id) prefix = true →
  pages_from s3 (prefix_request bucket_name prefix) None pages →
  (length pages ≤ fuel)%nat →
  "fused.zarr" ∈ concat (map page_names pages) →
  s3 (prefix_request bucket_name (with_slash (path_join prefix "fused.zarr")) None)
  = Returned r →
  CommonPrefixes r = Some (map (λ n, parent +:+ n +:+ "/") names) →
  is_parent parent →
  Forall (λ n, all_chars (λ c, negb (Ascii.eqb c "/")) n = true) names →
  is_valid_img_prefix fuel s3 bucket_name prefix brain_id
  = Ok (bool_decide (Forall (λ s, s ∈ names) levels)).
Proof.
  intros Htest Hid Hpages Hfuel Hzarr Hr Hdirs Hparent Hnames.
  rewrite is_valid_img_prefix_unfold by done.
  rewrite (exists_in_prefix_pages _ _ _ _ _ _ Hpages Hfuel).
  rewrite bool_decide_eq_true_2, bind_Ok by done. cbv beta iota.
  unfold list_prefixes. unfold prefix_request, with_slash in Hr.
  rewrite Hr. cbn [call]. rewrite bind_Ok, Hdirs, bind_Ok.
  unfold level_names. rewrite level_names_loop by done.
  by rewrite bind_Ok.
Qed.

Lemma foldl_max_init (d : Z) (ds : list Z) : d ≤ foldl Z.max d ds.
Proof.
  revert d. induction ds as [|y ds IH]; intros d; simpl; [lia|].
  specialize (IH (Z.max d y)). lia.
Qed.

Lemma foldl_max_bound (d : Z) (ds : list Z) (x : Z) :
  x ∈ d :: ds → x ≤ foldl Z.max d ds.
Proof.
  revert d. induction ds as [|y ds IH]; intros d; simpl.
  - intros ->%list_elem_of_singleton. lia.
  - intros [->|[->|Hx]%elem_of_cons]%elem_of_cons.
    + pose proof (foldl_max_init (Z.max d y) ds). lia.
    + pose proof (foldl_max_init (Z.max d y) ds). lia.
    + apply IH. by right.
Qed.

(** Once level 0 has been opened, [is_shape_plausible] is [True] exactly if
    one of the dimensions is above 25000; a largest dimension of 25000 is
    turned down. *)
Theorem is_shape_plausible_exact (zarr_open : string → reply (list Z))
  (prefix : string) (shape : list Z) :
  zarr_open (path_join prefix "0") = Returned shape →
  is_shape_plausible zarr_open prefix
  = Ok (bool_decide (Exists (λ d, 25000 < d) shape)).
Proof.
  intros Hopen. unfold is_shape_plausible. rewrite Hopen. cbn [call].
  rewrite bind_Ok. destruct shape as [|d ds].
  { rewrite bool_decide_eq_false_2; [reflexivity|]. by inversion 1. }
  cbn [np_max]. rewrite bind_Ok.
  destruct (25000 <? foldl Z.max d ds) eqn:Hmax; simpl.
  - apply Z.ltb_lt in Hmax. rewrite bool_decide_eq_true_2; [done|].
    apply Exists_exists. exists (foldl Z.max d ds).
    split; [apply foldl_max_elem|done].
  - apply Z.ltb_ge in Hmax. rewrite bool_decide_eq_false_2; [done|].
    intros (x & Hx & Hbig)%Exists_exists.
    apply foldl_max_bound in Hx. lia.
Qed.

End more_checks.

(** ** data_util: soma locations *)
Section soma.
Import s3_util data_util.
Context {coord : Type}.
Variable read_csv : string → reply (list (string * list pyval)).
Variable literal_eval : pyval → result coord.

Lemma find_most_recent_dirname_max (inputs : list (string * string)) :
  inputs ≠ [] →
  Forall (λ pd, is_parent pd.1 ∧ is_yyyymmdd pd.2 = true) inputs →
  ∃ date,
    find_most_recent_dirname (map (λ pd, results_prefix pd.1 pd.2) inputs)
    = Ok ("results_" +:+ date) ∧
    date ∈ inputs.*2 ∧
    ∀ d, d ∈ inputs.*2 → String.leb d date = true.
Proof.
  intros Hne Hall. unfold find_most_recent_dirname.
  rewrite dates_loop by done. rewrite bind_Ok. cbv beta.
  change ([] ++ inputs.*2) with (inputs.*2).
  destruct (sorted_last (inputs.*2)) as (init & date & -> & Hdate & Hmax).
  { by destruct inputs. }
  exists date. by rewrite py_index_last.
Qed.

Lemma list_prefixes_response (s3 : s3_client) (bucket_name prefix : string)
  (r : response) :
  s3 (prefix_request bucket_name (with_slash prefix) None) = Returned r →
  list_prefixes s3 bucket_name prefix = Ok (page_dirs r).
Proof.
  intros Hr. unfold list_prefixes, page_dirs.
  unfold prefix_request, with_slash in Hr. rewrite Hr. simpl.
  by destruct (CommonPrefixes r).
Qed.

(** When the listing of the runs of a brain shows no directory,
    [load_soma_locations] returns [None]; no table is read. *)
Theorem load_soma_locations_no_data (s3 : s3_client) (brain_id : string)
  (r : response) :
  s3 (soma_request brain_id) = Returned r →
  page_dirs r = [] →
  load_soma_locations read_csv literal_eval s3 brain_id = Ok None.
Proof.
  intros Hr Hdirs. unfold load_soma_locations.
  rewrite (list_prefixes_response _ _ _ r) by done.
  by rewrite Hdirs.
Qed.

Lemma points_loop (cells : list pyval) (points acc : list coord) :
  Forall2 (λ cell point, literal_eval cell = Ok point) cells points →
  for_each cells acc
    (λ points cell, point ← literal_eval cell; Ok (points ++ [point]))
  = Ok (acc ++ points).
Proof.
  intros Hall. revert acc.
  induction Hall as [|cell point cells points Hcell _ IH]; intros acc; simpl.
  - by rewrite app_nil_r.
  - rewrite Hcell, !bind_Ok, IH. by rewrite <- app_assoc.
Qed.

(** When the runs of a brain are listed as dated directories,
    [load_soma_locations] reads [somas-<brain>.csv] from the directory with
    the latest date and returns the coordinates of its [xyz] column, in
    order. *)
Theorem load_soma_locations_latest (s3 : s3_client) (brain_id : string)
  (r : response) (inputs : list (string * string)) :
  s3 (soma_request brain_id) = Returned r →
  CommonPrefixes r = Some (map (λ pd, results_prefix pd.1 pd.2) inputs) →
  inputs ≠ [] →
  Forall (λ pd, is_parent pd.1 ∧ is_yyyymmdd pd.2 = true) inputs →
  ∃ date,
    date ∈ inputs.*2 ∧
    (∀ d, d ∈ inputs.*2 → String.leb d date = true) ∧
    ∀ table cells points,
      read_csv (soma_csv_path brain_id date) = Returned table →
      dict_get table "xyz" = Some cells →
      Forall2 (λ cell point, literal_eval cell = Ok point) cells points →
      load_soma_locations read_csv literal_eval s3 brain_id = Ok (Some points).
Proof.
  intros Hr Hdirs Hne Hall.
  destruct (find_most_recent_dirname_max inputs Hne Hall)
    as (date & Hrecent & Hdate & Hmax).
  exists date. split; [done|]. split; [done|].
  intros table cells points Htable Hcells Hpoints.
  unfold load_soma_locations.
  rewrite (list_prefixes_response _ _ _ r) by done.
  unfold page_dirs. rewrite Hdirs. simpl default. rewrite bind_Ok.
  destruct inputs as [|pd inputs]; [done|].
  cbn [map] in *. rewrite Hrecent, bind_Ok.
  replace ("s3://" +:+ "aind-msma-morphology-data" +:+ "/"
           +:+ ("exaspim_soma_detection/" +:+ brain_id) +:+ "/"
           +:+ ("results_" +:+ date) +:+ "/somas-" +:+ brain_id +:+ ".csv")
    with (soma_csv_path brain_id date)
    by (unfold soma_csv_path; by rewrite !append_assoc).
  rewrite Htable. cbn [call]. rewrite bind_Ok.
  unfold dict_getitem. rewrite Hcells, bind_Ok.
  by rewrite (points_loop cells points []), bind_Ok.
Qed.

End soma.

(** ** data_util: the order of the listing does not matter *)
Section listing_order.
Import data_util.

(** The date [find_most_recent_dirname] takes from one prefix. *)
Lemma dates_loop_inv (l : list string) :
  ∀ acc r,
    for_each l acc
      (λ dates prefix,
         dirname ← py_index (split "/" prefix) (-2);
         Ok (dates ++ [replace "results_" "" dirname])) = Ok r →
    ∃ ds, r = acc ++ ds ∧
      Forall2 (λ prefix d, ∃ dirname,
                 py_index (split "/" prefix) (-2) = Ok dirname ∧
                 d = replace "results_" "" dirname) l ds.
Proof.
  induction l as [|p l IH]; intros acc r; simpl.
  - intros [= <-]. exists []. by rewrite app_nil_r.
  - intros Hrun. apply bind_Ok_inv in Hrun as (acc' & Hstep & Hrest).
    apply bind_Ok_inv in Hstep as (dirname & Hdir & [= <-]).
    apply IH in Hrest as (ds & -> & Hds).
    exists (replace "results_" "" dirname :: ds).
    rewrite <- app_assoc. split; [done|]. constructor; eauto.
Qed.

Lemma dates_loop_intro (l ds acc : list string) :
  Forall2 (λ prefix d, ∃ dirname,
             py_index (split "/" prefix) (-2) = Ok dirname ∧
             d = replace "results_" "" dirname) l ds →
  for_each l acc
    (λ dates prefix,
       dirname ← py_index (split "/" prefix) (-2);
       Ok (dates ++ [replace "results_" "" dirname])) = Ok (acc ++ ds).
Proof.
  intros Hall. revert acc.
  induction Hall as [|p d l ds (dirname & Hdir & ->) _ IH]; intros acc; simpl.
  - by rewrite app_nil_r.
  - rewrite Hdir, !bind_Ok, IH. by rewrite <- app_assoc.
Qed.

Lemma Forall2_perm_l {A B} (R : A → B → Prop) (l1 l2 : list A) (k1 : list B) :
  l1 ≡ₚ l2 → Forall2 R l1 k1 → ∃ k2, k1 ≡ₚ k2 ∧ Forall2 R l2 k2.
Proof.
  intros Hperm. revert k1.
  induction Hperm as [|x l1 l2 _ IH|x y l|l1 l2 l3 _ IH1 _ IH2]; intros k1 Hall.
  - inversion Hall; subst. by exists [].
  - inversion Hall as [|? b ? k ? Hk]; subst.
    destruct (IH k Hk) as (k2 & Hperm2 & Hall2).
    exists (b :: k2). split; [by constructor|by constructor].
  - inversion Hall as [|? b1 ? k ? Hk]; subst.
    inversion Hk as [|? b2 ? k' ? Hk']; subst.
    exists (b2 :: b1 :: k'). split; [apply Permutation_swap|].
    by repeat constructor.
  - destruct (IH1 k1 Hall) as (k2 & Hp12 & Hall2).
    destruct (IH2 k2 Hall2) as (k3 & Hp23 & Hall3).
    exists k3. split; [by etrans|done].
Qed.

Lemma sorted_last_perm (k1 k2 : list string) :
  k1 ≡ₚ k2 → py_index (sorted k1) (-1) = py_index (sorted k2) (-1).
Proof.
  intros Hperm. destruct k1 as [|x k1].
  { apply Permutation_nil_l in Hperm. by subst. }
  assert (k2 ≠ []) as Hk2.
  { intros ->. by apply Permutation_nil_r in Hperm. }
  destruct (sorted_last (x :: k1)) as (i1 & m1 & -> & Hm1 & Hb1); [done|].
  destruct (sorted_last k2) as (i2 & m2 & -> & Hm2 & Hb2); [done|].
  rewrite !py_index_last. f_equal. apply String.leb_antisym.
  - apply Hb2. by rewrite <- Hperm.
  - apply Hb1. by rewrite Hperm.
Qed.

(** [find_most_recent_dirname] returns the same directory name for the
    same prefixes listed in another order. *)
Theorem find_most_recent_dirname_any_order (l1 l2 : list string) (name : string) :
  l1 ≡ₚ l2 →
  find_most_recent_dirname l1 = Ok name →
  find_most_recent_dirname l2 = Ok name.
Proof.
  intros Hperm. unfold find_most_recent_dirname. intros Hrun.
  apply bind_Ok_inv in Hrun as (dates & Hdates & Hrest).
  apply dates_loop_inv in Hdates as (ds & -> & Hds).
  destruct (Forall2_perm_l _ _ _ _ Hperm Hds) as (ds' & Hperm' & Hds').
  rewrite (dates_loop_intro l2 ds' []) by done. rewrite bind_Ok.
  simpl app in *. by rewrite <- (sorted_last_perm ds ds').
Qed.

End listing_order.

(** ** smartsheet_util: lookups by name and by keyword *)
Section lookups.
Import smartsheet_util.

(** A loop that returns at the first element that passes a test. *)
Lemma for_return_first {A R} (p : A → bool) (f : A → R)
  (before after : list A) (x : A) :
  Forall (λ y, p y = false) before → p x = true →
  for_return (before ++ x :: after)
    (λ y, if p y then Ok (Some (f y)) else Ok None) = Ok (Some (f x)).
Proof.
  intros Hbefore Hx. induction Hbefore as [|y before Hy _ IH]; simpl.
  - by rewrite Hx.
  - by rewrite Hy.
Qed.

Lemma for_return_none {A R} (p : A → bool) (f : A → R) (xs : list A) :
  Forall (λ y, p y = false) xs →
  for_return xs (λ y, if p y then Ok (Some (f y)) else Ok None) = Ok None.
Proof.
  intros Hxs. induction Hxs as [|y xs Hy _ IH]; simpl; [done|]. by rewrite Hy.
Qed.

(** [find_sheet_id] returns the id of the first listed sheet with the name,
    and raises the labelled exception when no listed sheet has it. *)
Theorem find_sheet_id_first (list_sheets : reply (list SheetInfo))
  (sheet_name : string) (sheets : list SheetInfo) :
  list_sheets = Returned sheets →
  (∀ before this after,
     sheets = before ++ this :: after →
     Forall (λ s, name s ≠ sheet_name) before →
     name this = sheet_name →
     find_sheet_id list_sheets sheet_name = Ok (sheet_id this)) ∧
  (Forall (λ s, name s ≠ sheet_name) sheets →
     find_sheet_id list_sheets sheet_name
     = Raise (Exception ("Sheet Not Found - sheet_name=" +:+ sheet_name))).
Proof.
  intros ->. unfold find_sheet_id. cbn [call]. rewrite bind_Ok. split.
  - intros before this after -> Hbefore Hthis.
    rewrite (for_return_first (λ s, String.eqb (name s) sheet_name) sheet_id).
    + done.
    + eapply Forall_impl; [exact Hbefore|]. intros s. apply String.eqb_neq.
    + by apply String.eqb_eq.
  - intros Hnone.
    rewrite (for_return_none (λ s, String.eqb (name s) sheet_name) sheet_id).
    + done.
    + eapply Forall_impl; [exact Hnone|]. intros s. apply String.eqb_neq.
Qed.

(** [find_workspace_sheet_id] searches the workspaces in the order they
    are listed and returns the id of the first sheet with the name; the
    workspaces after the one that holds it are not fetched.  When every
    workspace is fetched and none holds the name, the labelled exception is
    raised. *)
Theorem find_workspace_sheet_id_first (list_workspaces : reply (list Z))
  (get_workspace : Z → reply (list SheetInfo)) (sheet_name : string)
  (workspaces : list Z) :
  list_workspaces = Returned workspaces →
  (∀ earlier ws later before this after,
     workspaces = earlier ++ ws :: later →
     Forall (λ w, ∃ sheets, get_workspace w = Returned sheets ∧
                    Forall (λ s, name s ≠ sheet_name) sheets) earlier →
     get_workspace ws = Returned (before ++ this :: after) →
     Forall (λ s, name s ≠ sheet_name) before →
     name this = sheet_name →
     find_workspace_sheet_id list_workspaces get_workspace sheet_name
     = Ok (sheet_id this)) ∧
  (Forall (λ w, ∃ sheets, get_workspace w = Returned sheets ∧
                  Forall (λ s, name s ≠ sheet_name) sheets) workspaces →
     find_workspace_sheet_id list_workspaces get_workspace sheet_name
     = Raise (Exception ("Sheet Not Found - sheet_name=" +:+ sheet_name))).
Proof.
  intros ->. unfold find_workspace_sheet_id. cbn [call]. rewrite bind_Ok.
  assert (∀ ws, Forall (λ w, ∃ sheets, get_workspace w = Returned sheets ∧
                          Forall (λ s, name s ≠ sheet_name) sheets) ws →
          ∀ rest,
            for_return (ws ++ rest)
              (λ w, workspace ← call (get_workspace w);
                    for_return workspace
                      (λ sheet, if String.eqb (name sheet) sheet_name
                                then Ok (Some (sheet_id sheet)) else Ok None))
            = for_return rest
              (λ w, workspace ← call (get_workspace w);
                    for_return workspace
                      (λ sheet, if String.eqb (name sheet) sheet_name
                                then Ok (Some (sheet_id sheet)) else Ok None)))
    as Hskip.
  { intros ws Hws rest.
    induction Hws as [|w ws (sheets & Hw & Hnone) _ IH]; [done|].
    cbn [app for_return]. rewrite Hw. cbn [call]. rewrite bind_Ok.
    rewrite (for_return_none (λ s, String.eqb (name s) sheet_name) sheet_id).
    - by rewrite bind_Ok.
    - eapply Forall_impl; [exact Hnone|]. intros s. apply String.eqb_neq. }
  split.
  - intros earlier ws later before this after -> Hearlier Hws Hbefore Hthis.
    rewrite (Hskip earlier Hearlier). cbn [for_return].
    rewrite Hws. cbn [call]. rewrite bind_Ok.
    rewrite (for_return_first (λ s, String.eqb (name s) sheet_name) sheet_id).
    + by rewrite !bind_Ok.
    + eapply Forall_impl; [exact Hbefore|]. intros s. apply String.eqb_neq.
    + by apply String.eqb_eq.
  - intros Hnone. rewrite <- (app_nil_r workspaces).
    by rewrite (Hskip workspaces Hnone).
Qed.

(** [find_row_id] returns the id of the first row, in sheet order, that has
    a cell whose display value is the keyword; raw values are not looked at.
    When no cell shows the keyword the labelled exception is raised. *)
Theorem find_row_id_first (self : SmartSheetClient) (keyword : string) :
  (∀ before row after,
     rows (sheet self) = before ++ row :: after →
     Forall (λ r, Forall (λ c, display_value c ≠ Some keyword) (cells r)) before →
     Exists (λ c, display_value c = Some keyword) (cells row) →
     find_row_id self keyword = Ok (row_id row)) ∧
  (Forall (λ r, Forall (λ c, display_value c ≠ Some keyword) (cells r))
     (rows (sheet self)) →
     find_row_id self keyword
     = Raise (Exception ("Row Not Found - keyword=" +:+ keyword))).
Proof.
  assert (∀ c, display_value c ≠ Some keyword → shows keyword c = false)
    as Hshows_no.
  { intros c Hc. unfold shows. destruct (display_value c) as [s|]; [|done].
    apply String.eqb_neq. congruence. }
  assert (∀ c, display_value c = Some keyword → shows keyword c = true)
    as Hshows_yes.
  { intros c Hc. unfold shows. rewrite Hc. apply String.eqb_refl. }
  assert (∀ rs, Forall (λ r, Forall (λ c, display_value c ≠ Some keyword) (cells r)) rs →
          ∀ rest,
            for_return (rs ++ rest)
              (λ row, for_return (cells row)
                 (λ cell, if shows keyword cell
                          then Ok (Some (row_id row)) else Ok None))
            = for_return rest
              (λ row, for_return (cells row)
                 (λ cell, if shows keyword cell
                          then Ok (Some (row_id row)) else Ok None)))
    as Hskip.
  { intros rs Hrs rest. induction Hrs as [|r rs Hr _ IH]; [done|].
    cbn [app for_return].
    rewrite (for_return_none (shows keyword) (λ _, row_id r)).
    - by rewrite bind_Ok.
    - eapply Forall_impl; [exact Hr|]. done. }
  unfold find_row_id. split.
  - intros before row after -> Hbefore Hrow.
    rewrite (Hskip before Hbefore). cbn [for_return].
    apply Exists_exists in Hrow as (c & Hc & Hshown).
    apply list_elem_of_split in Hc as (cs1 & cs2 & Hcells).
    assert (∃ pre hit post, cells row = pre ++ hit :: post ∧
              Forall (λ c, shows keyword c = false) pre ∧
              shows keyword hit = true) as (pre & hit & post & -> & Hpre & Hhit).
    { rewrite Hcells. clear Hcells.
      induction cs1 as [|c1 cs1 IH]; simpl.
      - exists [], c, cs2. auto.
      - destruct (shows keyword c1) eqn:Hc1.
        + exists [], c1, (cs1 ++ c :: cs2). auto.
        + destruct IH as (pre & hit & post & -> & Hpre & Hhit).
          exists (c1 :: pre), hit, post. auto. }
    rewrite (for_return_first (shows keyword) (λ _, row_id row)) by done.
    by rewrite !bind_Ok.
  - intros Hnone. rewrite <- (app_nil_r (rows (sheet self))).
    by rewrite (Hskip _ Hnone).
Qed.

End lookups.

(** ** smartsheet_util: sample names and column titles *)
Section samples_and_columns.
Import smartsheet_util.

Lemma split1_first (sep : ascii) (a b : string) :
  all_chars (λ c, negb (Ascii.eqb c sep)) a = true →
  split1 sep (a +:+ String sep b) = [a; b].
Proof.
  induction a as [|c a IH]; simpl.
  - by rewrite Ascii.eqb_refl.
  - intros [Hc Ha]%andb_true_iff. apply negb_true_iff in Hc.
    by rewrite Hc, IH.
Qed.

Lemma split1_without_sep (sep : ascii) (s : string) :
  all_chars (λ c, negb (Ascii.eqb c sep)) s = true → split1 sep s = [s].
Proof.
  induction s as [|c s IH]; simpl; [done|].
  intros [Hc Hs]%andb_true_iff. apply negb_true_iff in Hc.
  by rewrite Hc, IH.
Qed.

(** A sample name is cut at its first underscore: what precedes it is the
    brain id, the rest (underscores included) the segmentation id.  A name
    without an underscore raises [ValueError]. *)
Theorem split_sample_first_underscore (brain_id rest : string) :
  all_chars (λ c, negb (Ascii.eqb c "_")) brain_id = true →
  split_sample (PyStr (brain_id +:+ "_" +:+ rest)) = Ok (brain_id, rest) ∧
  split_sample (PyStr brain_id) = Raise ValueError.
Proof.
  intros Hid. unfold split_sample. split.
  - change ("_" +:+ rest) with (String "_" rest). by rewrite split1_first.
  - by rewrite split1_without_sep.
Qed.

Lemma dict_of_pairs_app {K V} `{EqDecision K} (xs ys : list (K * V)) :
  dict_of_pairs (xs ++ ys)
  = foldl (λ d kv, dict_set d kv.1 kv.2) (dict_of_pairs xs) ys.
Proof. unfold dict_of_pairs. by rewrite foldl_app. Qed.

Lemma dict_get_foldl_other {K V} `{EqDecision K} (ys d : list (K * V)) (k : K) :
  k ∉ ys.*1 →
  dict_get (foldl (λ d kv, dict_set d kv.1 kv.2) d ys) k = dict_get d k.
Proof.
  revert d. induction ys as [|[k' v'] ys IH]; intros d Hk; simpl; [done|].
  rewrite IH.
  - apply dict_get_set_ne. intros ->. apply Hk. by left.
  - intros Hin. apply Hk. by right.
Qed.

(** In a dict built from pairs, a key maps to the value of its last pair. *)
Lemma dict_of_pairs_last {K V} `{EqDecision K} (xs ys : list (K * V)) (k : K) (v : V) :
  k ∉ ys.*1 → dict_get (dict_of_pairs (xs ++ (k, v) :: ys)) k = Some v.
Proof.
  intros Hk. rewrite dict_of_pairs_app. simpl.
  rewrite dict_get_foldl_other by done. apply dict_get_set_eq.
Qed.

Lemma dict_get_none_keys {K V} `{EqDecision K} (d : list (K * V)) (k : K) :
  dict_get d k = None ↔ k ∉ d.*1.
Proof.
  induction d as [|[k' v'] d IH]; simpl.
  - split; [|done]. intros _ Hin. by apply elem_of_nil in Hin.
  - destruct (decide (k' = k)) as [->|Hne].
    + split; [done|]. intros Hk. exfalso. apply Hk. by left.
    + rewrite IH. split.
      * intros Hk [->|Hin]%elem_of_cons; [done|by apply Hk].
      * intros Hk Hin. apply Hk. by right.
Qed.

Lemma dict_of_pairs_keys {K V} `{EqDecision K} (pairs : list (K * V)) (k : K) :
  k ∈ (dict_of_pairs pairs).*1 ↔ k ∈ pairs.*1.
Proof.
  unfold dict_of_pairs.
  assert (∀ acc : list (K * V),
            k ∈ (foldl (λ d kv, dict_set d kv.1 kv.2) acc pairs).*1
            ↔ k ∈ acc.*1 ∨ k ∈ pairs.*1) as Hloop.
  { induction pairs as [|[k' v'] pairs IH]; intros acc; simpl.
    - split; [auto|]. intros [?|Hin]; [done|]. by apply elem_of_nil in Hin.
    - rewrite IH, dict_set_keys. simpl.
      destruct (bool_decide_reflect (k' ∈ acc.*1)) as [Hin|Hin].
      + rewrite elem_of_cons. split; [tauto|].
        intros [?|[->|?]]; auto.
      + rewrite elem_of_app, list_elem_of_singleton, elem_of_cons. tauto. }
  rewrite Hloop. split; [|auto]. intros [Hin|?]; [|done].
  by apply elem_of_nil in Hin.
Qed.

(** The column lookup built at construction maps a title to the id of the
    last column with that title, and has no entry for a title that no
    column bears. *)
Theorem init_column_name_to_id (fetched : Sheet) (column_name : string) :
  (∀ before column after,
     columns fetched = before ++ column :: after →
     title column = column_name →
     Forall (λ c, title c ≠ column_name) after →
     dict_get (column_name_to_id (init fetched)) column_name
     = Some (col_id column)) ∧
  (Forall (λ c, title c ≠ column_name) (columns fetched) →
     dict_get (column_name_to_id (init fetched)) column_name = None).
Proof.
  unfold init. cbn [column_name_to_id]. split.
  - intros before column after -> <- Hafter.
    rewrite map_app. cbn [map]. apply dict_of_pairs_last.
    rewrite <- list_fmap_compose.
    intros (c & Hc & Hin)%list_elem_of_fmap.
    rewrite Forall_forall in Hafter. by apply (Hafter c).
  - intros Hnone. apply dict_get_none_keys. rewrite dict_of_pairs_keys.
    intros (c & Hc & Hin)%list_elem_of_fmap.
    apply list_elem_of_In, in_map_iff in Hin as (col & <- & Hcol).
    rewrite Forall_forall in Hnone. apply (Hnone col); [|done].
    by apply list_elem_of_In.
Qed.

End samples_and_columns.

(** ** smartsheet_util: rows by the value of a column *)
Section rows_in_column.
Import smartsheet_util.

Lemma py_index_nat {A} (l : list A) (j : nat) (x : A) :
  l !! j = Some x → py_index l (Z.of_nat j) = Ok x.
Proof.
  intros Hx. pose proof (lookup_lt_Some _ _ _ Hx) as Hlt. unfold py_index.
  assert ((Z.of_nat j <? 0) = false) as Hneg by (apply Z.ltb_ge; lia).
  cbv zeta. rewrite Hneg. cbv iota. rewrite Hneg.
  rewrite (proj2 (Z.leb_gt _ _)) by lia. cbn [orb].
  by rewrite Nat2Z.id, Hx.
Qed.

Lemma py_index_nat_inv {A} (l : list A) (i : Z) (x : A) :
  0 ≤ i → py_index l i = Ok x → l !! Z.to_nat i = Some x.
Proof.
  intros Hi. unfold py_index.
  assert ((i <? 0) = false) as Hneg by (apply Z.ltb_ge; lia).
  cbv zeta. rewrite Hneg. cbv iota. rewrite Hneg.
  destruct (_ || _); [done|].
  by destruct (l !! Z.to_nat i); intros [= <-].
Qed.

Lemma matching_row_step_inv (col : Z) (row_value : string) (acc r : list Z)
  (idx : nat) (row : Row) :
  matching_row_step col row_value acc (idx, row) = Ok r →
  (row_matches col row_value row ∧ r = acc ++ [Z.of_nat idx]) ∨
  (¬ row_matches col row_value row ∧ r = acc).
Proof.
  unfold matching_row_step, row_matches.
  destruct (cell_of row col) as [cell| | |] eqn:Hcell; [|done..].
  rewrite bind_Ok.
  destruct (py_or (display cell) (value cell)) as [|b|z|s] eqn:Hval.
  1-3: intros [= <-]; right; split; [|done];
       intros (c & s & [= <-] & Hs & _); congruence.
  destruct (String.eqb_spec (lower s) (lower row_value)) as [Heq|Hne].
  - intros [= <-]. left. split; [|done]. by exists cell, s.
  - intros [= <-]. right. split; [|done].
    intros (c & s' & [= <-] & Hs & Hlow). congruence.
Qed.

Lemma matching_rows_loop (col : Z) (row_value : string) (rs : list Row) :
  ∀ (k : nat) (acc r : list Z),
    for_each (imap (λ idx row, (k + idx, row)%nat) rs) acc
      (matching_row_step col row_value) = Ok r →
    ∃ new, r = acc ++ new ∧
      StronglySorted Z.lt new ∧
      Forall (λ z, Z.of_nat k ≤ z) new ∧
      ∀ z, z ∈ new ↔ ∃ i row, rs !! i = Some row ∧ z = Z.of_nat (k + i) ∧
                              row_matches col row_value row.
Proof.
  induction rs as [|row rs IH]; intros k acc r.
  - simpl. intros [= <-]. exists []. rewrite app_nil_r.
    split; [done|]. split; [constructor|]. split; [constructor|].
    intros z. split; [by intros ?%elem_of_nil|].
    by intros (i & row & Hrow & _).
  - cbn [imap for_each]. intros Hrun.
    apply bind_Ok_inv in Hrun as (acc' & Hstep & Hrest).
    rewrite (imap_ext _ (λ idx row, (S k + idx, row)%nat)) in Hrest
      by (intros; simpl; f_equal; lia).
    apply IH in Hrest as (new & -> & Hsorted & Hlow & Hmem).
    rewrite Nat.add_0_r in Hstep.
    apply matching_row_step_inv in Hstep as [[Hrow ->]|[Hrow ->]].
    + exists (Z.of_nat k :: new). rewrite <- app_assoc. split; [done|].
      split.
      { constructor; [done|]. eapply Forall_impl; [exact Hlow|].
        intros z Hz. simpl in Hz. lia. }
      split.
      { constructor; [lia|]. eapply Forall_impl; [exact Hlow|].
        intros z Hz. simpl in Hz. lia. }
      intros z. rewrite elem_of_cons, Hmem. split.
      * intros [->|(i & row' & Hi & -> & Hm)].
        -- exists 0%nat, row. rewrite Nat.add_0_r. auto.
        -- exists (S i), row'. split; [done|]. split; [f_equal; lia|done].
      * intros ([|i] & row' & Hi & -> & Hm).
        -- left. f_equal. lia.
        -- right. exists i, row'. split; [done|]. split; [f_equal; lia|done].
    + exists new. split; [done|]. split; [done|]. split.
      { eapply Forall_impl; [exact Hlow|]. intros z Hz. simpl in Hz. lia. }
      intros z. rewrite Hmem. split.
      * intros (i & row' & Hi & -> & Hm).
        exists (S i), row'. split; [done|]. split; [f_equal; lia|done].
      * intros ([|i] & row' & Hi & -> & Hm).
        -- simpl in Hi. injection Hi as <-. done.
        -- exists i, row'. split; [done|]. split; [f_equal; lia|done].
Qed.

(** The indices [get_rows_in_column_with] returns are, in increasing order,
    exactly the rows at which [get_value] reads from the column a string
    equal to the value asked for up to the case of letters. *)
Theorem get_rows_in_column_with_spec (self : SmartSheetClient)
  (column_name row_value : string) (row_idxs : list Z) :
  get_rows_in_column_with self column_name row_value = Ok row_idxs →
  StronglySorted Z.lt row_idxs ∧
  ∀ i : Z,
    i ∈ row_idxs ↔
    0 ≤ i < Z.of_nat (length (rows (sheet self))) ∧
    ∃ s, get_value self i column_name = Ok (PyStr s) ∧
         lower s = lower row_value.
Proof.
  unfold get_rows_in_column_with, dict_getitem. intros Hrun.
  destruct (dict_get (column_name_to_id self) column_name) as [col|] eqn:Hcol;
    [|done].
  rewrite bind_Ok in Hrun.
  apply (matching_rows_loop col row_value _ 0%nat) in Hrun
    as (new & Hnew & Hsorted & _ & Hmem).
  simpl in Hnew. subst new. split; [done|].
  intros i. rewrite Hmem. split.
  - intros (j & row & Hrow & -> & cell & s & Hcell & Hval & Hlow).
    cbn [Nat.add]. pose proof (lookup_lt_Some _ _ _ Hrow). split; [lia|].
    exists s. split; [|done]. unfold get_value, dict_getitem.
    rewrite (py_index_nat _ _ _ Hrow), bind_Ok, Hcol, bind_Ok, Hcell, bind_Ok.
    by rewrite Hval.
  - intros ([Hi Hlt] & s & Hget & Hlow).
    unfold get_value, dict_getitem in Hget.
    apply bind_Ok_inv in Hget as (row & Hrow & Hget).
    rewrite Hcol, bind_Ok in Hget.
    apply bind_Ok_inv in Hget as (cell & Hcell & [= Hval]).
    apply py_index_nat_inv in Hrow; [|done].
    exists (Z.to_nat i), row. split; [done|]. split; [lia|].
    by exists cell, s.
Qed.

End rows_in_column.

(** ** smartsheet_util: the row hierarchy *)
Section hierarchy.
Import smartsheet_util.

(** The body of the loop of [get_children_map] over a row-id lookup. *)
Lemma children_step_inv (lookup : list (Z * Z)) (cm cm' : list (Z * list Z))
  (row : Row) :
  match has_parent row with
  | Some parent =>
      parent_idx ← dict_getitem lookup parent;
      child_idx ← dict_getitem lookup (row_id row);
      Ok (dict_set cm parent_idx
            (default [] (dict_get cm parent_idx) ++ [child_idx]))
  | None => Ok cm
  end = Ok cm' →
  ∀ pz cz,
    (∃ cs, dict_get cm' pz = Some cs ∧ cz ∈ cs) ↔
    (∃ cs, dict_get cm pz = Some cs ∧ cz ∈ cs) ∨
    (∃ pid, has_parent row = Some pid ∧ dict_get lookup pid = Some pz ∧
            dict_get lookup (row_id row) = Some cz).
Proof.
  destruct (has_parent row) as [pid|].
  2: { intros [= <-] pz cz. split; [auto|]. by intros [?|(? & ? & _)]. }
  unfold dict_getitem.
  destruct (dict_get lookup pid) as [pz0|] eqn:Hp; [|done]. rewrite bind_Ok.
  destruct (dict_get lookup (row_id row)) as [cz0|] eqn:Hc; [|done].
  rewrite bind_Ok. intros [= <-] pz cz.
  destruct (decide (pz0 = pz)) as [->|Hne].
  - rewrite dict_get_set_eq. split.
    + intros (cs & [= <-] & [Hin| ->%list_elem_of_singleton]%elem_of_app).
      * left. destruct (dict_get cm pz) as [old|]; [eauto|].
        by apply elem_of_nil in Hin.
      * right. by exists pid.
    + intros [(cs & Hcs & Hin)|(pid' & [= <-] & _ & [= <-])]; eexists;
        (split; [done|]); apply elem_of_app.
      * left. by rewrite Hcs.
      * right. by left.
  - rewrite dict_get_set_ne by done. split; [auto|].
    intros [?|(pid' & [= <-] & ? & _)]; [done|congruence].
Qed.

Lemma children_loop (lookup : list (Z * Z)) (todo : list Row) :
  ∀ cm m,
    for_each todo cm
      (λ children_map row,
         match has_parent row with
         | Some parent =>
             parent_idx ← dict_getitem lookup parent;
             child_idx ← dict_getitem lookup (row_id row);
             Ok (dict_set children_map parent_idx
                   (default [] (dict_get children_map parent_idx) ++ [child_idx]))
         | None => Ok children_map
         end) = Ok m →
    ∀ pz cz,
      (∃ cs, dict_get m pz = Some cs ∧ cz ∈ cs) ↔
      (∃ cs, dict_get cm pz = Some cs ∧ cz ∈ cs) ∨
      (∃ crow pid, crow ∈ todo ∧ has_parent crow = Some pid ∧
                   dict_get lookup pid = Some pz ∧
                   dict_get lookup (row_id crow) = Some cz).
Proof.
  induction todo as [|row todo IH]; intros cm m.
  - simpl. intros [= <-] pz cz. split; [auto|].
    intros [?|(crow & pid & Hin & _)]; [done|]. by apply elem_of_nil in Hin.
  - cbn [for_each]. intros Hrun.
    apply bind_Ok_inv in Hrun as (cm' & Hstep & Hrest).
    intros pz cz. rewrite (IH _ _ Hrest pz cz).
    rewrite (children_step_inv _ _ _ _ Hstep pz cz). split.
    + intros [[?|(pid & ? & ? & ?)]|(crow & pid & Hin & ?)]; [by left|..].
      * right. exists row, pid. split; [by left|done].
      * right. exists crow, pid. split; [by right|done].
    + intros [?|(crow & pid & [->|Hin]%elem_of_cons & H1 & H2 & H3)].
      * by left; left.
      * left. right. by exists pid.
      * right. by exists crow, pid.
Qed.

Lemma row_ids_of_pairs (rs : list Row) (f : nat → nat) :
  (imap (λ idx row, (row_id row, Z.of_nat (f idx))) rs).*1 = row_id <$> rs.
Proof.
  revert f. induction rs as [|row rs IH]; intros f; [done|].
  cbn [imap]. rewrite !fmap_cons. f_equal. apply (IH (f ∘ S)).
Qed.

Lemma dict_get_elem_of {K V} `{EqDecision K} (d : list (K * V)) (k : K) (v : V) :
  NoDup d.*1 → dict_get d k = Some v ↔ (k, v) ∈ d.
Proof.
  induction d as [|[k' v'] d IH]; intros Hd.
  - split; [done|]. by intros ?%elem_of_nil.
  - rewrite fmap_cons in Hd. apply NoDup_cons in Hd as [Hk' Hd]. cbn [dict_get].
    destruct (decide (k' = k)) as [->|Hne].
    + split.
      * intros [= <-]. by left.
      * intros [[= <-]|Hin]%elem_of_cons; [done|].
        exfalso. apply Hk'. apply list_elem_of_fmap. by exists (k, v).
    + rewrite IH by done. split; [by right|].
      intros [[= ? ?]|?]%elem_of_cons; [congruence|done].
Qed.

(** With distinct row ids, the lookup from row id to row index knows each
    row by its position. *)
Lemma idx_lookup_spec (rs : list Row) (id z : Z) :
  NoDup (row_id <$> rs) →
  dict_get (dict_of_pairs (imap (λ idx row, (row_id row, Z.of_nat idx)) rs)) id
  = Some z ↔
  ∃ i row, rs !! i = Some row ∧ row_id row = id ∧ z = Z.of_nat i.
Proof.
  intros Hids.
  assert (NoDup (imap (λ idx row, (row_id row, Z.of_nat idx)) rs).*1) as Hkeys
    by (by rewrite (row_ids_of_pairs rs (λ i, i))).
  rewrite dict_of_pairs_nodup, dict_get_elem_of by done.
  rewrite elem_of_lookup_imap. split.
  - intros (i & row & [= -> ->] & Hrow). eauto.
  - intros (i & row & Hrow & <- & ->). eauto.
Qed.

(** With distinct row ids, [get_children_map] lists index [c] under index
    [p] exactly if row [c] names row [p] as its parent. *)
Theorem get_children_map_spec (self : SmartSheetClient)
  (children_map : list (Z * list Z)) :
  NoDup (row_id <$> rows (sheet self)) →
  get_children_map self = Ok children_map →
  ∀ pz cz : Z,
    (∃ child_idxs, dict_get children_map pz = Some child_idxs ∧ cz ∈ child_idxs)
    ↔
    ∃ (p c : nat) (parent child : Row),
      pz = Z.of_nat p ∧ cz = Z.of_nat c ∧
      rows (sheet self) !! p = Some parent ∧
      rows (sheet self) !! c = Some child ∧
      has_parent child = Some (row_id parent).
Proof.
  intros Hids Hrun pz cz. unfold get_children_map in Hrun.
  rewrite (children_loop _ _ _ _ Hrun pz cz). split.
  - intros [(cs & [=] & _)|(crow & pid & Hin & Hparent & Hp & Hc)].
    apply idx_lookup_spec in Hp as (p & prow & Hprow & <- & ->); [|done].
    apply idx_lookup_spec in Hc as (c & crow' & Hcrow' & Hid & ->); [|done].
    apply list_elem_of_lookup in Hin as (c' & Hcrow).
    assert (c = c') as ->.
    { eapply NoDup_lookup; [exact Hids|..]; rewrite list_lookup_fmap.
      - by rewrite Hcrow'.
      - rewrite Hcrow. simpl. by rewrite Hid. }
    exists p, c', prow, crow. auto.
  - intros (p & c & prow & crow & -> & -> & Hprow & Hcrow & Hparent).
    right. exists crow, (row_id prow).
    split; [by eapply list_elem_of_lookup_2|]. split; [done|].
    split; apply idx_lookup_spec; eauto.
Qed.

Lemma for_each_raises {A S} (e : exn) (body : S → A → result S)
  (xs : list A) (x0 : A) :
  (∀ s x, body s x = Raise e ∨ ∃ s', body s x = Ok s') →
  x0 ∈ xs → (∀ s, body s x0 = Raise e) →
  ∀ s0, for_each xs s0 body = Raise e.
Proof.
  intros Hbody Hin Hx0. induction xs as [|x xs IH]; intros s0.
  - by apply elem_of_nil in Hin.
  - cbn [for_each]. apply elem_of_cons in Hin as [<-|Hin].
    + by rewrite Hx0.
    + destruct (Hbody s0 x) as [->|[s' ->]]; [done|].
      rewrite bind_Ok. by apply IH.
Qed.

(** A row whose parent id is the id of no row of the sheet makes
    [get_children_map] raise [KeyError]. *)
Theorem get_children_map_dangling_parent (self : SmartSheetClient)
  (row : Row) (parent : Z) :
  row ∈ rows (sheet self) →
  has_parent row = Some parent →
  parent ∉ row_id <$> rows (sheet self) →
  get_children_map self = Raise KeyError.
Proof.
  intros Hrow Hparent Hmissing. unfold get_children_map.
  apply (for_each_raises KeyError _ _ row); [|done|].
  - intros cm r. destruct (has_parent r); [|eauto]. unfold dict_getitem.
    destruct (dict_get _ z); [|by left]. rewrite bind_Ok.
    destruct (dict_get _ (row_id r)); [|by left]. rewrite bind_Ok. eauto.
  - intros cm. rewrite Hparent. unfold dict_getitem.
    assert (dict_get
              (dict_of_pairs
                 (imap (λ idx row, (row_id row, Z.of_nat idx)) (rows (sheet self))))
              parent = None) as ->; [|done].
    apply dict_get_none_keys. rewrite dict_of_pairs_keys.
    by rewrite (row_ids_of_pairs _ (λ i, i)).
Qed.

End hierarchy.

(** ** smartsheet_util: the merge sites of the whole sheet *)
Section merge_totals.
Import smartsheet_util.
Context {DataFrame coord : Type}.
Variable literal_eval : pyval → result coord.
Variable DataFrame_of_columns :
  list string → list string → @Sites coord → result DataFrame.
Variable concat : list DataFrame → result DataFrame.

(** What one parent adds to the totals, printed or not. *)
Lemma extract_parent_totals (client : SmartSheetClient) (verbose : bool)
  (totals totals' : Totals) (parent_idx : Z) (child_idxs : list Z) :
  extract_parent literal_eval DataFrame_of_columns client verbose totals
    (parent_idx, child_idxs) = Ok totals' →
  let c := length (List.filter (confirmed client) child_idxs) in
  let r := length (List.filter (reviewed client) child_idxs) in
  n_merge_sites totals' = n_merge_sites totals + Z.of_nat c ∧
  n_reviewed_sites totals'
  = n_reviewed_sites totals + (if (0 <? c)%nat then Z.of_nat r else 0) ∧
  (c = 0%nat → totals' = totals).
Proof.
  unfold extract_parent. intros Hrun.
  apply bind_Ok_inv in Hrun as (sample & _ & Hrun).
  apply bind_Ok_inv in Hrun as ([brain_id seg_id] & _ & Hrun).
  apply bind_Ok_inv in Hrun as ([sites n] & Hsites & Hrun).
  apply find_confirmed_merge_sites_inv in Hsites
    as (Hn & (records & Hrecords & _ & _ & Hxyz) & _).
  assert (length (xyz sites) = length (List.filter (confirmed client) child_idxs))
    as Hcount.
  { rewrite Hxyz, length_map. symmetry. by eapply Forall2_length. }
  rewrite Hcount in *. cbv zeta.
  destruct (0 <? _)%nat eqn:Hpos.
  - apply Nat.ltb_lt in Hpos.
    apply bind_Ok_inv in Hrun as (df & _ & Hrun).
    apply bind_Ok_inv in Hrun as (rate & _ & Hrun).
    injection Hrun as <-. simpl. rewrite Hn. repeat split; lia.
  - apply Nat.ltb_ge in Hpos. injection Hrun as <-. repeat split; lia || done.
Qed.

Lemma extract_loop_totals (client : SmartSheetClient) (verbose : bool)
  (children_map : list (Z * list Z)) :
  ∀ totals totals',
    for_each children_map totals
      (extract_parent literal_eval DataFrame_of_columns client verbose)
    = Ok totals' →
    n_merge_sites totals'
    = n_merge_sites totals + confirmed_total client children_map ∧
    n_reviewed_sites totals'
    = n_reviewed_sites totals + reviewed_total client children_map ∧
    0 ≤ confirmed_total client children_map ≤ reviewed_total client children_map ∧
    (confirmed_total client children_map = 0 → totals' = totals).
Proof.
  induction children_map as [|[parent_idx child_idxs] cm IH];
    intros totals totals'.
  - simpl. intros [= <-]. repeat split; lia || done.
  - cbn [for_each]. intros Hrun.
    apply bind_Ok_inv in Hrun as (mid & Hstep & Hrest).
    apply extract_parent_totals in Hstep as (Hm & Hr & Hsame).
    apply IH in Hrest as (Hm' & Hr' & Hle & Hsame').
    pose proof (confirmed_le_reviewed client child_idxs) as Hcr.
    cbn [confirmed_total reviewed_total foldr snd].
    fold (confirmed_total client cm). fold (reviewed_total client cm).
    cbv zeta in Hm, Hr, Hsame.
    destruct (0 <? _)%nat eqn:Hpos.
    + apply Nat.ltb_lt in Hpos. repeat split; lia.
    + apply Nat.ltb_ge in Hpos. repeat split; try lia.
      intros Hzero. rewrite Hsame' by lia. apply Hsame. lia.
Qed.

(** The quiet loop goes through whenever the verbose one does, and differs
    from it in the lines printed only. *)
Lemma extract_loop_quiet (client : SmartSheetClient)
  (children_map : list (Z * list Z)) :
  ∀ totals totals' quiet,
    for_each children_map totals
      (extract_parent literal_eval DataFrame_of_columns client true)
    = Ok totals' →
    merge_site_dfs quiet = merge_site_dfs totals →
    n_merge_sites quiet = n_merge_sites totals →
    n_reviewed_sites quiet = n_reviewed_sites totals →
    ∃ quiet',
      for_each children_map quiet
        (extract_parent literal_eval DataFrame_of_columns client false)
      = Ok quiet' ∧
      merge_site_dfs quiet' = merge_site_dfs totals' ∧
      stdout quiet' = stdout quiet.
Proof.
  induction children_map as [|[parent_idx child_idxs] cm IH];
    intros totals totals' quiet.
  - simpl. intros [= <-] Hdfs _ _. by exists quiet.
  - cbn [for_each]. intros Hrun Hdfs Hm Hr.
    apply bind_Ok_inv in Hrun as (mid & Hstep & Hrest).
    unfold extract_parent in Hstep |- *.
    destruct (get_value client parent_idx "Sample") as [sample| | |]; [|done..].
    rewrite bind_Ok in Hstep |- *.
    destruct (split_sample sample) as [[brain_id seg_id]| | |]; [|done..].
    rewrite bind_Ok in Hstep |- *.
    destruct (find_confirmed_merge_sites _ _ _) as [[sites n]| | |]; [|done..].
    rewrite bind_Ok in Hstep |- *. cbv zeta in Hstep |- *.
    destruct (0 <? _)%nat.
    + destruct (DataFrame_of_columns _ _ _) as [df| | |]; [|done..].
      rewrite bind_Ok in Hstep |- *.
      destruct (true_div _ _) as [rate| | |]; [|done..].
      rewrite bind_Ok in Hstep |- *. injection Hstep as <-. rewrite bind_Ok.
      eapply IH in Hrest as (quiet' & -> & Hdfs' & Hout'); [|simpl..].
      * exists quiet'. split; [done|]. split; [exact Hdfs'|]. by rewrite Hout'.
      * by rewrite Hdfs.
      * by rewrite Hm.
      * by rewrite Hr.
    + injection Hstep as <-. rewrite bind_Ok. by eapply IH.
Qed.

(** A talkative run of [extract_merge_sites] that returns has found a
    confirmed site.  Its last two lines give the number of confirmed
    children of all parents, and the ratio of that number to the number of
    reviewed children of the parents that have a confirmed child. *)
Theorem extract_merge_sites_overall_rate (client : SmartSheetClient)
  (children_map : list (Z * list Z)) (df : DataFrame) (out : list printed) :
  get_children_map client = Ok children_map →
  extract_merge_sites literal_eval DataFrame_of_columns concat client true
  = Ok (df, out) →
  0 < confirmed_total client children_map ≤ reviewed_total client children_map ∧
  ∃ lines,
    out = lines
          ++ [OverallSuccessRate
                (QArith_base.Qdiv
                   (QArith_base.inject_Z (confirmed_total client children_map))
                   (QArith_base.inject_Z (reviewed_total client children_map)));
              ConfirmedMergeSites (confirmed_total client children_map)].
Proof.
  unfold extract_merge_sites. intros -> Hrun. rewrite bind_Ok in Hrun.
  apply bind_Ok_inv in Hrun as (totals & Hloop & Hrun).
  apply extract_loop_totals in Hloop as (Hm & Hr & Hle & Hsame).
  simpl in Hm, Hr.
  apply bind_Ok_inv in Hrun as (out' & Hout & Hrun).
  apply bind_Ok_inv in Hrun as (df' & _ & [= _ ->]).
  unfold true_div in Hout. rewrite Hm, Hr in Hout.
  destruct (_ =? 0) eqn:Hzero; [done|]. apply Z.eqb_neq in Hzero.
  rewrite bind_Ok in Hout. injection Hout as <-.
  split; [|by exists (stdout totals)].
  destruct (decide (confirmed_total client children_map = 0)) as [Hnone|]; [|lia].
  rewrite (Hsame Hnone) in Hr. simpl in Hr. lia.
Qed.

(** A quiet run returns the frame of the talkative run and prints nothing. *)
Theorem extract_merge_sites_quiet (client : SmartSheetClient)
  (df : DataFrame) (out : list printed) :
  extract_merge_sites literal_eval DataFrame_of_columns concat client true
  = Ok (df, out) →
  extract_merge_sites literal_eval DataFrame_of_columns concat client false
  = Ok (df, []).
Proof.
  unfold extract_merge_sites. intros Hrun.
  destruct (get_children_map client) as [children_map| | |]; [|done..].
  rewrite bind_Ok in Hrun |- *.
  apply bind_Ok_inv in Hrun as (totals & Hloop & Hrun).
  eapply extract_loop_quiet in Hloop as (quiet & -> & Hdfs & Hout); [|done..].
  rewrite bind_Ok.
  apply bind_Ok_inv in Hrun as (out' & _ & Hrun).
  apply bind_Ok_inv in Hrun as (df' & Hconcat & [= -> _]).
  rewrite bind_Ok, Hdfs, Hconcat, bind_Ok. by rewrite Hout.
Qed.




End merge_totals.

(** ** The further properties on the sample data *)
Section on_samples.
Import io_util s3_util data_util smartsheet_util.


(** 653158 is answered from the sample cache file with no service at all. *)
Lemma get_img_prefix_cache_hit_witness :
  get_img_prefix 0 (λ _, Failed ClientError) (λ _, Failed OSError)
    samples.cache_files "653158" (Some "prefix_lookup.json")
  = Ok (samples.cache_files,
        "s3://aind-open-data/exaSPIM_653158_2023/fused.zarr/").
Proof.
  apply (get_img_prefix_cache_hit samples.cache_files "653158"
           "prefix_lookup.json"
           "s3://aind-open-data/exaSPIM_653158_2023/fused.zarr/"
           [("653158", "s3://aind-open-data/exaSPIM_653158_2023/fused.zarr/")]);
    [discriminate|vm_compute; reflexivity|reflexivity].
Defined.

(** Without the cache file, and with a cache file that is empty, the search
    on the sample bucket is not tried. *)
Lemma get_img_prefix_unreadable_cache_witness :
  get_img_prefix 3 samples.snapshot samples.zarr_volumes ∅ "653158"
    (Some "prefix_lookup.json")
  = Raise OSError ∧
  get_img_prefix 3 samples.snapshot samples.zarr_volumes
    {[ "prefix_lookup.json" := "" ]} "653158" (Some "prefix_lookup.json")
  = Raise ValueError.
Proof.
  split.
  - apply (get_img_prefix_unreadable_cache ∅ "653158" "prefix_lookup.json" OSError);
      [discriminate|reflexivity].
  - apply (get_img_prefix_unreadable_cache {[ "prefix_lookup.json" := "" ]}
             "653158" "prefix_lookup.json" ValueError);
      [discriminate|reflexivity].
Defined.

(** Once 653158 has been searched for on the sample bucket, it is answered
    with no service at all. *)
Lemma get_img_prefix_cached_afterwards_witness :
  get_img_prefix 0 (λ _, Failed ClientError) (λ _, Failed OSError)
    (cache_written {[ "prefix_lookup.json" := "{}" ]}
       (Some ("prefix_lookup.json", [])) "653158"
       "s3://aind-open-data/exaSPIM_653158_2023/fused.zarr/")
    "653158" (Some "prefix_lookup.json")
  = Ok (cache_written {[ "prefix_lookup.json" := "{}" ]}
          (Some ("prefix_lookup.json", [])) "653158"
          "s3://aind-open-data/exaSPIM_653158_2023/fused.zarr/",
        "s3://aind-open-data/exaSPIM_653158_2023/fused.zarr/").
Proof.
  apply (get_img_prefix_cached_afterwards 3 samples.snapshot
           samples.zarr_volumes {[ "prefix_lookup.json" := "{}" ]});
    [discriminate|vm_compute; reflexivity].
Defined.

(** Searching for 609281 leaves the cached prefix of 653158 in place. *)
Lemma get_img_prefix_keeps_entries_witness :
  get_img_prefix 0 (λ _, Failed ClientError) (λ _, Failed OSError)
    (cache_written samples.cache_files
       (Some ("prefix_lookup.json",
              [("653158", "s3://aind-open-data/exaSPIM_653158_2023/fused.zarr/")]))
       "609281" "s3://aind-open-data/exaSPIM_609281_2022/fusion/fused.zarr/")
    "653158" (Some "prefix_lookup.json")
  = Ok (cache_written samples.cache_files
          (Some ("prefix_lookup.json",
                 [("653158", "s3://aind-open-data/exaSPIM_653158_2023/fused.zarr/")]))
          "609281" "s3://aind-open-data/exaSPIM_609281_2022/fusion/fused.zarr/",
        "s3://aind-open-data/exaSPIM_653158_2023/fused.zarr/").
Proof.
  apply (get_img_prefix_keeps_entries 3 samples.snapshot samples.zarr_volumes
           samples.cache_files _ "609281" "prefix_lookup.json"
           "s3://aind-open-data/exaSPIM_609281_2022/fusion/fused.zarr/"
           "653158" _
           [("653158", "s3://aind-open-data/exaSPIM_653158_2023/fused.zarr/")]);
    [discriminate|vm_compute; reflexivity|reflexivity|vm_compute; reflexivity].
Defined.

(** Both pages of the sample bucket are listed. *)
Lemma list_bucket_prefixes_collects_witness :
  list_bucket_prefixes 2 samples.snapshot "aind-open-data" (Some "exaspim")
  = Ok ["exaSPIM_609281_2022/"; "exaSPIM_653158_2023/";
        "exaSPIM_653980_2023/"; "exaSPIM_653980_2024/"].
Proof.
  apply (list_bucket_prefixes_collects samples.snapshot "aind-open-data"
           (Some "exaspim") [samples.top_page_1; samples.top_page_2] 2).
  - apply (pages_more _ _ None samples.top_page_1 "page-2");
      [reflexivity|reflexivity|reflexivity|discriminate|].
    apply pages_last; reflexivity.
  - simpl. lia.
Defined.

(** Asked for as they are written, the exaSPIM datasets are not listed. *)
Lemma list_bucket_prefixes_capital_keyword_witness :
  list_bucket_prefixes 2 samples.snapshot "aind-open-data" (Some "exaSPIM")
  = Ok [].
Proof.
  apply (list_bucket_prefixes_capital_keyword samples.snapshot "aind-open-data"
           "exa" "PIM" "S" [samples.top_page_1; samples.top_page_2] 2).
  - reflexivity.
  - apply (pages_more _ _ None samples.top_page_1 "page-2");
      [reflexivity|reflexivity|reflexivity|discriminate|].
    apply pages_last; reflexivity.
  - simpl. lia.
Defined.

(** The metadata file of 653158 is found under its dataset. *)
Lemma exists_in_prefix_finds_witness :
  exists_in_prefix 1 samples.snapshot "aind-open-data" "exaSPIM_653158_2023/"
    "metadata.json"
  = Ok true.
Proof.
  apply (exists_in_prefix_finds samples.snapshot "aind-open-data"
           "exaSPIM_653158_2023/" "metadata.json"
           [ {| Contents := Some ["exaSPIM_653158_2023/metadata.json"];
                CommonPrefixes := Some ["exaSPIM_653158_2023/fused.zarr/"];
                IsTruncated := false; NextContinuationToken := None |} ] 1).
  - apply pages_last; reflexivity.
  - simpl. lia.
Defined.

(** The levels of 653158 are listed with and without the slash. *)
Lemma list_prefixes_trailing_slash_witness :
  list_prefixes samples.snapshot "aind-open-data" "exaSPIM_653158_2023/fused.zarr"
  = list_prefixes samples.snapshot "aind-open-data"
      "exaSPIM_653158_2023/fused.zarr/".
Proof.
  apply (list_prefixes_trailing_slash samples.snapshot "aind-open-data"
           "exaSPIM_653158_2023/fused.zarr").
  reflexivity.
Defined.

(** The first of the two candidates of 653980. *)
Lemma find_img_prefix_candidates_witness :
  contains "653980" "s3://aind-open-data/exaSPIM_653980_2023/fused.zarr" = true ∧
  (∃ root, "s3://aind-open-data/exaSPIM_653980_2023/fused.zarr"
           = root +:+ "fused.zarr") ∧
  is_shape_plausible samples.zarr_volumes
    "s3://aind-open-data/exaSPIM_653980_2023/fused.zarr" = Ok true.
Proof.
  apply (find_img_prefix_candidates 3 samples.snapshot samples.zarr_volumes
           "653980"
           ["s3://aind-open-data/exaSPIM_653980_2023/fused.zarr";
            "s3://aind-open-data/exaSPIM_653980_2024/fused.zarr"]).
  - vm_compute; reflexivity.
  - apply list_elem_of_here.
Defined.

(** The volume of 609281 has no level 7 and is turned down. *)
Lemma is_valid_img_prefix_checks_levels_witness :
  is_valid_img_prefix 1 samples.snapshot "aind-open-data"
    "exaSPIM_609281_2022/fusion/" (IdInt 609281)
  = Ok false.
Proof.
  apply (is_valid_img_prefix_checks_levels 1 samples.snapshot "aind-open-data"
           "exaSPIM_609281_2022/fusion/" (IdInt 609281)
           [samples.listing ["exaSPIM_609281_2022/fusion/fused.zarr/"]]
           (samples.listing
              (samples.level_dirs "exaSPIM_609281_2022/fusion/fused.zarr/"
                 ["0"; "1"; "2"; "3"; "4"; "5"; "6"]))
           "exaSPIM_609281_2022/fusion/fused.zarr/"
           ["0"; "1"; "2"; "3"; "4"; "5"; "6"]).
  - reflexivity.
  - reflexivity.
  - apply pages_last; reflexivity.
  - simpl. lia.
  - apply list_elem_of_here.
  - reflexivity.
  - reflexivity.
  - right. by exists "exaSPIM_609281_2022/fusion/fused.zarr".
  - repeat constructor.
Defined.

(** Level 0 of the volume of 653158 is wider than 25000 in one dimension. *)
Lemma is_shape_plausible_exact_witness :
  is_shape_plausible samples.zarr_volumes
    "s3://aind-open-data/exaSPIM_653158_2023/fused.zarr"
  = Ok true.
Proof.
  apply (is_shape_plausible_exact samples.zarr_volumes
           "s3://aind-open-data/exaSPIM_653158_2023/fused.zarr"
           [1; 1; 12000; 30000; 21000]).
  reflexivity.
Defined.

(** No soma detection run is stored for 000000. *)
Lemma load_soma_locations_no_data_witness :
  load_soma_locations samples.read_csv samples.literal_eval samples.snapshot
    "000000"
  = Ok None.
Proof.
  apply (load_soma_locations_no_data samples.read_csv samples.literal_eval
           samples.snapshot "000000" samples.empty_listing);
    reflexivity.
Defined.

(** The run of 653158 on the first page of the listing is read. *)
Lemma load_soma_locations_latest_witness :
  load_soma_locations samples.read_csv samples.literal_eval samples.snapshot
    "653158"
  = Ok (Some [(1, 2, 3); (4, 5, 6)]).
Proof.
  destruct (load_soma_locations_latest samples.read_csv samples.literal_eval
              samples.snapshot "653158" samples.soma_page_1
              [("exaspim_soma_detection/653158/", "20230101")])
    as (date & Hdate & _ & Hload).
  - reflexivity.
  - reflexivity.
  - discriminate.
  - constructor; [|constructor]. split; [|reflexivity].
    right. by exists "exaspim_soma_detection/653158".
  - apply list_elem_of_singleton in Hdate as ->.
    apply (Hload [("xyz", [PyStr "(1, 2, 3)"; PyStr "(4, 5, 6)"])]
             [PyStr "(1, 2, 3)"; PyStr "(4, 5, 6)"]);
      [reflexivity|reflexivity|repeat constructor].
Defined.

(** The two runs of 653158, listed either way round. *)
Lemma find_most_recent_dirname_any_order_witness :
  find_most_recent_dirname
    ["exaspim_soma_detection/653158/results_20240615/";
     "exaspim_soma_detection/653158/results_20230101/"]
  = Ok "results_20240615".
Proof.
  apply (find_most_recent_dirname_any_order
           ["exaspim_soma_detection/653158/results_20230101/";
            "exaspim_soma_detection/653158/results_20240615/"]).
  - apply perm_swap.
  - vm_compute; reflexivity.
Defined.

(** Of the two sheets of the same name the first is taken; a name no sheet
    bears is reported. *)
Lemma find_sheet_id_first_witness :
  find_sheet_id (Returned samples.sheet_list) "ExaSPIM Merge Locations" = Ok 12 ∧
  find_sheet_id (Returned samples.sheet_list) "Somas"
  = Raise (Exception "Sheet Not Found - sheet_name=Somas").
Proof.
  split.
  - refine (proj1 (find_sheet_id_first (Returned samples.sheet_list)
                     "ExaSPIM Merge Locations" samples.sheet_list eq_refl)
              [ {| name := "Neuron Reconstructions"; sheet_id := 11 |} ]
              {| name := "ExaSPIM Merge Locations"; sheet_id := 12 |}
              [ {| name := "ExaSPIM Merge Locations"; sheet_id := 13 |} ]
              eq_refl _ eq_refl).
    repeat constructor. discriminate.
  - refine (proj2 (find_sheet_id_first (Returned samples.sheet_list)
                     "Somas" samples.sheet_list eq_refl) _).
    repeat constructor; discriminate.
Defined.

(** The sheet is found in the second workspace. *)
Lemma find_workspace_sheet_id_first_witness :
  find_workspace_sheet_id (Returned [1; 2]) samples.workspace_sheets
    "ExaSPIM Merge Locations" = Ok 22 ∧
  find_workspace_sheet_id (Returned [1; 2]) samples.workspace_sheets "Somas"
  = Raise (Exception "Sheet Not Found - sheet_name=Somas").
Proof.
  split.
  - refine (proj1 (find_workspace_sheet_id_first (Returned [1; 2])
                     samples.workspace_sheets "ExaSPIM Merge Locations" [1; 2]
                     eq_refl)
              [1] 2 [] []
              {| name := "ExaSPIM Merge Locations"; sheet_id := 22 |} []
              eq_refl _ eq_refl _ eq_refl).
    + constructor; [|constructor]. eexists. split; [reflexivity|].
      repeat constructor. discriminate.
    + constructor.
  - refine (proj2 (find_workspace_sheet_id_first (Returned [1; 2])
                     samples.workspace_sheets "Somas" [1; 2] eq_refl) _).
    constructor; [|constructor; [|constructor]];
      (eexists; split; [reflexivity|]; repeat constructor; discriminate).
Defined.

(** The review row that shows N002, and a keyword no row shows. *)
Lemma find_row_id_first_witness :
  find_row_id samples.merge_client "N002" = Ok 102 ∧
  find_row_id samples.merge_client "N999"
  = Raise (Exception "Row Not Found - keyword=N999").
Proof.
  split.
  - refine (proj1 (find_row_id_first samples.merge_client "N002")
              [ {| row_id := 100; parent_id := None;
                   cells := [ samples.text_cell 1 "653158_seg1";
                              samples.empty_cell 2; samples.empty_cell 3;
                              samples.empty_cell 4; samples.empty_cell 5;
                              samples.empty_cell 6 ] |};
                samples.review_row 101 true true "17" "N001" "(1, 2, 3)" ]
              (samples.review_row 102 false true "18" "N002" "(4, 5, 6)")
              [ samples.review_row 103 false false "19" "N003" "(7, 8, 9)" ]
              eq_refl _ _).
    + repeat constructor; discriminate.
    + do 4 apply Exists_cons_tl. apply Exists_cons_hd. reflexivity.
  - refine (proj2 (find_row_id_first samples.merge_client "N999") _).
    repeat constructor; discriminate.
Defined.

(** A sample name with two underscores, and one with none. *)
Lemma split_sample_first_underscore_witness :
  split_sample (PyStr "653158_seg_1") = Ok ("653158", "seg_1") ∧
  split_sample (PyStr "653158") = Raise ValueError.
Proof.
  apply (split_sample_first_underscore "653158" "seg_1"). reflexivity.
Defined.

(** Of the two columns titled Sample the second is kept. *)
Lemma init_column_name_to_id_witness :
  dict_get (column_name_to_id (init samples.twice_titled_sheet)) "Sample"
  = Some 3 ∧
  dict_get (column_name_to_id (init samples.twice_titled_sheet)) "Date" = None.
Proof.
  split.
  - refine (proj1 (init_column_name_to_id samples.twice_titled_sheet "Sample")
              [ {| title := "Sample"; col_id := 1 |};
                {| title := "Notes"; col_id := 2 |} ]
              {| title := "Sample"; col_id := 3 |} [] eq_refl eq_refl _).
    constructor.
  - refine (proj2 (init_column_name_to_id samples.twice_titled_sheet "Date") _).
    repeat constructor; discriminate.
Defined.

(** The parent row is the one row of the sample sheet that holds the sample
    name, whatever the case of its letters. *)
Lemma get_rows_in_column_with_spec_witness :
  StronglySorted Z.lt [0] ∧
  ∀ i : Z,
    i ∈ [0] ↔
    0 ≤ i < Z.of_nat (length (rows (sheet samples.merge_client))) ∧
    ∃ s, get_value samples.merge_client i "Sample" = Ok (PyStr s) ∧
         lower s = lower "653158_SEG1".
Proof.
  apply (get_rows_in_column_with_spec samples.merge_client "Sample"
           "653158_SEG1" [0]).
  vm_compute; reflexivity.
Defined.

(** The second review row of the sample sheet under its parent. *)
Lemma get_children_map_spec_witness :
  (∃ child_idxs,
     dict_get [(0, [1; 2; 3])] 0 = Some child_idxs ∧ 2 ∈ child_idxs)
  ↔
  ∃ (p c : nat) (parent child : Row),
    0 = Z.of_nat p ∧ 2 = Z.of_nat c ∧
    rows (sheet samples.merge_client) !! p = Some parent ∧
    rows (sheet samples.merge_client) !! c = Some child ∧
    has_parent child = Some (row_id parent).
Proof.
  refine (get_children_map_spec samples.merge_client [(0, [1; 2; 3])] _ _ 0 2).
  - apply (bool_decide_unpack _). vm_compute. exact I.
  - vm_compute; reflexivity.
Defined.

(** The review row of the sample sheet without its parent row. *)
Lemma get_children_map_dangling_parent_witness :
  get_children_map (init samples.orphan_sheet) = Raise KeyError.
Proof.
  apply (get_children_map_dangling_parent (init samples.orphan_sheet)
           (samples.review_row 101 true true "17" "N001" "(1, 2, 3)") 100).
  - apply list_elem_of_here.
  - reflexivity.
  - apply (bool_decide_unpack _). vm_compute. exact I.
Defined.

(** On the sample sheet one of the two reviewed rows is confirmed. *)
Lemma extract_merge_sites_overall_rate_witness :
  0 < confirmed_total samples.merge_client [(0, [1; 2; 3])]
    ≤ reviewed_total samples.merge_client [(0, [1; 2; 3])] ∧
  ∃ lines,
    [SuccessRate "653158" (QArith_base.Qmake 1 2);
     OverallSuccessRate (QArith_base.Qmake 1 2);
     ConfirmedMergeSites 1]
    = lines
      ++ [OverallSuccessRate
            (QArith_base.Qdiv
               (QArith_base.inject_Z
                  (confirmed_total samples.merge_client [(0, [1; 2; 3])]))
               (QArith_base.inject_Z
                  (reviewed_total samples.merge_client [(0, [1; 2; 3])])));
          ConfirmedMergeSites
            (confirmed_total samples.merge_client [(0, [1; 2; 3])])].
Proof.
  apply (extract_merge_sites_overall_rate samples.literal_eval
           samples.frame_of_columns samples.concat_frames samples.merge_client
           [(0, [1; 2; 3])]
           [(["653158"], ["seg1"],
             {| segment_id := [PyStr "17"]; groundtruth_id := [PyStr "N001"];
                xyz := [(1, 2, 3)] |})]).
  - vm_compute; reflexivity.
  - vm_compute; reflexivity.
Defined.

(** The sample sheet read without printing. *)
Lemma extract_merge_sites_quiet_witness :
  extract_merge_sites samples.literal_eval samples.frame_of_columns
    samples.concat_frames samples.merge_client false
  = Ok ([(["653158"], ["seg1"],
          {| segment_id := [PyStr "17"]; groundtruth_id := [PyStr "N001"];
             xyz := [(1, 2, 3)] |})], []).
Proof.
  apply (extract_merge_sites_quiet samples.literal_eval
           samples.frame_of_columns samples.concat_frames samples.merge_client _
           [SuccessRate "653158" (QArith_base.Qmake 1 2);
            OverallSuccessRate (QArith_base.Qmake 1 2);
            ConfirmedMergeSites 1]).
  vm_compute; reflexivity.
Defined.


End on_samples.
